(** * ShopHub: cart, checkout and row-level security

    A shallow embedding of the storefront's database schema
    ([supabase/migrations/20260216193806_create_ecommerce_schema.sql]) with
    its row-level security policies, and of the React handlers that talk to
    it ([ProductCatalog], [ProductDetail], [ShoppingCart], [Checkout]).

    Conventions of the embedding:
    - [uuid] and [text] columns and TypeScript [string]s are [string];
    - [integer] columns and integral JavaScript numbers are [Z] (the 32-bit
      range of the column type is not modelled);
    - [numeric] columns and JavaScript prices are exact rationals [Qc]
      (rounding of binary floating point is outside the model);
    - [created_at] columns are left out: no handler below reads them;
    - a table is the list of its rows in insertion order;
    - no policy lets anyone delete a product, a category or an order, so the
      ON DELETE actions of the foreign keys never run and are left out;
    - every call of the Supabase client consumes one answer of the transport
      oracle [w_net] (does the request reach the database?) and every
      [gen_random_uuid()] default one value of [w_rand]. *)

From Stdlib Require Import List String Ascii ZArith QArith Qcanon Bool Lia.
From Stdlib Require Import Permutation.
Import ListNotations.

Local Open Scope string_scope.
Local Open Scope list_scope.
Local Open Scope Z_scope.

Abbreviation uuid := string (only parsing).
Abbreviation text := string (only parsing).
Abbreviation numeric := Qc (only parsing).

Definition Z2Qc (z : Z) : Qc := Q2Qc (inject_Z z).
Definition Qc_nonneg (q : Qc) : bool := Qle_bool 0 (this q).

Definition opt_is (o : option uuid) (x : uuid) : bool :=
  match o with
  | Some y => String.eqb y x
  | None => false
  end.

(** SQL equality of two nullable keys inside a UNIQUE constraint: NULL is
    distinct from everything, itself included. *)
Definition sql_eq (a b : option uuid) : bool :=
  match a, b with
  | Some x, Some y => String.eqb x y
  | _, _ => false
  end.

(** ** Tables *)

Record category := mkCategory {
  cat_id : uuid;
  cat_name : text;
  cat_slug : text;
  cat_description : text
}.

Record product := mkProduct {
  p_id : uuid;
  p_name : text;
  p_description : text;
  p_price : numeric;
  p_image_url : text;
  p_category_id : option uuid;
  p_stock : Z;
  p_featured : bool
}.

Record cart_item := mkCartItem {
  ci_id : uuid;
  ci_user_id : uuid;
  ci_product_id : option uuid;
  ci_quantity : Z
}.

Record order := mkOrder {
  o_id : uuid;
  o_user_id : uuid;
  o_total : numeric;
  o_status : text;
  o_customer_name : text;
  o_customer_email : text;
  o_customer_address : text
}.

Record order_item := mkOrderItem {
  oi_id : uuid;
  oi_order_id : option uuid;
  oi_product_id : option uuid;
  oi_quantity : Z;
  oi_price : numeric
}.

Record database := mkDb {
  categories : list category;
  products : list product;
  cart_items : list cart_item;
  orders : list order;
  order_items : list order_item
}.

Definition set_cart_items (t : list cart_item) (db : database) : database :=
  mkDb (categories db) (products db) t (orders db) (order_items db).

Definition set_orders (t : list order) (db : database) : database :=
  mkDb (categories db) (products db) (cart_items db) t (order_items db).

Definition set_order_items (t : list order_item) (db : database) : database :=
  mkDb (categories db) (products db) (cart_items db) (orders db) t.

(** The row [r] with another quantity ([SET quantity = n]). *)
Definition with_quantity (n : Z) (r : cart_item) : cart_item :=
  mkCartItem (ci_id r) (ci_user_id r) (ci_product_id r) n.

(** ** Constraints of the schema *)

(** [PRIMARY KEY]: no identifier occurs twice. *)
Fixpoint distinct (ids : list uuid) : bool :=
  match ids with
  | [] => true
  | x :: rest => negb (existsb (String.eqb x) rest) && distinct rest
  end.

(** [CHECK (price >= 0)], [CHECK (stock >= 0)]. *)
Definition product_check (p : product) : bool :=
  Qc_nonneg (p_price p) && (0 <=? p_stock p).

(** [CHECK (quantity > 0)]. *)
Definition cart_item_check (r : cart_item) : bool := 0 <? ci_quantity r.

(** [CHECK (total >= 0)]. *)
Definition order_check (o : order) : bool := Qc_nonneg (o_total o).

(** [CHECK (quantity > 0)], [CHECK (price >= 0)]. *)
Definition order_item_check (r : order_item) : bool :=
  (0 <? oi_quantity r) && Qc_nonneg (oi_price r).

Definition same_user_product (a b : cart_item) : bool :=
  String.eqb (ci_user_id a) (ci_user_id b)
  && sql_eq (ci_product_id a) (ci_product_id b).

(** [UNIQUE(user_id, product_id)]. *)
Fixpoint user_product_unique (t : list cart_item) : bool :=
  match t with
  | [] => true
  | r :: rest =>
      negb (existsb (same_user_product r) rest) && user_product_unique rest
  end.

Definition product_exists (db : database) (pid : uuid) : bool :=
  existsb (fun p => String.eqb (p_id p) pid) (products db).

Definition order_exists (db : database) (oid : uuid) : bool :=
  existsb (fun o => String.eqb (o_id o) oid) (orders db).

(** A nullable [REFERENCES] column: NULL, or the key of an existing row. *)
Definition fk_ok (exists_ : uuid -> bool) (ref : option uuid) : bool :=
  match ref with
  | Some k => exists_ k
  | None => true
  end.

Definition cart_items_constraints (db : database) (t : list cart_item) : bool :=
  forallb cart_item_check t
  && distinct (map ci_id t)
  && user_product_unique t
  && forallb (fun r => fk_ok (product_exists db) (ci_product_id r)) t.

Definition orders_constraints (t : list order) : bool :=
  forallb order_check t && distinct (map o_id t).

Definition order_items_constraints (db : database) (t : list order_item) : bool :=
  forallb order_item_check t
  && distinct (map oi_id t)
  && forallb (fun r => fk_ok (order_exists db) (oi_order_id r)) t
  && forallb (fun r => fk_ok (product_exists db) (oi_product_id r)) t.

(** The state of a database that satisfies every declared constraint. *)
Definition db_constraints (db : database) : bool :=
  forallb product_check (products db)
  && distinct (map p_id (products db))
  && cart_items_constraints db (cart_items db)
  && orders_constraints (orders db)
  && order_items_constraints db (order_items db).

(** ** Row-level security policies *)

(** [auth.uid()]: the identity of the session, [None] for the [anon] role. *)
Definition auth := option uuid.

(** [TO authenticated USING (auth.uid() = user_id)]. *)
Definition uid_is (caller : auth) (owner : uuid) : bool :=
  match caller with
  | Some u => String.eqb u owner
  | None => false
  end.

(** "Categories are publicly readable", "Products are publicly readable". *)
Definition categories_select_policy (caller : auth) (c : category) : bool := true.
Definition products_select_policy (caller : auth) (p : product) : bool := true.

(** "Users can view own cart items". *)
Definition cart_items_select_policy (caller : auth) (r : cart_item) : bool :=
  uid_is caller (ci_user_id r).

(** "Users can insert own cart items". *)
Definition cart_items_insert_policy (caller : auth) (r : cart_item) : bool :=
  uid_is caller (ci_user_id r).

(** "Users can update own cart items": USING and WITH CHECK. *)
Definition cart_items_update_using (caller : auth) (r : cart_item) : bool :=
  uid_is caller (ci_user_id r).
Definition cart_items_update_check (caller : auth) (r : cart_item) : bool :=
  uid_is caller (ci_user_id r).

(** "Users can delete own cart items". *)
Definition cart_items_delete_policy (caller : auth) (r : cart_item) : bool :=
  uid_is caller (ci_user_id r).

(** "Users can view own orders". *)
Definition orders_select_policy (caller : auth) (o : order) : bool :=
  uid_is caller (o_user_id o).

(** "Users can create own orders". *)
Definition orders_insert_policy (caller : auth) (o : order) : bool :=
  uid_is caller (o_user_id o).

(** The sub-select of the [order_items] policies,
    [EXISTS (SELECT 1 FROM orders WHERE orders.id = order_items.order_id
             AND orders.user_id = auth.uid())];
    the inner read of [orders] runs under the caller's own select policy. *)
Definition owns_referenced_order (caller : auth) (db : database)
    (r : order_item) : bool :=
  existsb (fun o => opt_is (oi_order_id r) (o_id o) && uid_is caller (o_user_id o))
          (filter (orders_select_policy caller) (orders db)).

(** "Users can view order items for own orders". *)
Definition order_items_select_policy (caller : auth) (db : database)
    (r : order_item) : bool :=
  owns_referenced_order caller db r.

(** "Users can create order items for own orders". *)
Definition order_items_insert_policy (caller : auth) (db : database)
    (r : order_item) : bool :=
  owns_referenced_order caller db r.

(** ** Statements, as the database executes them for a caller *)

Inductive pg_error :=
| NetworkError
| RowSecurityViolation
| CheckViolation
| UniqueViolation
| ForeignKeyViolation
| MultipleRows.

(** [SELECT ... FROM cart_items WHERE where_]. *)
Definition select_cart_items (caller : auth) (where_ : cart_item -> bool)
    (db : database) : list cart_item :=
  filter (fun r => cart_items_select_policy caller r && where_ r) (cart_items db).

Definition select_orders (caller : auth) (where_ : order -> bool)
    (db : database) : list order :=
  filter (fun o => orders_select_policy caller o && where_ o) (orders db).

Definition select_order_items (caller : auth) (where_ : order_item -> bool)
    (db : database) : list order_item :=
  filter (fun r => order_items_select_policy caller db r && where_ r)
         (order_items db).

Definition select_products (caller : auth) (where_ : product -> bool)
    (db : database) : list product :=
  filter (fun p => products_select_policy caller p && where_ p) (products db).

Definition select_categories (caller : auth) (where_ : category -> bool)
    (db : database) : list category :=
  filter (fun c => categories_select_policy caller c && where_ c) (categories db).

(** The embedded resource [product:products(...)] of a cart row: the product
    its foreign key points to, [None] (JSON null) when there is none. *)
Definition embed_product (caller : auth) (db : database) (r : cart_item)
    : option product :=
  match ci_product_id r with
  | Some pid => find (fun p => String.eqb (p_id p) pid)
                     (select_products caller (fun _ => true) db)
  | None => None
  end.

(** A cart row together with its embedded product. *)
Definition joined_row : Type := cart_item * option product.

(** An order line together with its embedded product. *)
Definition joined_order_row : Type := order_item * option product.

(** [INSERT INTO cart_items]: one statement, all rows or none.  On a table
    that satisfied its constraints before, checking the whole new table is
    checking the new rows. *)
Definition insert_cart_items (caller : auth) (rows : list cart_item)
    (db : database) : option pg_error * database :=
  let t := cart_items db ++ rows in
  if negb (forallb (cart_items_insert_policy caller) rows)
  then (Some RowSecurityViolation, db)
  else if negb (forallb cart_item_check rows)
  then (Some CheckViolation, db)
  else if negb (distinct (map ci_id t) && user_product_unique t)
  then (Some UniqueViolation, db)
  else if negb (forallb (fun r => fk_ok (product_exists db) (ci_product_id r)) rows)
  then (Some ForeignKeyViolation, db)
  else (None, set_cart_items t db).

(** The rows an UPDATE or DELETE of [cart_items] may touch: those the caller
    can see, that pass the statement's own policy, and that match. *)
Definition cart_items_update_target (caller : auth) (where_ : cart_item -> bool)
    (r : cart_item) : bool :=
  cart_items_select_policy caller r && cart_items_update_using caller r && where_ r.

Definition cart_items_delete_target (caller : auth) (where_ : cart_item -> bool)
    (r : cart_item) : bool :=
  cart_items_select_policy caller r && cart_items_delete_policy caller r && where_ r.

(** [UPDATE cart_items SET ... WHERE where_]; [set_] is the new row as a
    function of the old one. *)
Definition update_cart_items (caller : auth) (where_ : cart_item -> bool)
    (set_ : cart_item -> cart_item) (db : database)
    : option pg_error * database :=
  let target := cart_items_update_target caller where_ in
  let changed := map set_ (filter target (cart_items db)) in
  let t := map (fun r => if target r then set_ r else r) (cart_items db) in
  if negb (forallb (cart_items_update_check caller) changed)
  then (Some RowSecurityViolation, db)
  else if negb (forallb cart_item_check changed)
  then (Some CheckViolation, db)
  else if negb (distinct (map ci_id t) && user_product_unique t)
  then (Some UniqueViolation, db)
  else if negb (forallb (fun r => fk_ok (product_exists db) (ci_product_id r)) changed)
  then (Some ForeignKeyViolation, db)
  else (None, set_cart_items t db).

(** [DELETE FROM cart_items WHERE where_]; nothing references this table. *)
Definition delete_cart_items (caller : auth) (where_ : cart_item -> bool)
    (db : database) : option pg_error * database :=
  (None,
   set_cart_items
     (filter (fun r => negb (cart_items_delete_target caller where_ r))
             (cart_items db))
     db).

(** [INSERT INTO orders]; with [returning] (the client's [.select()]) the new
    rows are also read back, under the select policy. *)
Definition insert_orders (caller : auth) (returning : bool) (rows : list order)
    (db : database) : option pg_error * database :=
  let t := orders db ++ rows in
  if negb (forallb (orders_insert_policy caller) rows)
  then (Some RowSecurityViolation, db)
  else if returning && negb (forallb (orders_select_policy caller) rows)
  then (Some RowSecurityViolation, db)
  else if negb (forallb order_check rows)
  then (Some CheckViolation, db)
  else if negb (distinct (map o_id t))
  then (Some UniqueViolation, db)
  else (None, set_orders t db).

(** [INSERT INTO order_items]. *)
Definition insert_order_items (caller : auth) (rows : list order_item)
    (db : database) : option pg_error * database :=
  let t := order_items db ++ rows in
  if negb (forallb (order_items_insert_policy caller db) rows)
  then (Some RowSecurityViolation, db)
  else if negb (forallb order_item_check rows)
  then (Some CheckViolation, db)
  else if negb (distinct (map oi_id t))
  then (Some UniqueViolation, db)
  else if negb (forallb (fun r => fk_ok (order_exists db) (oi_order_id r)) rows
                && forallb (fun r => fk_ok (product_exists db) (oi_product_id r)) rows)
  then (Some ForeignKeyViolation, db)
  else (None, set_order_items t db).

(** Row-level security is enabled on [orders] and [order_items] and the
    migration declares no UPDATE or DELETE policy for them: such a statement
    sees no row and changes nothing. *)
Definition update_orders (caller : auth) (where_ : order -> bool)
    (set_ : order -> order) (db : database) : option pg_error * database :=
  (None, db).

Definition delete_orders (caller : auth) (where_ : order -> bool)
    (db : database) : option pg_error * database :=
  (None, db).

Definition update_order_items (caller : auth) (where_ : order_item -> bool)
    (set_ : order_item -> order_item) (db : database)
    : option pg_error * database :=
  (None, db).

Definition delete_order_items (caller : auth) (where_ : order_item -> bool)
    (db : database) : option pg_error * database :=
  (None, db).

(** Every request a caller can send about the three private tables. *)
Inductive request :=
| SelectCartItems (where_ : cart_item -> bool)
| InsertCartItems (rows : list cart_item)
| UpdateCartItems (where_ : cart_item -> bool) (set_ : cart_item -> cart_item)
| DeleteCartItems (where_ : cart_item -> bool)
| SelectOrders (where_ : order -> bool)
| InsertOrders (returning : bool) (rows : list order)
| UpdateOrders (where_ : order -> bool) (set_ : order -> order)
| DeleteOrders (where_ : order -> bool)
| SelectOrderItems (where_ : order_item -> bool)
| InsertOrderItems (rows : list order_item)
| UpdateOrderItems (where_ : order_item -> bool) (set_ : order_item -> order_item)
| DeleteOrderItems (where_ : order_item -> bool).

(** What comes back: the rows of each private table the answer contains. *)
Record reply := mkReply {
  r_cart_items : list cart_item;
  r_orders : list order;
  r_order_items : list order_item;
  r_error : option pg_error
}.

Definition no_rows (e : option pg_error) : reply := mkReply [] [] [] e.

Definition exec (caller : auth) (q : request) (db : database) : reply * database :=
  match q with
  | SelectCartItems w => (mkReply (select_cart_items caller w db) [] [] None, db)
  | InsertCartItems rows =>
      let (e, db') := insert_cart_items caller rows db in (no_rows e, db')
  | UpdateCartItems w s =>
      let (e, db') := update_cart_items caller w s db in (no_rows e, db')
  | DeleteCartItems w =>
      let (e, db') := delete_cart_items caller w db in (no_rows e, db')
  | SelectOrders w => (mkReply [] (select_orders caller w db) [] None, db)
  | InsertOrders returning rows =>
      let (e, db') := insert_orders caller returning rows db in
      (mkReply [] (match e with
                   | None => if returning then rows else []
                   | Some _ => []
                   end) [] e, db')
  | UpdateOrders w s =>
      let (e, db') := update_orders caller w s db in (no_rows e, db')
  | DeleteOrders w =>
      let (e, db') := delete_orders caller w db in (no_rows e, db')
  | SelectOrderItems w => (mkReply [] [] (select_order_items caller w db) None, db)
  | InsertOrderItems rows =>
      let (e, db') := insert_order_items caller rows db in (no_rows e, db')
  | UpdateOrderItems w s =>
      let (e, db') := update_order_items caller w s db in (no_rows e, db')
  | DeleteOrderItems w =>
      let (e, db') := delete_order_items caller w db in (no_rows e, db')
  end.

(** ** The browser side: the Supabase client and the page *)

(** What a handler leaves behind besides database writes. *)
Inductive effect :=
| DispatchEvent (name : string)   (* window.dispatchEvent(new Event(name)) *)
| Alert (message : string)        (* alert(message) *)
| Callback (name : string).       (* a callback prop of the component *)

Record world := mkWorld {
  w_db : database;
  w_net : nat -> bool;      (* does the k-th coming request reach the database? *)
  w_rand : nat -> uuid;     (* the k-th coming gen_random_uuid() *)
  w_log : list effect       (* effects so far, oldest first *)
}.

Definition M (A : Type) : Type := world -> A * world.

Definition ret {A : Type} (a : A) : M A := fun w => (a, w).

Definition bind {A B : Type} (m : M A) (k : A -> M B) : M B :=
  fun w => let (a, w') := m w in k a w'.

Declare Scope m_scope.
Delimit Scope m_scope with m.
Notation "x <- m ;; k" := (bind m (fun x => k))
  (at level 100, m at next level, right associativity) : m_scope.
Notation "m ;;; k" := (bind m (fun _ => k))
  (at level 100, right associativity) : m_scope.
Local Open Scope m_scope.

Definition perform (e : effect) : M unit :=
  fun w => (tt, mkWorld (w_db w) (w_net w) (w_rand w) (w_log w ++ [e])).

Definition dispatchEvent (name : string) : M unit := perform (DispatchEvent name).
Definition alert (message : string) : M unit := perform (Alert message).

(** The [{ data, error }] object every Supabase call resolves to. *)
Record response (A : Type) := mkResponse {
  data : option A;
  error : option pg_error
}.
Arguments mkResponse {A} _ _.
Arguments data {A} _.
Arguments error {A} _.

(** One round trip: the statement runs if the request gets through. *)
Definition round_trip {A : Type} (stmt : database -> response A * database)
    : M (response A) :=
  fun w =>
    let rest := fun k => w_net w (S k) in
    if w_net w 0%nat
    then let (r, db') := stmt (w_db w) in
         (r, mkWorld db' rest (w_rand w) (w_log w))
    else (mkResponse None (Some NetworkError),
          mkWorld (w_db w) rest (w_rand w) (w_log w)).

Definition gen_random_uuid : M uuid :=
  fun w => (w_rand w 0%nat,
            mkWorld (w_db w) (w_net w) (fun k => w_rand w (S k)) (w_log w)).

Fixpoint gen_random_uuids (n : nat) : M (list uuid) :=
  match n with
  | O => ret []
  | S n' => id <- gen_random_uuid ;; ids <- gen_random_uuids n' ;; ret (id :: ids)
  end.

(** [.maybeSingle()]: no row is [null], two rows are an error. *)
Definition maybeSingle {A : Type} (rows : list A) : response A :=
  match rows with
  | [] => mkResponse None None
  | [r] => mkResponse (Some r) None
  | _ => mkResponse None (Some MultipleRows)
  end.

(** [.single()]: exactly one row, anything else is an error. *)
Definition single {A : Type} (rows : list A) : response A :=
  match rows with
  | [r] => mkResponse (Some r) None
  | _ => mkResponse None (Some MultipleRows)
  end.

(** A write without [.select()]: no data, maybe an error. *)
Definition written (res : option pg_error * database) : response unit * database :=
  (mkResponse None (fst res), snd res).

(** The authenticated user of [useAuth()]; the client sends every request
    with this user's session. *)
Record User := mkUser {
  u_id : uuid;
  u_email : option string
}.

Definition session (user : option User) : auth := option_map u_id user.

(** The result of JavaScript that reads a property of a possibly [null]
    object: a value, or the TypeError thrown by the read. *)
Inductive outcome (A : Type) :=
| Done (a : A)
| TypeError.
Arguments Done {A} _.
Arguments TypeError {A}.

(** The calls the components make, spelled as they are in the source. *)
Module supabase.

(** [from('cart_items').select('*').eq('user_id', uid).eq('product_id', pid)
    .maybeSingle()] *)
Definition cart_items_maybeSingle (user : option User) (uid pid : uuid)
    : M (response cart_item) :=
  round_trip (fun db =>
    (maybeSingle
       (select_cart_items (session user)
          (fun r => String.eqb (ci_user_id r) uid && opt_is (ci_product_id r) pid)
          db),
     db)).

(** [from('cart_items').update({ quantity }).eq('id', id)] *)
Definition cart_items_update_quantity (user : option User) (id : uuid) (quantity : Z)
    : M (response unit) :=
  round_trip (fun db =>
    written (update_cart_items (session user)
               (fun r => String.eqb (ci_id r) id)
               (with_quantity quantity)
               db)).

(** [from('cart_items').insert({ user_id, product_id, quantity })]; the
    [id] column takes its default. *)
Definition cart_items_insert (user : option User) (uid pid : uuid) (quantity : Z)
    : M (response unit) :=
  id <- gen_random_uuid ;;
  round_trip (fun db =>
    written (insert_cart_items (session user)
               [mkCartItem id uid (Some pid) quantity] db)).

(** [from('cart_items').delete().eq('id', id)] *)
Definition cart_items_delete_id (user : option User) (id : uuid)
    : M (response unit) :=
  round_trip (fun db =>
    written (delete_cart_items (session user)
               (fun r => String.eqb (ci_id r) id) db)).

(** [from('cart_items').delete().eq('user_id', uid)] *)
Definition cart_items_delete_user (user : option User) (uid : uuid)
    : M (response unit) :=
  round_trip (fun db =>
    written (delete_cart_items (session user)
               (fun r => String.eqb (ci_user_id r) uid) db)).

(** [from('cart_items').select('id, quantity, product:products(...)')
    .eq('user_id', uid)]: each row of the cart with its embedded product. *)
Definition cart_items_with_product (user : option User) (uid : uuid)
    : M (response (list joined_row)) :=
  round_trip (fun db =>
    (mkResponse
       (Some (map (fun r => (r, embed_product (session user) db r))
                  (select_cart_items (session user)
                     (fun r => String.eqb (ci_user_id r) uid) db)))
       None,
     db)).

(** [from('orders').insert({...}).select().single()] *)
Definition orders_insert_single (user : option User) (uid : uuid) (total : numeric)
    (status name email address : text) : M (response order) :=
  id <- gen_random_uuid ;;
  round_trip (fun db =>
    let row := mkOrder id uid total status name email address in
    let (e, db') := insert_orders (session user) true [row] db in
    (match e with
     | None => single [row]
     | Some _ => mkResponse None e
     end, db')).

(** [from('order_items').insert(rows)]; every [id] takes its default. *)
Definition order_items_insert (user : option User)
    (rows : list (uuid * uuid * Z * numeric)) : M (response unit) :=
  ids <- gen_random_uuids (List.length rows) ;;
  round_trip (fun db =>
    written (insert_order_items (session user)
               (map (fun ir =>
                       match ir with
                       | (id, (order_id, product_id, quantity, price)) =>
                           mkOrderItem id (Some order_id) (Some product_id)
                                       quantity price
                       end)
                    (combine ids rows))
               db)).

(** [from('cart_items').select('quantity').eq('user_id', uid)] *)
Definition cart_items_quantities (user : option User) (uid : uuid)
    : M (response (list Z)) :=
  round_trip (fun db =>
    (mkResponse
       (Some (map ci_quantity
                  (select_cart_items (session user)
                     (fun r => String.eqb (ci_user_id r) uid) db)))
       None,
     db)).

(** [from('orders').select('*').eq('user_id', uid)
    .order('created_at', { ascending: false })].  The [created_at] column is
    not part of the model: [newest_first] stands for the sort on it. *)
Definition orders_of (newest_first : list order -> list order)
    (user : option User) (uid : uuid) : M (response (list order)) :=
  round_trip (fun db =>
    (mkResponse
       (Some (newest_first
                (select_orders (session user)
                   (fun o => String.eqb (o_user_id o) uid) db)))
       None,
     db)).

(** The embedded resource [product:products(name, image_url)] of an order
    line: [None] once the product is gone. *)
Definition embed_order_product (caller : auth) (db : database) (r : order_item)
    : option product :=
  match oi_product_id r with
  | Some pid => find (fun p => String.eqb (p_id p) pid)
                     (select_products caller (fun _ => true) db)
  | None => None
  end.

(** [from('order_items').select('id, quantity, price,
    product:products(name, image_url)').eq('order_id', oid)] *)
Definition order_items_with_product (user : option User) (oid : uuid)
    : M (response (list joined_order_row)) :=
  round_trip (fun db =>
    (mkResponse
       (Some (map (fun r => (r, embed_order_product (session user) db r))
                  (select_order_items (session user)
                     (fun r => opt_is (oi_order_id r) oid) db)))
       None,
     db)).

(** [from('categories').select('*').order('name')]; [by_name] stands for the
    sort. *)
Definition categories_all (by_name : list category -> list category)
    (user : option User) : M (response (list category)) :=
  round_trip (fun db =>
    (mkResponse
       (Some (by_name (select_categories (session user) (fun _ => true) db)))
       None,
     db)).

(** [from('products').select('*').order('created_at', { ascending: false })];
    [newest_first] stands for the sort on the column the model leaves out. *)
Definition products_all (newest_first : list product -> list product)
    (user : option User) : M (response (list product)) :=
  round_trip (fun db =>
    (mkResponse
       (Some (newest_first (select_products (session user) (fun _ => true) db)))
       None,
     db)).

End supabase.

(** ** JavaScript strings (on ASCII) *)

Definition lower_ascii (c : ascii) : ascii :=
  let n := nat_of_ascii c in
  if Nat.leb 65 n && Nat.leb n 90 then ascii_of_nat (n + 32) else c.

(** [String.prototype.toLowerCase]. *)
Fixpoint toLowerCase (s : string) : string :=
  match s with
  | EmptyString => EmptyString
  | String c rest => String (lower_ascii c) (toLowerCase rest)
  end.

(** [haystack.includes(needle)]. *)
Fixpoint includes (haystack needle : string) : bool :=
  String.prefix needle haystack
  || match haystack with
     | EmptyString => false
     | String _ rest => includes rest needle
     end.

(** ** ProductDetail.tsx *)
Module ProductDetail.

Record State := mkState {
  quantity : Z;
  showAuthModal : bool
}.

Definition setShowAuthModal (b : bool) (st : State) : State :=
  mkState (quantity st) b.

Definition handleAddToCart (user : option User) (product : product)
    (st : State) : M State :=
  match user with
  | None => ret (setShowAuthModal true st)
  | Some u =>
      r <- supabase.cart_items_maybeSingle user (u_id u) (p_id product) ;;
      (match data r with
       | Some existingItem =>
           supabase.cart_items_update_quantity user (ci_id existingItem)
             (ci_quantity existingItem + quantity st)
       | None =>
           supabase.cart_items_insert user (u_id u) (p_id product) (quantity st)
       end) ;;;
      dispatchEvent "cart-updated" ;;;
      perform (Callback "onClose") ;;;
      ret st
  end.

Definition setQuantity (q : Z) (st : State) : State :=
  mkState q (showAuthModal st).

(** The [-] button: [setQuantity(Math.max(1, quantity - 1))]. *)
Definition onMinus (st : State) : State :=
  setQuantity (Z.max 1 (quantity st - 1)) st.

(** The [+] button: [setQuantity(Math.min(product.stock, quantity + 1))]. *)
Definition onPlus (product : product) (st : State) : State :=
  setQuantity (Z.min (p_stock product) (quantity st + 1)) st.

(** The number field:
    [setQuantity(Math.max(1, Math.min(product.stock, parseInt(value) || 1)))];
    [parsed] is what [parseInt] made of the text, [None] for NaN, and
    [x || 1] is 1 for NaN and for 0. *)
Definition onChange (product : product) (parsed : option Z) (st : State) : State :=
  let n := match parsed with
           | Some v => if v =? 0 then 1 else v
           | None => 1
           end in
  setQuantity (Z.max 1 (Z.min (p_stock product) n)) st.

(** [{product.stock > 0 && (...)}]: the quantity controls and the
    "Add to Cart" button are rendered for a product in stock only. *)
Definition offersAddToCart (product : product) : bool := 0 <? p_stock product.

(** What the customer can do to the quantity. *)
Inductive control :=
| Minus
| Plus
| Typed (parsed : option Z).

Definition operate (product : product) (st : State) (c : control) : State :=
  match c with
  | Minus => onMinus st
  | Plus => onPlus product st
  | Typed parsed => onChange product parsed st
  end.

End ProductDetail.

(** ** ProductCatalog.tsx *)
Module ProductCatalog.

Record State := mkState {
  products : list product;
  categories : list category;
  selectedCategory : string;
  searchQuery : string;
  loading : bool;
  showAuthModal : bool
}.

Definition setShowAuthModal (b : bool) (st : State) : State :=
  mkState (products st) (categories st) (selectedCategory st) (searchQuery st)
          (loading st) b.

Definition matchesCategory (st : State) (product : product) : bool :=
  String.eqb (selectedCategory st) "all"
  || opt_is (p_category_id product) (selectedCategory st).

Definition matchesSearch (st : State) (product : product) : bool :=
  includes (toLowerCase (p_name product)) (toLowerCase (searchQuery st))
  || includes (toLowerCase (p_description product)) (toLowerCase (searchQuery st)).

Definition filteredProducts (st : State) : list product :=
  filter (fun product => matchesCategory st product && matchesSearch st product)
         (products st).

Definition handleAddToCart (user : option User) (product : product)
    (st : State) : M State :=
  match user with
  | None => ret (setShowAuthModal true st)
  | Some u =>
      r <- supabase.cart_items_maybeSingle user (u_id u) (p_id product) ;;
      (match data r with
       | Some existingItem =>
           supabase.cart_items_update_quantity user (ci_id existingItem)
             (ci_quantity existingItem + 1)
       | None =>
           supabase.cart_items_insert user (u_id u) (p_id product) 1
       end) ;;;
      dispatchEvent "cart-updated" ;;;
      ret st
  end.

Definition setProducts (l : list product) (st : State) : State :=
  mkState l (categories st) (selectedCategory st) (searchQuery st)
          (loading st) (showAuthModal st).
Definition setCategories (l : list category) (st : State) : State :=
  mkState (products st) l (selectedCategory st) (searchQuery st)
          (loading st) (showAuthModal st).
Definition setLoading (b : bool) (st : State) : State :=
  mkState (products st) (categories st) (selectedCategory st) (searchQuery st)
          b (showAuthModal st).


(** The state of [useState] at the first render. *)
Definition initial : State := mkState [] [] "all" "" true false.

Definition fetchCategories (by_name : list category -> list category)
    (user : option User) (st : State) : M State :=
  r <- supabase.categories_all by_name user ;;
  ret (match data r with
       | Some rows => setCategories rows st
       | None => st
       end).

Definition fetchProducts (newest_first : list product -> list product)
    (user : option User) (st : State) : M State :=
  let st := setLoading true st in
  r <- supabase.products_all newest_first user ;;
  let st := match data r with
            | Some rows => setProducts rows st
            | None => st
            end in
  ret (setLoading false st).

(** The effect of the first render: [fetchCategories(); fetchProducts();].
    The two calls run side by side; the categories request is sent first,
    and the two write different parts of the state, so that the state they
    leave is the state of one after the other. *)
Definition onMount (by_name : list category -> list category)
    (newest_first : list product -> list product)
    (user : option User) (st : State) : M State :=
  st <- fetchCategories by_name user st ;;
  fetchProducts newest_first user st.

(** [{!loading && filteredProducts.length === 0 && (...)}]: the
    "No products found" message. *)
Definition showsNoProducts (st : State) : bool :=
  negb (loading st) && (List.length (filteredProducts st) =? 0)%nat.

End ProductCatalog.

(** ** ShoppingCart.tsx *)
Module ShoppingCart.

Record CartProduct := mkCartProduct {
  cp_id : uuid;
  cp_name : text;
  cp_price : numeric;
  cp_image_url : text;
  cp_stock : Z
}.

Record CartItem := mkCartItem {
  id : uuid;
  quantity : Z;
  product : option CartProduct
}.

Record State := mkState {
  cartItems : list CartItem;
  loading : bool
}.

Definition setCartItems (l : list CartItem) (st : State) : State :=
  mkState l (loading st).
Definition setLoading (b : bool) (st : State) : State :=
  mkState (cartItems st) b.

(** One element of [data]: the selected columns of the row and of its
    embedded product. *)
Definition item_of (rp : joined_row) : CartItem :=
  mkCartItem (ci_id (fst rp)) (ci_quantity (fst rp))
    (option_map (fun p => mkCartProduct (p_id p) (p_name p) (p_price p)
                                        (p_image_url p) (p_stock p))
                (snd rp)).

Definition fetchCartItems (user : option User) (st : State) : M State :=
  match user with
  | None => ret st
  | Some u =>
      let st := setLoading true st in
      r <- supabase.cart_items_with_product user (u_id u) ;;
      let st := match data r with
                | Some rows => setCartItems (map item_of rows) st
                | None => st
                end in
      ret (setLoading false st)
  end.

Definition updateQuantity (user : option User) (itemId : uuid)
    (newQuantity : Z) (st : State) : M State :=
  if newQuantity <? 1 then ret st
  else
    supabase.cart_items_update_quantity user itemId newQuantity ;;;
    fetchCartItems user st.

Definition removeItem (user : option User) (itemId : uuid) (st : State)
    : M State :=
  supabase.cart_items_delete_id user itemId ;;;
  st' <- fetchCartItems user st ;;
  dispatchEvent "cart-updated" ;;;
  ret st'.

(** [{cartItems.length > 0 && (... Proceed to Checkout ...)}]: the footer with
    the checkout button is rendered for a non-empty cart only. *)
Definition offersCheckout (st : State) : bool :=
  0 <? Z.of_nat (List.length (cartItems st)).

(** [cartItems.reduce((sum, item) => sum + item.product.price * item.quantity, 0)]. *)
Definition total (st : State) : outcome numeric :=
  fold_left
    (fun sum item =>
       match sum, product item with
       | Done s, Some p => Done (s + cp_price p * Z2Qc (quantity item))%Qc
       | _, _ => TypeError
       end)
    (cartItems st) (Done (Q2Qc 0)).

(** The [-] button of a line: [updateQuantity(item.id, item.quantity - 1)]. *)
Definition onMinus (user : option User) (item : CartItem) (st : State) : M State :=
  updateQuantity user (id item) (quantity item - 1) st.

(** The [+] button of a line: [updateQuantity(item.id, item.quantity + 1)];
    it is disabled when [item.quantity >= item.product.stock]. *)
Definition onPlus (user : option User) (item : CartItem) (st : State) : M State :=
  updateQuantity user (id item) (quantity item + 1) st.

Definition plusDisabled (item : CartItem) : outcome bool :=
  match product item with
  | Some p => Done (cp_stock p <=? quantity item)
  | None => TypeError
  end.

End ShoppingCart.

(** ** Checkout.tsx *)
Module Checkout.

Record CartProduct := mkCartProduct {
  cp_id : uuid;
  cp_name : text;
  cp_price : numeric
}.

Record CartItem := mkCartItem {
  id : uuid;
  quantity : Z;
  product : option CartProduct
}.

Record State := mkState {
  cartItems : list CartItem;
  customerName : string;
  customerEmail : string;
  customerAddress : string;
  loading : bool;
  orderPlaced : bool
}.

Definition initial : State := mkState [] "" "" "" false false.

Definition setCartItems (l : list CartItem) (st : State) : State :=
  mkState l (customerName st) (customerEmail st) (customerAddress st)
          (loading st) (orderPlaced st).
Definition setCustomerName (s : string) (st : State) : State :=
  mkState (cartItems st) s (customerEmail st) (customerAddress st)
          (loading st) (orderPlaced st).
Definition setCustomerEmail (s : string) (st : State) : State :=
  mkState (cartItems st) (customerName st) s (customerAddress st)
          (loading st) (orderPlaced st).
Definition setCustomerAddress (s : string) (st : State) : State :=
  mkState (cartItems st) (customerName st) (customerEmail st) s
          (loading st) (orderPlaced st).
Definition setLoading (b : bool) (st : State) : State :=
  mkState (cartItems st) (customerName st) (customerEmail st)
          (customerAddress st) b (orderPlaced st).
Definition setOrderPlaced (b : bool) (st : State) : State :=
  mkState (cartItems st) (customerName st) (customerEmail st)
          (customerAddress st) (loading st) b.

Definition item_of (rp : joined_row) : CartItem :=
  mkCartItem (ci_id (fst rp)) (ci_quantity (fst rp))
    (option_map (fun p => mkCartProduct (p_id p) (p_name p) (p_price p))
                (snd rp)).

Definition fetchCartItems (user : option User) (st : State) : M State :=
  match user with
  | None => ret st
  | Some u =>
      r <- supabase.cart_items_with_product user (u_id u) ;;
      match data r with
      | Some rows => ret (setCartItems (map item_of rows) st)
      | None => ret st
      end
  end.

(** The effect on [[isOpen, user]], when the dialog opens. *)
Definition onOpen (user : option User) (st : State) : M State :=
  match user with
  | None => ret st
  | Some u =>
      st' <- fetchCartItems user st ;;
      ret (setCustomerEmail (match u_email u with
                             | Some e => e
                             | None => ""
                             end) st')
  end.

(** [cartItems.reduce((sum, item) => sum + item.product.price * item.quantity, 0)];
    reading [price] of a null product throws. *)
Definition total (items : list CartItem) : outcome numeric :=
  fold_left
    (fun sum item =>
       match sum, product item with
       | Done s, Some p => Done (s + cp_price p * Z2Qc (quantity item))%Qc
       | _, _ => TypeError
       end)
    items (Done (Q2Qc 0)).

(** [cartItems.map(item => ({ order_id, product_id: item.product.id,
    quantity: item.quantity, price: item.product.price }))]. *)
Fixpoint orderItems (order_id : uuid) (items : list CartItem)
    : outcome (list (uuid * uuid * Z * numeric)) :=
  match items with
  | [] => Done []
  | item :: rest =>
      match product item, orderItems order_id rest with
      | Some p, Done l => Done ((order_id, cp_id p, quantity item, cp_price p) :: l)
      | _, _ => TypeError
      end
  end.

(** The submit handler of the form.  [total] was computed by the render
    that shows the form; the three-second timer that closes the dialog
    afterwards is not part of the model. *)
Definition handlePlaceOrder (user : option User) (st : State)
    : M (outcome State) :=
  match user with
  | None => ret (Done st)
  | Some u =>
      match total (cartItems st) with
      | TypeError => ret TypeError
      | Done total =>
          let st := setLoading true st in
          r <- supabase.orders_insert_single user (u_id u) total "pending"
                 (customerName st) (customerEmail st) (customerAddress st) ;;
          match error r, data r with
          | None, Some order =>
              match orderItems (o_id order) (cartItems st) with
              | TypeError => ret TypeError
              | Done rows =>
                  supabase.order_items_insert user rows ;;;
                  supabase.cart_items_delete_user user (u_id u) ;;;
                  let st := setOrderPlaced true (setLoading false st) in
                  dispatchEvent "cart-updated" ;;;
                  ret (Done st)
              end
          | _, _ =>
              alert "Error placing order. Please try again." ;;;
              ret (Done (setLoading false st))
          end
      end
  end.

Record CustomerInfo := mkCustomerInfo {
  name : string;
  email : string;
  address : string
}.

(** [placeOrder(userId, customerInfo)] as the page offers it: the dialog,
    in whatever state [st0] its last use left it, opens and reads the cart,
    the customer fills in the form, the form is submitted. *)
Definition placeOrder (user : option User) (info : CustomerInfo) (st0 : State)
    : M (outcome State) :=
  st <- onOpen user st0 ;;
  let st := setCustomerAddress (address info)
              (setCustomerEmail (email info)
                 (setCustomerName (name info) st)) in
  handlePlaceOrder user st.

End Checkout.

(** ** Header.tsx *)
Module Header.

(** [{cartItemCount > 0 && (<span>...{cartItemCount}</span>)}], inside the
    branch for a signed-in user. *)
Definition showsBadge (user : option User) (cartItemCount : Z) : bool :=
  match user with
  | Some _ => 0 <? cartItemCount
  | None => false
  end.

End Header.

(** ** App.tsx *)
Module App.

Record State := mkState {
  selectedProduct : option product;
  showCart : bool;
  showCheckout : bool;
  showOrders : bool;
  cartItemCount : Z
}.

Definition setCartItemCount (n : Z) (st : State) : State :=
  mkState (selectedProduct st) (showCart st) (showCheckout st) (showOrders st) n.

(** [data.reduce((sum, item) => sum + item.quantity, 0)] *)
Definition updateCartCount (user : option User) (st : State) : M State :=
  match user with
  | None => ret st
  | Some u =>
      r <- supabase.cart_items_quantities user (u_id u) ;;
      match data r with
      | Some rows =>
          ret (setCartItemCount (fold_left (fun sum q => sum + q) rows 0) st)
      | None => ret st
      end
  end.

(** The effect on [[user]]: count for a user, zero without one. *)
Definition onUser (user : option User) (st : State) : M State :=
  match user with
  | Some _ => updateCartCount user st
  | None => ret (setCartItemCount 0 st)
  end.

(** The listener of the "cart-updated" event. *)
Definition handleCartUpdate (user : option User) (st : State) : M State :=
  updateCartCount user st.

End App.

(** ** Orders.tsx *)
Module Orders.

Record OrderProduct := mkOrderProduct {
  op_name : text;
  op_image_url : text
}.

Record OrderItem := mkOrderItem {
  id : uuid;
  quantity : Z;
  price : numeric;
  product : option OrderProduct
}.

(** [{ ...order, items }] *)
Record Order := mkOrder {
  row : order;
  items : list OrderItem
}.

Record State := mkState {
  orders : list Order;
  loading : bool;
  expandedOrder : option string
}.

Definition setOrders (l : list Order) (st : State) : State :=
  mkState l (loading st) (expandedOrder st).
Definition setLoading (b : bool) (st : State) : State :=
  mkState (orders st) b (expandedOrder st).
Definition setExpandedOrder (e : option string) (st : State) : State :=
  mkState (orders st) (loading st) e.

Definition item_of (rp : joined_order_row) : OrderItem :=
  mkOrderItem (oi_id (fst rp)) (oi_quantity (fst rp)) (oi_price (fst rp))
    (option_map (fun p => mkOrderProduct (p_name p) (p_image_url p)) (snd rp)).

(** The body of [ordersData.map(async (order) => ...)]: the lines of one
    order, [items || []]. *)
Definition withItems (user : option User) (o : order) : M Order :=
  r <- supabase.order_items_with_product user (o_id o) ;;
  ret (mkOrder o match data r with
                 | Some rows => map item_of rows
                 | None => []
                 end).

(** [Promise.all(ordersData.map(...))], one request after the other. *)
Fixpoint all (user : option User) (l : list order) : M (list Order) :=
  match l with
  | [] => ret []
  | o :: rest =>
      x <- withItems user o ;;
      xs <- all user rest ;;
      ret (x :: xs)
  end.

Definition fetchOrders (newest_first : list order -> list order)
    (user : option User) (st : State) : M State :=
  match user with
  | None => ret st
  | Some u =>
      let st := setLoading true st in
      r <- supabase.orders_of newest_first user (u_id u) ;;
      match data r with
      | Some ordersData =>
          ordersWithItems <- all user ordersData ;;
          ret (setLoading false (setOrders ordersWithItems st))
      | None => ret (setLoading false st)
      end
  end.

(** The click on an order's header:
    [setExpandedOrder(expandedOrder === order.id ? null : order.id)]. *)
Definition toggle (order_id : uuid) (st : State) : State :=
  setExpandedOrder
    (if opt_is (expandedOrder st) order_id then None else Some order_id) st.

End Orders.

(** ** Notions used in the statements *)

(** The rows of a table that belong to an identity. *)
Definition owned_by (B : uuid) (r : cart_item) : bool := String.eqb (ci_user_id r) B.
Definition order_owned_by (B : uuid) (o : order) : bool := String.eqb (o_user_id o) B.




(** A computation that leaves a part of the database, such as one of its
    tables, as it found it. *)
Definition keeps {A T : Type} (part : database -> T) (m : M A) : Prop :=
  forall w, part (w_db (snd (m w))) = part (w_db w).

(** What a handler shows to whoever called it: a change of the component's
    state, or an effect (an alert, an event, a callback). *)
Definition signalled {S : Type} (st st' : S) (w w' : world) : Prop :=
  st' <> st \/ w_log w' <> w_log w.


(** The two requests both [handleAddToCart] handlers send for a signed-in
    user: look the line up, then update it or insert it. *)
Definition add_requests (user : option User) (uid pid : uuid) (n : Z)
    : M (response unit) :=
  (r <- supabase.cart_items_maybeSingle user uid pid ;;
   match data r with
   | Some existingItem =>
       supabase.cart_items_update_quantity user (ci_id existingItem)
         (ci_quantity existingItem + n)
   | None => supabase.cart_items_insert user uid pid n
   end)%m.




(** The price a cart line is ordered at: the price its product has in the
    database when the order is placed (zero for a line without product). *)
Definition price_at (db : database) (r : cart_item) : Qc :=
  match embed_product None db r with
  | Some p => p_price p
  | None => Q2Qc 0
  end.

Fixpoint sum_Qc (l : list Qc) : Qc :=
  match l with
  | [] => Q2Qc 0
  | x :: rest => (x + sum_Qc rest)%Qc
  end.

(** The sum over the cart lines of quantity times price. *)
Definition cart_total (db : database) (lines : list cart_item) : Qc :=
  sum_Qc (map (fun r => (Z2Qc (ci_quantity r) * price_at db r)%Qc) lines).

(** The order line made of a cart line: its product, its quantity and the
    price captured for it. *)
Definition order_line (db : database) (oid : uuid) (ir : uuid * cart_item)
    : order_item :=
  mkOrderItem (fst ir) (Some oid) (ci_product_id (snd ir))
              (ci_quantity (snd ir)) (price_at db (snd ir)).

(** The next [n] identifiers the database will generate, after the first. *)
Definition next_ids (w : world) (n : nat) : list uuid :=
  map (fun k => w_rand w (S k)) (seq 0 n).

(** The product a cart line points to ([""] for a line without product). *)
Definition pid_of (r : cart_item) : uuid :=
  match ci_product_id r with
  | Some pid => pid
  | None => ""
  end.

(** A computation that keeps the database within its constraints. *)
Definition keeps_constraints {A : Type} (m : M A) : Prop :=
  forall w, db_constraints (w_db w) = true ->
            db_constraints (w_db (snd (m w))) = true.


(** The number of units in a user's cart: the sum of the quantities of its
    lines. *)
Definition units_in_cart (uid : uuid) (db : database) : Z :=
  fold_right Z.add 0 (map ci_quantity (filter (owned_by uid) (cart_items db))).

(** A computation that performs no effect: the log stays as it is. *)
Definition silent {A : Type} (m : M A) : Prop :=
  forall w, w_log (snd (m w)) = w_log w.

(** The order lines that reference an order. *)
Definition lines_of_order (db : database) (o : order) : list order_item :=
  filter (fun r => opt_is (oi_order_id r) (o_id o)) (order_items db).

(** An order as the history shows it, when its lines are read. *)
Definition shown_order (db : database) (o : order) : Orders.Order :=
  Orders.mkOrder o
    (map Orders.item_of
         (map (fun r => (r, supabase.embed_order_product None db r)) (lines_of_order db o))).

(** The row [from('order_items').insert] makes of an identifier and the
    values [{ order_id, product_id, quantity, price }]. *)
Definition order_item_of (ir : uuid * (uuid * uuid * Z * Qc)) : order_item :=
  match ir with
  | (id, (order_id, product_id, quantity, price)) =>
      mkOrderItem id (Some order_id) (Some product_id) quantity price
  end.

(** An item of the checkout dialog that can be ordered from a database: it
    has a product, which the database knows, a positive quantity and a price
    that is not negative. *)
Definition orderable (db : database) (item : Checkout.CartItem) : Prop :=
  exists cp, Checkout.product item = Some cp
             /\ product_exists db (Checkout.cp_id cp) = true
             /\ Qc_nonneg (Checkout.cp_price cp) = true
             /\ 0 < Checkout.quantity item.

(** * Properties *)

(** ** Basic facts *)

Lemma uid_is_true (caller : auth) (owner : uuid) :
  uid_is caller owner = true <-> caller = Some owner.
Proof.
  destruct caller as [u|]; simpl.
  - rewrite String.eqb_eq. split; congruence.
  - split; discriminate.
Qed.

Lemma uid_is_other (A B : uuid) : A <> B -> uid_is (Some A) B = false.
Proof. intros H. simpl. now apply String.eqb_neq. Qed.

Lemma opt_is_true (o : option uuid) (x : uuid) :
  opt_is o x = true <-> o = Some x.
Proof.
  destruct o as [y|]; simpl.
  - rewrite String.eqb_eq. split; congruence.
  - split; discriminate.
Qed.

Lemma filter_app_nil {A : Type} (f : A -> bool) (l extra : list A) :
  (forall x, In x extra -> f x = false) ->
  filter f (l ++ extra) = filter f l.
Proof.
  intros H. rewrite filter_app.
  replace (filter f extra) with (@nil A); [now rewrite app_nil_r|].
  symmetry. induction extra as [|x xs IH]; simpl; [reflexivity|].
  rewrite (H x (or_introl eq_refl)). apply IH. intros y Hy. apply H. now right.
Qed.

(** Rows of another owner are neither targets nor results of an update that
    passed its WITH CHECK. *)
Lemma filter_owner_update (f target : cart_item -> bool)
    (set_ : cart_item -> cart_item) (t : list cart_item) :
  (forall r, target r = true -> f r = false) ->
  (forall r, In r t -> target r = true -> f (set_ r) = false) ->
  filter f (map (fun r => if target r then set_ r else r) t) = filter f t.
Proof.
  intros Hold Hnew. induction t as [|r t IH]; simpl; [reflexivity|].
  rewrite IH by (intros; apply Hnew; auto; now right).
  destruct (target r) eqn:Ht.
  - rewrite (Hnew r (or_introl eq_refl) Ht), (Hold r Ht). reflexivity.
  - reflexivity.
Qed.

Lemma filter_filter_neg {A : Type} (f g : A -> bool) (t : list A) :
  (forall r, g r = true -> f r = false) ->
  filter f (filter (fun r => negb (g r)) t) = filter f t.
Proof.
  intros H. induction t as [|r t IH]; simpl; [reflexivity|].
  destruct (g r) eqn:Hg; simpl.
  - rewrite (H r Hg). exact IH.
  - destruct (f r); [now rewrite IH | exact IH].
Qed.

Lemma owns_referenced_order_sound (A : uuid) (db : database) (r : order_item) :
  owns_referenced_order (Some A) db r = true ->
  exists o, In o (orders db) /\ oi_order_id r = Some (o_id o) /\ o_user_id o = A.
Proof.
  unfold owns_referenced_order. intros H.
  apply existsb_exists in H. destruct H as [o [Hin Ho]].
  apply filter_In in Hin. destruct Hin as [Hin _].
  apply andb_true_iff in Ho. destruct Ho as [Hid Hu].
  exists o. repeat split; auto.
  - now apply opt_is_true.
  - apply uid_is_true in Hu. congruence.
Qed.

Ltac policies :=
  unfold cart_items_update_target, cart_items_delete_target,
    cart_items_select_policy, cart_items_insert_policy, cart_items_update_using,
    cart_items_update_check, cart_items_delete_policy, orders_select_policy,
    orders_insert_policy, order_items_select_policy, order_items_insert_policy in *.

Lemma update_keeps_others (A B : uuid) (w : cart_item -> bool)
    (s : cart_item -> cart_item) (db : database) :
  A <> B ->
  filter (owned_by B) (cart_items (snd (update_cart_items (Some A) w s db)))
  = filter (owned_by B) (cart_items db).
Proof.
  intros HAB. unfold update_cart_items.
  destruct (forallb (cart_items_update_check (Some A)) _) eqn:Hchk; simpl;
    [|reflexivity].
  repeat match goal with
         | |- context [if negb ?c then _ else _] => destruct c; simpl; try reflexivity
         end.
  apply filter_owner_update.
  - intros r Ht. policies.
    apply andb_true_iff in Ht. destruct Ht as [Ht _].
    apply andb_true_iff in Ht. destruct Ht as [Ht _].
    apply uid_is_true in Ht. unfold owned_by. apply String.eqb_neq. congruence.
  - intros r Hin Ht.
    rewrite forallb_forall in Hchk.
    assert (Hc : cart_items_update_check (Some A) (s r) = true).
    { apply Hchk. apply in_map. apply filter_In. split; assumption. }
    policies. apply uid_is_true in Hc. unfold owned_by. apply String.eqb_neq. congruence.
Qed.

Lemma insert_cart_keeps_others (A B : uuid) (rows : list cart_item) (db : database) :
  A <> B ->
  filter (owned_by B) (cart_items (snd (insert_cart_items (Some A) rows db)))
  = filter (owned_by B) (cart_items db).
Proof.
  intros HAB. unfold insert_cart_items.
  destruct (forallb (cart_items_insert_policy (Some A)) rows) eqn:Hchk; simpl;
    [|reflexivity].
  repeat match goal with
         | |- context [if negb ?c then _ else _] => destruct c; simpl; try reflexivity
         end.
  apply filter_app_nil. intros r Hin.
  rewrite forallb_forall in Hchk. specialize (Hchk r Hin). policies.
  apply uid_is_true in Hchk. unfold owned_by. apply String.eqb_neq. congruence.
Qed.

Lemma delete_keeps_others (A B : uuid) (w : cart_item -> bool) (db : database) :
  A <> B ->
  filter (owned_by B) (cart_items (snd (delete_cart_items (Some A) w db)))
  = filter (owned_by B) (cart_items db).
Proof.
  intros HAB. unfold delete_cart_items. simpl.
  apply filter_filter_neg. intros r Ht. policies.
  apply andb_true_iff in Ht. destruct Ht as [Ht _].
  apply andb_true_iff in Ht. destruct Ht as [Ht _].
  apply uid_is_true in Ht. unfold owned_by. apply String.eqb_neq. congruence.
Qed.

Lemma insert_orders_keeps_others (A B : uuid) (ret_ : bool) (rows : list order)
    (db : database) :
  A <> B ->
  filter (order_owned_by B) (orders (snd (insert_orders (Some A) ret_ rows db)))
  = filter (order_owned_by B) (orders db).
Proof.
  intros HAB. unfold insert_orders.
  destruct (forallb (orders_insert_policy (Some A)) rows) eqn:Hchk; simpl;
    [|reflexivity].
  repeat match goal with
         | |- context [if ?c then _ else _] => destruct c; simpl; try reflexivity
         end.
  apply filter_app_nil. intros r Hin.
  rewrite forallb_forall in Hchk. specialize (Hchk r Hin). policies.
  apply uid_is_true in Hchk. unfold order_owned_by. apply String.eqb_neq. congruence.
Qed.

Lemma insert_orders_result (caller : auth) (ret_ : bool) (rows : list order)
    (db : database) :
  fst (insert_orders caller ret_ rows db) = None ->
  forallb (orders_insert_policy caller) rows = true.
Proof.
  unfold insert_orders.
  destruct (forallb (orders_insert_policy caller) rows); simpl; [reflexivity|discriminate].
Qed.

Lemma insert_order_items_result (caller : auth) (rows : list order_item)
    (db : database) :
  fst (insert_order_items caller rows db) = None ->
  forallb (order_items_insert_policy caller db) rows = true.
Proof.
  unfold insert_order_items.
  destruct (forallb (order_items_insert_policy caller db) rows); simpl;
    [reflexivity|discriminate].
Qed.

Lemma insert_order_items_frame (caller : auth) (rows : list order_item)
    (db : database) :
  let db' := snd (insert_order_items caller rows db) in
  cart_items db' = cart_items db /\ orders db' = orders db
  /\ products db' = products db /\ categories db' = categories db.
Proof.
  unfold insert_order_items.
  repeat match goal with
         | |- context [if ?c then _ else _] => destruct c; simpl; auto
         end.
Qed.

Lemma insert_orders_frame (caller : auth) (ret_ : bool) (rows : list order)
    (db : database) :
  let db' := snd (insert_orders caller ret_ rows db) in
  cart_items db' = cart_items db /\ order_items db' = order_items db
  /\ products db' = products db /\ categories db' = categories db.
Proof.
  unfold insert_orders.
  repeat match goal with
         | |- context [if ?c then _ else _] => destruct c; simpl; auto
         end.
Qed.

Lemma cart_writes_frame (caller : auth) (db : database) :
  (forall rows, let db' := snd (insert_cart_items caller rows db) in
     orders db' = orders db /\ order_items db' = order_items db
     /\ products db' = products db /\ categories db' = categories db)
  /\ (forall w s, let db' := snd (update_cart_items caller w s db) in
     orders db' = orders db /\ order_items db' = order_items db
     /\ products db' = products db /\ categories db' = categories db)
  /\ (forall w, let db' := snd (delete_cart_items caller w db) in
     orders db' = orders db /\ order_items db' = order_items db
     /\ products db' = products db /\ categories db' = categories db).
Proof.
  repeat split; unfold insert_cart_items, update_cart_items, delete_cart_items;
    repeat match goal with
           | |- context [if ?c then _ else _] => destruct c; simpl; auto
           end.
Qed.

(** C2. Row-level security isolates identities: whatever request caller [A]
    sends, with whatever filter and row identifiers, the answer contains no
    cart line and no order owned by another identity [B], the cart lines and
    orders of [B] are the same after the request as before, and an order line
    is returned or inserted only when an order it references through
    [order_id] is owned by [A]. *)
Theorem rls_isolation (A B : uuid) (q : request) (db : database) :
  A <> B ->
  let rep := fst (exec (Some A) q db) in
  let db' := snd (exec (Some A) q db) in
  (forall r, In r (r_cart_items rep) -> ci_user_id r <> B)
  /\ (forall o, In o (r_orders rep) -> o_user_id o <> B)
  /\ filter (owned_by B) (cart_items db') = filter (owned_by B) (cart_items db)
  /\ filter (order_owned_by B) (orders db') = filter (order_owned_by B) (orders db)
  /\ (forall r, In r (r_order_items rep) ->
        exists o, In o (orders db) /\ oi_order_id r = Some (o_id o) /\ o_user_id o = A)
  /\ (forall r, In r (order_items db') ->
        In r (order_items db)
        \/ exists o, In o (orders db) /\ oi_order_id r = Some (o_id o) /\ o_user_id o = A).
Proof.
  intros HAB.
  destruct q as [w|rows|w s|w|w|returning rows|w s|w|w|rows|w s|w]; simpl.
  - (* SelectCartItems *)
    repeat split; auto; try contradiction.
    intros r Hin. unfold select_cart_items in Hin. apply filter_In in Hin.
    destruct Hin as [_ Hp]. apply andb_true_iff in Hp. destruct Hp as [Hp _].
    policies. apply uid_is_true in Hp. congruence.
  - (* InsertCartItems *)
    pose proof (insert_cart_keeps_others A B rows db HAB) as Hk.
    destruct (cart_writes_frame (Some A) db) as [Hf _]. specialize (Hf rows).
    destruct (insert_cart_items (Some A) rows db) as [e db1]; simpl in *.
    destruct Hf as [Ho [Hoi _]]. rewrite Ho, Hoi.
    repeat split; auto; contradiction.
  - (* UpdateCartItems *)
    pose proof (update_keeps_others A B w s db HAB) as Hk.
    destruct (cart_writes_frame (Some A) db) as [_ [Hf _]]. specialize (Hf w s).
    destruct (update_cart_items (Some A) w s db) as [e db1]; simpl in *.
    destruct Hf as [Ho [Hoi _]]. rewrite Ho, Hoi.
    repeat split; auto; contradiction.
  - (* DeleteCartItems *)
    pose proof (delete_keeps_others A B w db HAB) as Hk.
    simpl in *. repeat split; auto; contradiction.
  - (* SelectOrders *)
    repeat split; auto; try contradiction.
    intros o Hin. unfold select_orders in Hin. apply filter_In in Hin.
    destruct Hin as [_ Hp]. apply andb_true_iff in Hp. destruct Hp as [Hp _].
    policies. apply uid_is_true in Hp. congruence.
  - (* InsertOrders *)
    pose proof (insert_orders_keeps_others A B returning rows db HAB) as Hk.
    pose proof (insert_orders_frame (Some A) returning rows db) as Hf.
    pose proof (insert_orders_result (Some A) returning rows db) as Hr.
    destruct (insert_orders (Some A) returning rows db) as [e db1]; simpl in *.
    destruct Hf as [Hc [Hoi _]]. rewrite Hc, Hoi.
    repeat split; auto; try contradiction.
    intros o Hin. destruct e as [e|]; [contradiction|].
    destruct returning; [|contradiction].
    specialize (Hr eq_refl). rewrite forallb_forall in Hr.
    specialize (Hr o Hin). policies. apply uid_is_true in Hr. congruence.
  - (* UpdateOrders *) repeat split; auto; contradiction.
  - (* DeleteOrders *) repeat split; auto; contradiction.
  - (* SelectOrderItems *)
    repeat split; auto; try contradiction.
    intros r Hin. unfold select_order_items in Hin. apply filter_In in Hin.
    destruct Hin as [_ Hp]. apply andb_true_iff in Hp. destruct Hp as [Hp _].
    now apply owns_referenced_order_sound.
  - (* InsertOrderItems *)
    pose proof (insert_order_items_frame (Some A) rows db) as Hf.
    pose proof (insert_order_items_result (Some A) rows db) as Hr.
    unfold insert_order_items in *.
    destruct (forallb (order_items_insert_policy (Some A) db) rows) eqn:Hp;
      simpl in *; [|repeat split; auto; contradiction].
    repeat match goal with
           | |- context [if ?c then _ else _] =>
               destruct c; simpl; [repeat split; auto; contradiction|]
           end.
    repeat split; auto; try contradiction.
    intros r Hin. apply in_app_or in Hin. destruct Hin as [Hin|Hin]; [now left|].
    right. rewrite forallb_forall in Hp. specialize (Hp r Hin).
    now apply owns_referenced_order_sound.
  - (* UpdateOrderItems *) repeat split; auto; contradiction.
  - (* DeleteOrderItems *) repeat split; auto; contradiction.
Qed.

Lemma rls_isolation_witness :
  let db := mkDb [] []
              [mkCartItem "c1" "bob" None 1; mkCartItem "c2" "alice" None 2]
              [] [] in
  "alice" <> "bob"
  /\ r_cart_items (fst (exec (Some "alice") (SelectCartItems (fun _ => true)) db))
     = [mkCartItem "c2" "alice" None 2]
  /\ filter (owned_by "bob")
       (cart_items (snd (exec (Some "alice") (DeleteCartItems (fun _ => true)) db)))
     = [mkCartItem "c1" "bob" None 1].
Proof.
  split; [discriminate|]. split; [reflexivity|].
  assert (Hne : "alice" <> "bob") by discriminate.
  destruct (rls_isolation "alice" "bob" (DeleteCartItems (fun _ => true))
              (mkDb [] [] [mkCartItem "c1" "bob" None 1; mkCartItem "c2" "alice" None 2] [] [])
              Hne) as [_ [_ [H _]]].
  exact H.
Defined.

(** ** The catalog filter *)







Example filteredProducts_headphones :
  let p := mkProduct "p1" "Wireless Headphones" "Premium noise-cancelling"
             (Q2Qc (19999 # 100)) "" (Some "c1") 50 true in
  let q := mkProduct "p2" "Yoga Mat" "Non-slip" (Q2Qc (3499 # 100)) ""
             (Some "c2") 120 false in
  map p_id (ProductCatalog.filteredProducts
              (ProductCatalog.mkState [p; q] [] "all" "PHONE" true false)) = ["p1"]
  /\ map p_id (ProductCatalog.filteredProducts
                 (ProductCatalog.mkState [p; q] [] "c2" "" true false)) = ["p2"]
  /\ map p_id (ProductCatalog.filteredProducts
                 (ProductCatalog.mkState [p; q] [] "c2" "phone" true false)) = [].
Proof. repeat split. Qed.

(** ** Running the client monad *)

Lemma bind_run {A B : Type} (m : M A) (k : A -> M B) (w : world) :
  bind m k w = k (fst (m w)) (snd (m w)).
Proof. unfold bind. now destruct (m w). Qed.

Lemma round_trip_ok {A : Type} (stmt : database -> response A * database)
    (w : world) :
  w_net w 0%nat = true ->
  round_trip stmt w
  = (fst (stmt (w_db w)),
     mkWorld (snd (stmt (w_db w))) (fun k => w_net w (S k)) (w_rand w) (w_log w)).
Proof. intros H. unfold round_trip. rewrite H. now destruct (stmt (w_db w)). Qed.

Lemma round_trip_lost {A : Type} (stmt : database -> response A * database)
    (w : world) :
  w_net w 0%nat = false ->
  round_trip stmt w
  = (mkResponse None (Some NetworkError),
     mkWorld (w_db w) (fun k => w_net w (S k)) (w_rand w) (w_log w)).
Proof. intros H. unfold round_trip. now rewrite H. Qed.

(** ** Parts of the database a computation does not write *)

Section Frame.
Context {T : Type} (part : database -> T).

Lemma keeps_ret {A : Type} (a : A) : keeps part (ret a).
Proof. intros w. reflexivity. Qed.

Lemma keeps_bind {A B : Type} (m : M A) (k : A -> M B) :
  keeps part m -> (forall a, keeps part (k a)) -> keeps part (bind m k).
Proof.
  intros Hm Hk w. rewrite bind_run. rewrite Hk. apply Hm.
Qed.

Lemma keeps_perform (e : effect) : keeps part (perform e).
Proof. intros w. reflexivity. Qed.

Lemma keeps_uuid : keeps part gen_random_uuid.
Proof. intros w. reflexivity. Qed.

Lemma keeps_uuids (n : nat) : keeps part (gen_random_uuids n).
Proof.
  induction n as [|n IH]; simpl.
  - apply keeps_ret.
  - apply keeps_bind; [apply keeps_uuid|]. intros id.
    apply keeps_bind; [exact IH|]. intros ids. apply keeps_ret.
Qed.

Lemma keeps_round_trip {A : Type} (stmt : database -> response A * database) :
  (forall db, part (snd (stmt db)) = part db) ->
  keeps part (round_trip stmt).
Proof.
  intros H w. unfold round_trip.
  destruct (w_net w 0%nat); [|reflexivity].
  specialize (H (w_db w)). destruct (stmt (w_db w)). exact H.
Qed.

End Frame.

Ltac frame_step :=
  first
    [ apply keeps_ret
    | apply keeps_perform
    | apply keeps_uuid
    | apply keeps_uuids
    | apply keeps_bind; [|intro]
    | apply keeps_round_trip; intro ].

Lemma keeps_products_fetch (user : option User) (st : Checkout.State) :
  keeps products (Checkout.fetchCartItems user st).
Proof.
  unfold Checkout.fetchCartItems. destruct user as [u|]; [|frame_step].
  unfold supabase.cart_items_with_product.
  frame_step; [frame_step; reflexivity|].
  destruct (data a); frame_step.
Qed.

Lemma keeps_products_handlePlaceOrder (user : option User) (st : Checkout.State) :
  keeps products (Checkout.handlePlaceOrder user st).
Proof.
  unfold Checkout.handlePlaceOrder. destruct user as [u|]; [|frame_step].
  destruct (Checkout.total _) as [total|]; [|frame_step].
  frame_step.
  - unfold supabase.orders_insert_single. frame_step; [frame_step|].
    frame_step.
    pose proof (insert_orders_frame (session (Some u)) true
                  [mkOrder a (u_id u) total "pending"
                     (Checkout.customerName (Checkout.setLoading true st))
                     (Checkout.customerEmail (Checkout.setLoading true st))
                     (Checkout.customerAddress (Checkout.setLoading true st))] db) as Hf.
    cbv zeta in Hf.
    destruct (insert_orders _ _ _ db) as [e db1]. simpl in *. tauto.
  - destruct (error a); [repeat frame_step|].
    destruct (data a) as [order|]; [|repeat frame_step].
    destruct (Checkout.orderItems _ _) as [rows|]; [|frame_step].
    frame_step.
    + unfold supabase.order_items_insert. frame_step; [frame_step|].
      frame_step. unfold written. simpl.
      apply (insert_order_items_frame (session (Some u))).
    + frame_step.
      * unfold supabase.cart_items_delete_user. frame_step. reflexivity.
      * repeat frame_step.
Qed.

(** C10. Checkout never writes the [products] table: after the submit
    handler, and after the whole [placeOrder] flow, every product row (stock,
    price and all other columns) is what it was before, whatever the state of
    the dialog and whatever the storage does; so an order can be placed for
    more units than the recorded stock, which stays as it was. *)
Theorem placeOrder_keeps_products :
  (forall user st w,
      products (w_db (snd (Checkout.handlePlaceOrder user st w)))
      = products (w_db w))
  /\ (forall user info st0 w,
      products (w_db (snd (Checkout.placeOrder user info st0 w)))
      = products (w_db w))
  /\ (exists user info w p r,
      let db' := w_db (snd (Checkout.placeOrder user info Checkout.initial w)) in
      In p (products db') /\ In r (order_items db')
      /\ oi_product_id r = Some (p_id p) /\ p_stock p < oi_quantity r).
Proof.
  split; [|split].
  - intros user st. apply keeps_products_handlePlaceOrder.
  - intros user info st0. unfold Checkout.placeOrder.
    apply keeps_bind.
    + unfold Checkout.onOpen. destruct user as [u|]; [|frame_step].
      frame_step; [apply keeps_products_fetch | frame_step].
    + intros st. apply keeps_products_handlePlaceOrder.
  - set (p := mkProduct "p1" "Desk Lamp" "" (Q2Qc (3999 # 100)) "" None 1 false).
    exists (Some (mkUser "alice" None)), (Checkout.mkCustomerInfo "A" "a@x.com" "1 Main St"),
      (mkWorld (mkDb [] [p] [mkCartItem "c1" "alice" (Some "p1") 5] [] [])
               (fun _ => true) (fun k => if Nat.eqb k 0 then "o1" else "i1") []),
      p, (mkOrderItem "i1" (Some "o1") (Some "p1") 5 (Q2Qc (3999 # 100))).
    vm_compute. repeat split; auto.
Qed.

(** ** Handlers without an identity *)

(** C6, as stated, fails for [placeOrder]: submitted without an identity the
    handler returns at once, and nothing tells the caller that a sign-in is
    needed; the dialog is as it was and no effect was performed. *)
Lemma placeOrder_unauthenticated_silent :
  let w := mkWorld (mkDb [] [] [mkCartItem "c1" "alice" None 1] [] [])
                   (fun _ => true) (fun _ => "id") [] in
  let r := Checkout.handlePlaceOrder None Checkout.initial w in
  fst r = Done Checkout.initial
  /\ ~ signalled Checkout.initial Checkout.initial w (snd r).
Proof.
  simpl. split; [reflexivity|]. intros [H|H]; now apply H.
Qed.

(** C6, amended. Without an identity neither handler sends a request, so
    nothing is written (the world is untouched); both [handleAddToCart]
    handlers open the sign-in dialog, and [handlePlaceOrder] and the
    [placeOrder] flow just return, leaving the dialog as it is. *)
Theorem unauthenticated_no_writes :
  (forall product st w,
      let r := ProductDetail.handleAddToCart None product st w in
      snd r = w
      /\ ProductDetail.showAuthModal (fst r) = true
      /\ ProductDetail.quantity (fst r) = ProductDetail.quantity st)
  /\ (forall product st w,
      let r := ProductCatalog.handleAddToCart None product st w in
      snd r = w
      /\ fst r = ProductCatalog.setShowAuthModal true st
      /\ ProductCatalog.showAuthModal (fst r) = true)
  /\ (forall st w, Checkout.handlePlaceOrder None st w = (Done st, w))
  /\ (forall info st0 w, snd (Checkout.placeOrder None info st0 w) = w).
Proof. repeat split. Qed.

(** ** Cart lines: quantity and removal *)

Lemma existsb_same_key_map (g : cart_item -> cart_item) (r : cart_item)
    (t : list cart_item) :
  (forall x, ci_user_id (g x) = ci_user_id x /\ ci_product_id (g x) = ci_product_id x) ->
  existsb (same_user_product (g r)) (map g t) = existsb (same_user_product r) t.
Proof.
  intros Hg. induction t as [|x t IH]; simpl; [reflexivity|].
  rewrite IH. f_equal. unfold same_user_product.
  destruct (Hg r) as [-> ->]. destruct (Hg x) as [-> ->]. reflexivity.
Qed.

Lemma user_product_unique_map (g : cart_item -> cart_item) (t : list cart_item) :
  (forall x, ci_user_id (g x) = ci_user_id x /\ ci_product_id (g x) = ci_product_id x) ->
  user_product_unique (map g t) = user_product_unique t.
Proof.
  intros Hg. induction t as [|x t IH]; simpl; [reflexivity|].
  now rewrite IH, existsb_same_key_map.
Qed.

Lemma distinct_in_eq {A : Type} (key : A -> uuid) (t : list A) (a b : A) :
  distinct (map key t) = true -> In a t -> In b t -> key a = key b -> a = b.
Proof.
  induction t as [|x t IH]; simpl; [contradiction|].
  intros Hd Ha Hb Hk. apply andb_true_iff in Hd. destruct Hd as [Hx Hd].
  apply negb_true_iff in Hx.
  assert (Hnot : forall y, In y t -> key x <> key y).
  { intros y Hy Heq.
    assert (existsb (String.eqb (key x)) (map key t) = true) as Hex.
    { apply existsb_exists. exists (key y). split; [now apply in_map|].
      now apply String.eqb_eq. }
    congruence. }
  destruct Ha as [->|Ha], Hb as [->|Hb]; auto.
  - exfalso. now apply (Hnot b Hb).
  - exfalso. apply (Hnot a Ha). now symmetry.
Qed.

Lemma db_constraints_cart (db : database) :
  db_constraints db = true ->
  forallb cart_item_check (cart_items db) = true
  /\ distinct (map ci_id (cart_items db)) = true
  /\ user_product_unique (cart_items db) = true
  /\ forallb (fun r => fk_ok (product_exists db) (ci_product_id r)) (cart_items db) = true.
Proof.
  unfold db_constraints, cart_items_constraints. intros H.
  repeat (apply andb_true_iff in H; destruct H as [H ?]).
  repeat match goal with
         | H : (_ && _)%bool = true |- _ => apply andb_true_iff in H; destruct H
         end.
  auto.
Qed.

Lemma map_ext_in_if (target : cart_item -> bool) (test : cart_item -> bool)
    (g : cart_item -> cart_item) (t : list cart_item) :
  (forall r, In r t -> target r = test r) ->
  map (fun r => if target r then g r else r) t
  = map (fun r => if test r then g r else r) t.
Proof.
  intros H. apply map_ext_in. intros r Hr. now rewrite (H r Hr).
Qed.

(** The statement behind [updateQuantity], on a line the caller owns. *)
Lemma update_quantity_statement (caller : uuid) (id : uuid) (n : Z)
    (line : cart_item) (db : database) :
  db_constraints db = true -> In line (cart_items db) ->
  ci_id line = id -> ci_user_id line = caller -> 0 < n ->
  update_cart_items (Some caller) (fun r => String.eqb (ci_id r) id)
    (with_quantity n) db
  = (None,
     set_cart_items
       (map (fun r => if String.eqb (ci_id r) id then with_quantity n r else r)
            (cart_items db))
       db).
Proof.
  intros Hwf Hin Hid Hown Hn.
  destruct (db_constraints_cart db Hwf) as [Hchk [Hpk [Huniq Hfk]]].
  unfold update_cart_items.
  set (target := cart_items_update_target (Some caller)
                   (fun r => String.eqb (ci_id r) id)).
  assert (Ht : forall r, In r (cart_items db) ->
                         target r = String.eqb (ci_id r) id).
  { intros r Hr. unfold target. policies.
    destruct (String.eqb (ci_id r) id) eqn:E; [|now rewrite andb_false_r].
    apply String.eqb_eq in E.
    assert (r = line) as -> by (apply (distinct_in_eq ci_id (cart_items db)); congruence).
    rewrite Hown. simpl. now rewrite String.eqb_refl. }
  set (g := fun r => if target r then with_quantity n r else r).
  assert (Hg : forall x, ci_user_id (g x) = ci_user_id x
                         /\ ci_product_id (g x) = ci_product_id x).
  { intros x. unfold g. destruct (target x); auto. }
  assert (Hgid : map ci_id (map g (cart_items db)) = map ci_id (cart_items db)).
  { rewrite map_map. apply map_ext. intros x. unfold g. now destruct (target x). }
  assert (H1 : forallb (cart_items_update_check (Some caller))
                 (map (with_quantity n) (filter target (cart_items db))) = true).
  { apply forallb_forall. intros r Hr. apply in_map_iff in Hr.
    destruct Hr as [x [<- Hx]]. apply filter_In in Hx. destruct Hx as [_ Hx].
    unfold target in Hx. policies. simpl.
    apply andb_true_iff in Hx. destruct Hx as [Hx _].
    apply andb_true_iff in Hx. now destruct Hx. }
  assert (H2 : forallb cart_item_check
                 (map (with_quantity n) (filter target (cart_items db))) = true).
  { apply forallb_forall. intros r Hr. apply in_map_iff in Hr.
    destruct Hr as [x [<- _]]. unfold cart_item_check. simpl. now apply Z.ltb_lt. }
  assert (H4 : forallb (fun r => fk_ok (product_exists db) (ci_product_id r))
                 (map (with_quantity n) (filter target (cart_items db))) = true).
  { apply forallb_forall. intros r Hr. apply in_map_iff in Hr.
    destruct Hr as [x [<- Hx]]. apply filter_In in Hx. destruct Hx as [Hx _].
    rewrite forallb_forall in Hfk. simpl. now apply Hfk. }
  rewrite H1, H2, H4. fold g. rewrite Hgid, Hpk, (user_product_unique_map g _ Hg), Huniq.
  simpl. f_equal. f_equal. unfold g. now apply map_ext_in_if.
Qed.

Lemma ShoppingCart_fetch_db (user : option User) (st : ShoppingCart.State)
    (w : world) :
  let r := ShoppingCart.fetchCartItems user st w in
  w_db (snd r) = w_db w /\ w_log (snd r) = w_log w.
Proof.
  unfold ShoppingCart.fetchCartItems. destruct user as [u|]; [|now simpl].
  rewrite bind_run. unfold supabase.cart_items_with_product, round_trip.
  destruct (w_net w 0%nat); simpl; auto.
Qed.

(** C7. [updateQuantity] with a quantity below 1 does nothing at all: no
    request, no effect, the same cart.  With a quantity of at least 1, sent
    for a line of the caller's cart over a working connection, it overwrites
    the quantity of that line and changes no other line. *)
Theorem updateQuantity_spec (user : option User) (itemId : uuid)
    (newQuantity : Z) (st : ShoppingCart.State) (w : world) :
  (newQuantity < 1 ->
   ShoppingCart.updateQuantity user itemId newQuantity st w = (st, w))
  /\ (1 <= newQuantity ->
      forall line,
        In line (cart_items (w_db w)) -> ci_id line = itemId ->
        session user = Some (ci_user_id line) ->
        db_constraints (w_db w) = true -> w_net w 0%nat = true ->
        let db' := w_db (snd (ShoppingCart.updateQuantity user itemId newQuantity st w)) in
        In (with_quantity newQuantity line) (cart_items db')
        /\ cart_items db'
           = map (fun r => if String.eqb (ci_id r) itemId
                           then with_quantity newQuantity r else r)
                 (cart_items (w_db w))).
Proof.
  unfold ShoppingCart.updateQuantity. split.
  - intros Hlt. apply Z.ltb_lt in Hlt. now rewrite Hlt.
  - intros Hge line Hin Hid Hsess Hwf Hnet. cbv zeta.
    assert (Hnlt : (newQuantity <? 1) = false) by (apply Z.ltb_ge; lia).
    rewrite Hnlt, bind_run.
    destruct (ShoppingCart_fetch_db user st
                (snd (supabase.cart_items_update_quantity user itemId newQuantity w)))
      as [Hdb _].
    rewrite Hdb. unfold supabase.cart_items_update_quantity.
    rewrite round_trip_ok by assumption. simpl. rewrite Hsess.
    rewrite (update_quantity_statement (ci_user_id line) itemId newQuantity line)
      by (auto; lia).
    simpl. split; [|reflexivity].
    apply in_map_iff. exists line. split; [|assumption].
    rewrite Hid. now rewrite String.eqb_refl.
Qed.

Lemma updateQuantity_spec_witness :
  let alice := Some (mkUser "alice" None) in
  let db := mkDb [] [mkProduct "p1" "Yoga Mat" "" (Q2Qc (3499 # 100)) "" None 120 false]
              [mkCartItem "c1" "alice" (Some "p1") 2] [] [] in
  let w := mkWorld db (fun _ => true) (fun _ => "id") [] in
  let st := ShoppingCart.mkState [] false in
  ShoppingCart.updateQuantity alice "c1" 0 st w = (st, w)
  /\ cart_items (w_db (snd (ShoppingCart.updateQuantity alice "c1" 5 st w)))
     = [mkCartItem "c1" "alice" (Some "p1") 5].
Proof.
  intros alice db w st.
  destruct (updateQuantity_spec alice "c1" 0 st w) as [H0 _].
  destruct (updateQuantity_spec alice "c1" 5 st w) as [_ H5].
  split.
  - apply H0. lia.
  - assert (H1 : 1 <= 5) by lia.
    destruct (H5 H1 (mkCartItem "c1" "alice" (Some "p1") 2)
                (or_introl eq_refl) eq_refl eq_refl eq_refl eq_refl) as [_ Hm].
    exact Hm.
Defined.

Lemma filter_idem {A : Type} (f : A -> bool) (t : list A) :
  filter f (filter f t) = filter f t.
Proof.
  induction t as [|x t IH]; simpl; [reflexivity|].
  destruct (f x) eqn:E; simpl; [rewrite E, IH|]; auto.
Qed.

Lemma filter_all {A : Type} (f : A -> bool) (t : list A) :
  (forall x, In x t -> f x = true) -> filter f t = t.
Proof.
  induction t as [|x t IH]; simpl; intros H; [reflexivity|].
  rewrite (H x (or_introl eq_refl)), IH; auto.
Qed.

(** Deleting twice is deleting once; the statement never fails. *)
Lemma delete_cart_items_idem (caller : auth) (where_ : cart_item -> bool)
    (db : database) :
  delete_cart_items caller where_ (snd (delete_cart_items caller where_ db))
  = delete_cart_items caller where_ db.
Proof.
  unfold delete_cart_items, set_cart_items. simpl. now rewrite filter_idem.
Qed.

Lemma delete_cart_items_absent (caller : auth) (where_ : cart_item -> bool)
    (db : database) :
  (forall r, In r (cart_items db) -> where_ r = false) ->
  delete_cart_items caller where_ db = (None, db).
Proof.
  intros H. unfold delete_cart_items, set_cart_items. rewrite filter_all.
  - now destruct db.
  - intros r Hr. unfold cart_items_delete_target. rewrite (H r Hr).
    now rewrite andb_false_r.
Qed.

Lemma bind_eq {A B : Type} (m : M A) (k : A -> M B) (w w' : world) (a : A) :
  m w = (a, w') -> bind m k w = k a w'.
Proof. intros H. unfold bind. now rewrite H. Qed.

Lemma ShoppingCart_fetch_ok (u : User) (st : ShoppingCart.State) (w : world) :
  w_net w 0%nat = true ->
  ShoppingCart.fetchCartItems (Some u) st w
  = (ShoppingCart.mkState
       (map ShoppingCart.item_of
          (map (fun r => (r, embed_product (Some (u_id u)) (w_db w) r))
             (select_cart_items (Some (u_id u))
                (fun r => String.eqb (ci_user_id r) (u_id u)) (w_db w))))
       false,
     mkWorld (w_db w) (fun k => w_net w (S k)) (w_rand w) (w_log w)).
Proof.
  intros H. unfold ShoppingCart.fetchCartItems.
  erewrite bind_eq
    by (unfold supabase.cart_items_with_product; now apply round_trip_ok).
  reflexivity.
Qed.

Lemma removeItem_run (user : option User) (itemId : uuid)
    (st : ShoppingCart.State) (w : world) :
  w_net w 0%nat = true -> w_net w 1%nat = true ->
  let db1 := snd (delete_cart_items (session user)
                    (fun r => String.eqb (ci_id r) itemId) (w_db w)) in
  ShoppingCart.removeItem user itemId st w
  = (match user with
     | Some u =>
         ShoppingCart.mkState
           (map ShoppingCart.item_of
              (map (fun r => (r, embed_product (session user) db1 r))
                 (select_cart_items (session user)
                    (fun r => String.eqb (ci_user_id r) (u_id u)) db1)))
           false
     | None => st
     end,
     mkWorld db1
       (match user with
        | Some _ => fun k => w_net w (S (S k))
        | None => fun k => w_net w (S k)
        end)
       (w_rand w) (w_log w ++ [DispatchEvent "cart-updated"])).
Proof.
  intros H0 H1. cbv zeta. unfold ShoppingCart.removeItem.
  erewrite bind_eq
    by (unfold supabase.cart_items_delete_id; now apply round_trip_ok).
  cbn [fst snd written].
  destruct user as [u|].
  - erewrite bind_eq by (now apply ShoppingCart_fetch_ok).
    reflexivity.
  - reflexivity.
Qed.

(** C8. [removeItem] is idempotent: over a working connection, removing the
    same line a second time leaves the database and the cart shown by the
    component exactly as the first removal left them; no removal raises an
    alert or any effect other than the "cart-updated" event; and removing a
    line that does not exist leaves the database as it was. *)
Theorem removeItem_idempotent (user : option User) (itemId : uuid)
    (st : ShoppingCart.State) (w : world) :
  (forall k, (k < 4)%nat -> w_net w k = true) ->
  let once := ShoppingCart.removeItem user itemId st w in
  let twice := ShoppingCart.removeItem user itemId (fst once) (snd once) in
  w_db (snd twice) = w_db (snd once)
  /\ fst twice = fst once
  /\ w_log (snd once) = w_log w ++ [DispatchEvent "cart-updated"]
  /\ w_log (snd twice) = w_log (snd once) ++ [DispatchEvent "cart-updated"]
  /\ ((forall r, In r (cart_items (w_db w)) -> ci_id r <> itemId) ->
      w_db (snd once) = w_db w /\ fst once = fst (ShoppingCart.fetchCartItems user st w)).
Proof.
  intros Hnet once twice.
  assert (H0 : w_net w 0%nat = true) by (apply Hnet; lia).
  assert (H1 : w_net w 1%nat = true) by (apply Hnet; lia).
  assert (H2 : w_net w 2%nat = true) by (apply Hnet; lia).
  assert (H3 : w_net w 3%nat = true) by (apply Hnet; lia).
  pose proof (removeItem_run user itemId st w H0 H1) as Honce.
  cbv zeta in Honce. fold once in Honce.
  assert (Htwice : twice = ShoppingCart.removeItem user itemId (fst once) (snd once))
    by reflexivity.
  rewrite removeItem_run in Htwice
    by (rewrite Honce; destruct user; simpl; assumption).
  rewrite Htwice. clear Htwice twice.
  rewrite Honce. cbn [fst snd w_db w_log w_net w_rand].
  rewrite delete_cart_items_idem.
  repeat split.
  - destruct user; reflexivity.
  - rewrite delete_cart_items_absent; [reflexivity|].
    intros r Hr. apply String.eqb_neq. now apply H.
  - rewrite delete_cart_items_absent
      by (intros r Hr; apply String.eqb_neq; now apply H).
    destruct user as [u|]; [|reflexivity].
    now rewrite ShoppingCart_fetch_ok.
Qed.

Lemma removeItem_idempotent_witness :
  let alice := Some (mkUser "alice" None) in
  let db := mkDb [] [mkProduct "p1" "Yoga Mat" "" (Q2Qc (3499 # 100)) "" None 120 false]
              [mkCartItem "c1" "alice" (Some "p1") 2;
               mkCartItem "c2" "alice" None 1] [] [] in
  let w := mkWorld db (fun _ => true) (fun _ => "id") [] in
  let st := ShoppingCart.mkState [] false in
  let once := ShoppingCart.removeItem alice "c1" st w in
  let twice := ShoppingCart.removeItem alice "c1" (fst once) (snd once) in
  cart_items (w_db (snd once)) = [mkCartItem "c2" "alice" None 1]
  /\ w_db (snd twice) = w_db (snd once)
  /\ fst twice = fst once.
Proof.
  intros alice db w st once twice.
  split; [reflexivity|].
  destruct (removeItem_idempotent alice "c1" st w (fun k _ => eq_refl))
    as [Hdb [Hst _]].
  split; assumption.
Defined.

(** ** Every statement keeps the constraints of the schema *)

Ltac split_andb :=
  repeat match goal with
         | H : (_ && _)%bool = true |- _ =>
             apply andb_true_iff in H; destruct H
         | |- (_ && _)%bool = true => apply andb_true_iff; split
         end.

Lemma forallb_update {A : Type} (f target : A -> bool) (g : A -> A) (t : list A) :
  forallb f t = true ->
  forallb f (map g (filter target t)) = true ->
  forallb f (map (fun r => if target r then g r else r) t) = true.
Proof.
  induction t as [|x t IH]; simpl; [reflexivity|]. intros Ht Hc.
  apply andb_true_iff in Ht. destruct Ht as [Hx Ht].
  destruct (target x); simpl in *.
  - apply andb_true_iff in Hc. destruct Hc as [Hgx Hc]. rewrite Hgx. now apply IH.
  - rewrite Hx. now apply IH.
Qed.

Lemma forallb_filter {A : Type} (f keep : A -> bool) (t : list A) :
  forallb f t = true -> forallb f (filter keep t) = true.
Proof.
  intros H. apply forallb_forall. intros x Hx. apply filter_In in Hx.
  rewrite forallb_forall in H. now apply H.
Qed.

Lemma existsb_filter_false {A : Type} (f keep : A -> bool) (t : list A) :
  existsb f t = false -> existsb f (filter keep t) = false.
Proof.
  induction t as [|x t IH]; simpl; [reflexivity|]. intros H.
  apply orb_false_iff in H. destruct H as [Hx Ht].
  destruct (keep x); simpl; [rewrite Hx|]; auto.
Qed.

Lemma distinct_filter {A : Type} (key : A -> uuid) (keep : A -> bool) (t : list A) :
  distinct (map key t) = true -> distinct (map key (filter keep t)) = true.
Proof.
  induction t as [|x t IH]; simpl; [reflexivity|]. intros H.
  apply andb_true_iff in H. destruct H as [Hx Ht].
  destruct (keep x); simpl; [|now apply IH].
  rewrite IH by assumption. rewrite andb_true_r.
  apply negb_true_iff in Hx. apply negb_true_iff.
  clear -Hx. induction t as [|y t IH]; simpl in *; [reflexivity|].
  apply orb_false_iff in Hx. destruct Hx as [Hy Ht].
  destruct (keep y); simpl; [rewrite Hy|]; auto.
Qed.

Lemma user_product_unique_filter (keep : cart_item -> bool) (t : list cart_item) :
  user_product_unique t = true -> user_product_unique (filter keep t) = true.
Proof.
  induction t as [|x t IH]; simpl; [reflexivity|]. intros H.
  apply andb_true_iff in H. destruct H as [Hx Ht].
  destruct (keep x); simpl; [|now apply IH].
  rewrite IH by assumption. rewrite andb_true_r.
  apply negb_true_iff in Hx. apply negb_true_iff.
  now apply existsb_filter_false.
Qed.

Lemma order_exists_more (db : database) (rows : list order) (ref : option uuid) :
  fk_ok (order_exists db) ref = true ->
  fk_ok (order_exists (set_orders (orders db ++ rows) db)) ref = true.
Proof.
  destruct ref as [k|]; simpl; [|reflexivity].
  unfold order_exists. simpl. rewrite existsb_app. intros ->. reflexivity.
Qed.

Lemma constraints_insert_cart (caller : auth) (rows : list cart_item)
    (db : database) :
  db_constraints db = true ->
  db_constraints (snd (insert_cart_items caller rows db)) = true.
Proof.
  intros Hwf. unfold insert_cart_items.
  destruct (forallb (cart_items_insert_policy caller) rows); simpl; [|exact Hwf].
  destruct (forallb cart_item_check rows) eqn:E1; simpl; [|exact Hwf].
  destruct (distinct _ && user_product_unique _)%bool eqn:E2; simpl; [|exact Hwf].
  destruct (forallb (fun r => fk_ok _ _) rows) eqn:E3; simpl; [|exact Hwf].
  unfold db_constraints, cart_items_constraints, order_items_constraints in *.
  simpl. split_andb; auto; rewrite forallb_app; split_andb; auto.
Qed.

Lemma constraints_update_cart (caller : auth) (where_ : cart_item -> bool)
    (set_ : cart_item -> cart_item) (db : database) :
  db_constraints db = true ->
  db_constraints (snd (update_cart_items caller where_ set_ db)) = true.
Proof.
  intros Hwf. unfold update_cart_items.
  destruct (forallb (cart_items_update_check caller) _); simpl; [|exact Hwf].
  destruct (forallb cart_item_check _) eqn:E1; simpl; [|exact Hwf].
  destruct (distinct _ && user_product_unique _)%bool eqn:E2; simpl; [|exact Hwf].
  destruct (forallb (fun r => fk_ok _ _) (map set_ _)) eqn:E3; simpl; [|exact Hwf].
  unfold db_constraints, cart_items_constraints, order_items_constraints in *.
  simpl. split_andb; auto; now apply forallb_update.
Qed.

Lemma constraints_delete_cart (caller : auth) (where_ : cart_item -> bool)
    (db : database) :
  db_constraints db = true ->
  db_constraints (snd (delete_cart_items caller where_ db)) = true.
Proof.
  intros Hwf. unfold delete_cart_items.
  unfold db_constraints, cart_items_constraints, order_items_constraints in *.
  simpl. split_andb; auto.
  - now apply forallb_filter.
  - now apply distinct_filter.
  - now apply user_product_unique_filter.
  - now apply forallb_filter.
Qed.

Lemma constraints_insert_orders (caller : auth) (returning : bool)
    (rows : list order) (db : database) :
  db_constraints db = true ->
  db_constraints (snd (insert_orders caller returning rows db)) = true.
Proof.
  intros Hwf. unfold insert_orders.
  destruct (forallb (orders_insert_policy caller) rows); simpl; [|exact Hwf].
  destruct (returning && _)%bool; simpl; [exact Hwf|].
  destruct (forallb order_check rows) eqn:E1; simpl; [|exact Hwf].
  destruct (distinct _) eqn:E2; simpl; [|exact Hwf].
  unfold db_constraints, cart_items_constraints, order_items_constraints,
    orders_constraints in *.
  simpl. split_andb; auto.
  - rewrite forallb_app. split_andb; auto.
  - match goal with
    | H : forallb (fun r => fk_ok (order_exists db) (oi_order_id r)) _ = true |- _ =>
        rewrite forallb_forall in H; apply forallb_forall; intros r Hr;
        apply (order_exists_more db rows); now apply H
    end.
Qed.

Lemma constraints_insert_order_items (caller : auth) (rows : list order_item)
    (db : database) :
  db_constraints db = true ->
  db_constraints (snd (insert_order_items caller rows db)) = true.
Proof.
  intros Hwf. unfold insert_order_items.
  destruct (forallb (order_items_insert_policy caller db) rows); simpl; [|exact Hwf].
  destruct (forallb order_item_check rows) eqn:E1; simpl; [|exact Hwf].
  destruct (distinct _) eqn:E2; simpl; [|exact Hwf].
  destruct (forallb _ rows && forallb _ rows)%bool eqn:E3; simpl; [|exact Hwf].
  unfold db_constraints, cart_items_constraints, order_items_constraints in *.
  simpl. split_andb; auto; rewrite forallb_app; split_andb; auto.
Qed.

(** X1. Whatever a caller requests, accepted or rejected, a database that
    satisfies the constraints of the migration (checks, primary keys, the
    uniqueness of (user_id, product_id), foreign keys) still satisfies them
    afterwards. *)
Lemma exec_keeps_constraints (caller : auth) (q : request) (db : database) :
  db_constraints db = true -> db_constraints (snd (exec caller q db)) = true.
Proof.
  intros Hwf. destruct q; simpl; try assumption.
  - pose proof (constraints_insert_cart caller rows db Hwf).
    now destruct (insert_cart_items caller rows db).
  - pose proof (constraints_update_cart caller where_ set_ db Hwf).
    now destruct (update_cart_items caller where_ set_ db).
  - now apply constraints_delete_cart.
  - pose proof (constraints_insert_orders caller returning rows db Hwf).
    now destruct (insert_orders caller returning rows db).
  - pose proof (constraints_insert_order_items caller rows db Hwf).
    now destruct (insert_order_items caller rows db).
Qed.

(** ** Adding to the cart *)


Lemma existsb_same_key_none (r : cart_item) (t : list cart_item) :
  (forall x, In x t -> same_user_product x r = false) ->
  existsb (fun x => same_user_product x r) t = false.
Proof.
  induction t as [|x t IH]; simpl; intros H; [reflexivity|].
  rewrite (H x (or_introl eq_refl)). apply IH. auto.
Qed.

Lemma distinct_snoc (ids : list uuid) (id : uuid) :
  distinct ids = true -> existsb (String.eqb id) ids = false ->
  distinct (ids ++ [id]) = true.
Proof.
  induction ids as [|x ids IH]; simpl; intros Hd Hf; [reflexivity|].
  apply andb_true_iff in Hd. destruct Hd as [Hx Hd].
  apply orb_false_iff in Hf. destruct Hf as [Hix Hf].
  rewrite IH by assumption. rewrite andb_true_r.
  apply negb_true_iff in Hx. rewrite existsb_app, Hx. simpl.
  now rewrite (String.eqb_sym x id), Hix.
Qed.







Lemma round_trip_keeps_constraints {A : Type}
    (stmt : database -> response A * database) (w : world) :
  (forall db, db_constraints db = true -> db_constraints (snd (stmt db)) = true) ->
  db_constraints (w_db w) = true ->
  db_constraints (w_db (snd (round_trip stmt w))) = true.
Proof.
  intros Hs Hwf. unfold round_trip. destruct (w_net w 0%nat); [|exact Hwf].
  specialize (Hs _ Hwf). now destruct (stmt (w_db w)).
Qed.

Lemma add_requests_keeps_constraints (user : option User) (uid pid : uuid)
    (n : Z) (w : world) :
  db_constraints (w_db w) = true ->
  db_constraints (w_db (snd (add_requests user uid pid n w))) = true.
Proof.
  intros Hwf. unfold add_requests. rewrite bind_run.
  assert (H1 : db_constraints
                 (w_db (snd (supabase.cart_items_maybeSingle user uid pid w))) = true).
  { unfold supabase.cart_items_maybeSingle.
    apply round_trip_keeps_constraints; auto. }
  destruct (data (fst (supabase.cart_items_maybeSingle user uid pid w))) as [e|].
  - unfold supabase.cart_items_update_quantity.
    apply round_trip_keeps_constraints; [|exact H1].
    intros db Hdb. unfold written. simpl. now apply constraints_update_cart.
  - unfold supabase.cart_items_insert. rewrite bind_run.
    apply round_trip_keeps_constraints; [|exact H1].
    intros db Hdb. unfold written. simpl. now apply constraints_insert_cart.
Qed.




(** ** Checkout *)

Lemma Qc_nonneg_iff (q : Qc) : Qc_nonneg q = true <-> (Q2Qc 0 <= q)%Qc.
Proof. unfold Qc_nonneg, Qcle. simpl. apply Qle_bool_iff. Qed.

Lemma Qc_nonneg_zero : Qc_nonneg (Q2Qc 0) = true.
Proof. reflexivity. Qed.

Lemma Qc_nonneg_plus (a b : Qc) :
  Qc_nonneg a = true -> Qc_nonneg b = true -> Qc_nonneg (a + b)%Qc = true.
Proof.
  rewrite !Qc_nonneg_iff. intros Ha Hb.
  replace (Q2Qc 0) with (Q2Qc 0 + Q2Qc 0)%Qc by ring.
  now apply Qcplus_le_compat.
Qed.

Lemma Qc_nonneg_Z2Qc (z : Z) : 0 <= z -> Qc_nonneg (Z2Qc z) = true.
Proof.
  intros Hz. unfold Qc_nonneg, Z2Qc. apply Qle_bool_iff. cbn [this Q2Qc].
  rewrite Qred_correct. change 0%Q with (inject_Z 0). now rewrite <- Zle_Qle.
Qed.

Lemma Qc_nonneg_mult (a b : Qc) :
  Qc_nonneg a = true -> Qc_nonneg b = true -> Qc_nonneg (a * b)%Qc = true.
Proof.
  rewrite !Qc_nonneg_iff. intros Ha Hb.
  replace (Q2Qc 0) with (Q2Qc 0 * b)%Qc by ring.
  now apply Qcmult_le_compat_r.
Qed.

Lemma select_products_all (caller : auth) (db : database) :
  select_products caller (fun _ => true) db = products db.
Proof. unfold select_products. now apply filter_all. Qed.

Lemma embed_product_caller (c1 c2 : auth) (db : database) (r : cart_item) :
  embed_product c1 db r = embed_product c2 db r.
Proof. unfold embed_product. now rewrite !select_products_all. Qed.

(** A foreign key that is set finds its product. *)
Lemma embed_product_found (caller : auth) (db : database) (r : cart_item) :
  fk_ok (product_exists db) (ci_product_id r) = true ->
  ci_product_id r <> None ->
  exists p, embed_product caller db r = Some p
            /\ In p (products db) /\ ci_product_id r = Some (p_id p).
Proof.
  unfold embed_product. rewrite select_products_all.
  destruct (ci_product_id r) as [pid|]; [|congruence]. simpl. intros Hex _.
  unfold product_exists in Hex. apply existsb_exists in Hex.
  destruct Hex as [p0 [Hin0 Heq0]].
  destruct (find (fun p => String.eqb (p_id p) pid) (products db)) as [p|] eqn:F.
  - apply find_some in F. destruct F as [Hin Heq]. apply String.eqb_eq in Heq.
    exists p. subst. auto.
  - now rewrite (find_none _ _ F p0 Hin0) in Heq0.
Qed.

Lemma item_of_product (r : cart_item) (o : option product) :
  Checkout.product (Checkout.item_of (r, o))
  = option_map (fun p => Checkout.mkCartProduct (p_id p) (p_name p) (p_price p)) o.
Proof. reflexivity. Qed.

Lemma item_of_quantity (r : cart_item) (o : option product) :
  Checkout.quantity (Checkout.item_of (r, o)) = ci_quantity r.
Proof. reflexivity. Qed.

Lemma cart_total_cons (db : database) (r : cart_item) (l : list cart_item) :
  cart_total db (r :: l)
  = (Z2Qc (ci_quantity r) * price_at db r + cart_total db l)%Qc.
Proof. reflexivity. Qed.

Lemma price_at_found (caller : auth) (db : database) (r : cart_item) (p : product) :
  embed_product caller db r = Some p -> price_at db r = p_price p.
Proof.
  intros H. unfold price_at. now rewrite (embed_product_caller None caller), H.
Qed.

Lemma fold_total_done (db : database) (caller : auth) (lines : list cart_item)
    (acc : Qc) :
  (forall r, In r lines -> exists p, embed_product caller db r = Some p) ->
  fold_left
    (fun sum item =>
       match sum, Checkout.product item with
       | Done s, Some p =>
           Done (s + Checkout.cp_price p * Z2Qc (Checkout.quantity item))%Qc
       | _, _ => TypeError
       end)
    (map Checkout.item_of (map (fun r => (r, embed_product caller db r)) lines))
    (Done acc)
  = Done (acc + cart_total db lines)%Qc.
Proof.
  revert acc. induction lines as [|r lines IH]; intros acc H.
  - unfold cart_total. cbn [map fold_left sum_Qc]. f_equal.
    now rewrite Qcplus_0_r.
  - destruct (H r (or_introl eq_refl)) as [p Hp].
    cbn [map fold_left].
    rewrite item_of_product, item_of_quantity, Hp.
    cbn [option_map Checkout.cp_price].
    rewrite IH by (intros; apply H; now right).
    f_equal. rewrite cart_total_cons, (price_at_found caller db r p Hp). ring.
Qed.

(** The total shown in the dialog is the sum of quantity times price. *)
Lemma total_is_sum (db : database) (caller : auth) (lines : list cart_item) :
  (forall r, In r lines -> exists p, embed_product caller db r = Some p) ->
  Checkout.total
    (map Checkout.item_of (map (fun r => (r, embed_product caller db r)) lines))
  = Done (cart_total db lines).
Proof.
  intros H. unfold Checkout.total. rewrite fold_total_done by assumption.
  f_equal. now rewrite Qcplus_0_l.
Qed.

Lemma cart_total_nonneg (db : database) (lines : list cart_item) :
  forallb product_check (products db) = true ->
  forallb cart_item_check lines = true ->
  Qc_nonneg (cart_total db lines) = true.
Proof.
  intros Hp Hl. unfold cart_total.
  induction lines as [|r lines IH]; simpl; [reflexivity|].
  simpl in Hl. apply andb_true_iff in Hl. destruct Hl as [Hr Hl].
  apply Qc_nonneg_plus; [|now apply IH].
  apply Qc_nonneg_mult.
  - apply Qc_nonneg_Z2Qc. unfold cart_item_check in Hr. apply Z.ltb_lt in Hr. lia.
  - unfold price_at, embed_product. rewrite select_products_all.
    destruct (ci_product_id r) as [pid|]; [|reflexivity].
    destruct (find _ (products db)) as [p|] eqn:F; [|reflexivity].
    apply find_some in F. destruct F as [Hin _].
    rewrite forallb_forall in Hp. specialize (Hp p Hin).
    unfold product_check in Hp. apply andb_true_iff in Hp. now destruct Hp.
Qed.

Lemma db_constraints_rest (db : database) :
  db_constraints db = true ->
  forallb product_check (products db) = true
  /\ distinct (map o_id (orders db)) = true
  /\ distinct (map oi_id (order_items db)) = true.
Proof.
  unfold db_constraints, orders_constraints, order_items_constraints. intros H.
  split_andb. auto.
Qed.

Lemma gen_random_uuids_run (n : nat) (w : world) :
  gen_random_uuids n w
  = (map (w_rand w) (seq 0 n),
     mkWorld (w_db w) (w_net w) (fun k => w_rand w (n + k)%nat) (w_log w)).
Proof.
  revert w. induction n as [|n IH]; intros w.
  - simpl. unfold ret. now destruct w.
  - cbn [gen_random_uuids]. erewrite bind_eq by reflexivity.
    erewrite bind_eq by apply IH. unfold ret. cbn [w_db w_net w_rand w_log].
    f_equal. cbn [seq map]. f_equal. rewrite <- seq_shift, map_map. reflexivity.
Qed.

Lemma existsb_key {A : Type} (key : A -> string) (id : string) (t : list A) :
  existsb (String.eqb id) (map key t) = existsb (fun o => String.eqb (key o) id) t.
Proof.
  induction t as [|x t IH]; simpl; [reflexivity|].
  now rewrite IH, String.eqb_sym.
Qed.

(** The INSERT of the order. *)
Lemma insert_order_statement (u : uuid) (row : order) (db : database) :
  o_user_id row = u -> order_check row = true ->
  distinct (map o_id (orders db)) = true ->
  order_exists db (o_id row) = false ->
  insert_orders (Some u) true [row] db
  = (None, set_orders (orders db ++ [row]) db).
Proof.
  intros Hu Hc Hd Hf. unfold insert_orders. policies.
  cbn [forallb uid_is]. rewrite Hu, String.eqb_refl, Hc. cbn [andb negb].
  rewrite map_app. cbn [map].
  rewrite distinct_snoc; [reflexivity|assumption|].
  unfold order_exists in Hf. now rewrite existsb_key.
Qed.

Lemma orderItems_done (db : database) (caller : auth) (oid : uuid)
    (lines : list cart_item) :
  (forall r, In r lines ->
     exists p, embed_product caller db r = Some p
               /\ ci_product_id r = Some (p_id p)) ->
  Checkout.orderItems oid
    (map Checkout.item_of (map (fun r => (r, embed_product caller db r)) lines))
  = Done (map (fun r => (oid, pid_of r, ci_quantity r, price_at db r)) lines).
Proof.
  induction lines as [|r lines IH]; intros H; [reflexivity|].
  cbn [map Checkout.orderItems].
  destruct (H r (or_introl eq_refl)) as [p [Hp Hid]].
  rewrite item_of_product, item_of_quantity, Hp. cbn [option_map].
  rewrite IH by (intros; apply H; now right).
  cbn [Checkout.cp_id Checkout.cp_price].
  unfold pid_of. rewrite Hid, (price_at_found caller db r p Hp). reflexivity.
Qed.

Lemma combine_map_r {A B C D : Type} (f : A * C -> D) (g : B -> C)
    (xs : list A) (ys : list B) :
  map f (combine xs (map g ys))
  = map (fun ir => f (fst ir, g (snd ir))) (combine xs ys).
Proof.
  revert ys. induction xs as [|x xs IH]; intros [|y ys]; simpl; auto.
  now rewrite IH.
Qed.

Lemma map_fst_combine {A B : Type} (xs : list A) (ys : list B) :
  List.length xs = List.length ys -> map fst (combine xs ys) = xs.
Proof.
  revert ys. induction xs as [|x xs IH]; intros [|y ys]; simpl; try discriminate; auto.
  intros H. injection H as H. now rewrite IH.
Qed.

Lemma price_at_nonneg (db : database) (r : cart_item) :
  forallb product_check (products db) = true -> Qc_nonneg (price_at db r) = true.
Proof.
  intros Hp. unfold price_at, embed_product. rewrite select_products_all.
  destruct (ci_product_id r) as [pid|]; [|reflexivity].
  destruct (find _ (products db)) as [p|] eqn:F; [|reflexivity].
  apply find_some in F. destruct F as [Hin _].
  rewrite forallb_forall in Hp. specialize (Hp p Hin).
  unfold product_check in Hp. apply andb_true_iff in Hp. now destruct Hp.
Qed.

(** The INSERT of the order lines, once the order [oid] of [u] is there. *)
Lemma insert_order_lines_statement (u oid : uuid) (ids : list uuid)
    (lines : list cart_item) (db0 db : database) :
  products db = products db0 ->
  (exists o, In o (orders db) /\ o_id o = oid /\ o_user_id o = u) ->
  forallb product_check (products db0) = true ->
  forallb cart_item_check lines = true ->
  forallb (fun r => fk_ok (product_exists db0) (ci_product_id r)) lines = true ->
  List.length ids = List.length lines ->
  distinct (map oi_id (order_items db) ++ ids) = true ->
  insert_order_items (Some u) (map (order_line db0 oid) (combine ids lines)) db
  = (None,
     set_order_items
       (order_items db ++ map (order_line db0 oid) (combine ids lines)) db).
Proof.
  intros Hprod [o [Ho [Hoid Hou]]] Hpc Hcc Hfk Hlen Hd.
  unfold insert_order_items.
  set (new := map (order_line db0 oid) (combine ids lines)).
  assert (Hnew : forall x, In x new ->
            exists id r, In r lines /\ x = order_line db0 oid (id, r)).
  { intros x Hx. unfold new in Hx. apply in_map_iff in Hx.
    destruct Hx as [[id r] [<- Hir]]. exists id, r.
    split; [now apply in_combine_r in Hir | reflexivity]. }
  assert (Hown : order_exists db oid = true).
  { unfold order_exists. apply existsb_exists. exists o. split; [assumption|].
    now apply String.eqb_eq. }
  assert (E1 : forallb (order_items_insert_policy (Some u) db) new = true).
  { apply forallb_forall. intros x Hx. destruct (Hnew x Hx) as [id [r [_ ->]]].
    policies. unfold owns_referenced_order. apply existsb_exists. exists o.
    split.
    - apply filter_In. split; [assumption|]. policies. simpl.
      rewrite Hou. apply String.eqb_refl.
    - simpl. rewrite Hoid, Hou, !String.eqb_refl. reflexivity. }
  assert (E2 : forallb order_item_check new = true).
  { apply forallb_forall. intros x Hx. destruct (Hnew x Hx) as [id [r [Hr ->]]].
    unfold order_item_check, order_line. simpl.
    rewrite forallb_forall in Hcc. specialize (Hcc r Hr).
    unfold cart_item_check in Hcc. rewrite Hcc.
    now apply price_at_nonneg. }
  assert (E3 : distinct (map oi_id (order_items db ++ new)) = true).
  { rewrite map_app. unfold new. rewrite map_map.
    replace (map (fun x => oi_id (order_line db0 oid x)) (combine ids lines))
      with (map fst (combine ids lines)) by (apply map_ext; now intros [i r]).
    now rewrite map_fst_combine. }
  assert (E4 : forallb (fun r => fk_ok (order_exists db) (oi_order_id r)) new = true).
  { apply forallb_forall. intros x Hx. destruct (Hnew x Hx) as [id [r [_ ->]]].
    simpl. exact Hown. }
  assert (E5 : forallb (fun r => fk_ok (product_exists db) (oi_product_id r)) new = true).
  { apply forallb_forall. intros x Hx. destruct (Hnew x Hx) as [id [r [Hr ->]]].
    simpl. rewrite forallb_forall in Hfk. specialize (Hfk r Hr).
    unfold product_exists in *. now rewrite Hprod. }
  rewrite E1, E2, E3, E4, E5. reflexivity.
Qed.

Lemma orders_insert_single_ok (usr : User) (T : Qc) (status nm em ad : string)
    (w : world) :
  w_net w 0%nat = true -> Qc_nonneg T = true ->
  distinct (map o_id (orders (w_db w))) = true ->
  order_exists (w_db w) (w_rand w 0%nat) = false ->
  let row := mkOrder (w_rand w 0%nat) (u_id usr) T status nm em ad in
  supabase.orders_insert_single (Some usr) (u_id usr) T status nm em ad w
  = (mkResponse (Some row) None,
     mkWorld (set_orders (orders (w_db w) ++ [row]) (w_db w))
             (fun k => w_net w (S k)) (fun k => w_rand w (S k)) (w_log w)).
Proof.
  intros Hnet HT Hd Hf row. unfold supabase.orders_insert_single.
  erewrite bind_eq by reflexivity.
  rewrite round_trip_ok by (simpl; assumption).
  cbn [w_db w_net w_rand w_log session option_map]. fold row.
  rewrite (insert_order_statement (u_id usr) row) by auto.
  reflexivity.
Qed.

Lemma order_items_insert_ok (usr : User) (oid : uuid) (lines : list cart_item)
    (db0 : database) (w : world) :
  w_net w 0%nat = true ->
  products (w_db w) = products db0 ->
  (exists o, In o (orders (w_db w)) /\ o_id o = oid /\ o_user_id o = u_id usr) ->
  forallb product_check (products db0) = true ->
  forallb cart_item_check lines = true ->
  forallb (fun r => fk_ok (product_exists db0) (ci_product_id r)) lines = true ->
  (forall r, In r lines -> ci_product_id r <> None) ->
  let ids := map (w_rand w) (seq 0 (List.length lines)) in
  distinct (map oi_id (order_items (w_db w)) ++ ids) = true ->
  supabase.order_items_insert (Some usr)
    (map (fun r => (oid, pid_of r, ci_quantity r, price_at db0 r)) lines) w
  = (mkResponse None None,
     mkWorld
       (set_order_items
          (order_items (w_db w) ++ map (order_line db0 oid) (combine ids lines))
          (w_db w))
       (fun k => w_net w (S k))
       (fun k => w_rand w (List.length lines + k)%nat) (w_log w)).
Proof.
  intros Hnet Hprod Ho Hpc Hcc Hfk Hsome ids Hd.
  unfold supabase.order_items_insert.
  erewrite bind_eq by apply gen_random_uuids_run.
  rewrite round_trip_ok by (simpl; assumption).
  cbn [w_db w_net w_rand w_log session option_map].
  rewrite length_map. fold ids.
  rewrite (combine_map_r
             (fun ir : string * (string * string * Z * Qc) =>
                match ir with
                | (id, (order_id, product_id, quantity, price)) =>
                    mkOrderItem id (Some order_id) (Some product_id) quantity price
                end)).
  replace (map _ (combine ids lines))
    with (map (order_line db0 oid) (combine ids lines)).
  - rewrite (insert_order_lines_statement (u_id usr) oid ids lines db0) by
      (auto; unfold ids; now rewrite length_map, length_seq).
    reflexivity.
  - apply map_ext_in. intros [id r] Hir. apply in_combine_r in Hir.
    unfold order_line, pid_of. simpl.
    specialize (Hsome r Hir). now destruct (ci_product_id r).
Qed.

Lemma delete_own_target (u : uuid) (r : cart_item) :
  cart_items_delete_target (Some u) (fun r => String.eqb (ci_user_id r) u) r
  = owned_by u r.
Proof.
  policies. unfold owned_by. simpl. rewrite (String.eqb_sym u).
  now destruct (String.eqb (ci_user_id r) u).
Qed.

Lemma cart_items_delete_user_ok (usr : User) (w : world) :
  w_net w 0%nat = true ->
  supabase.cart_items_delete_user (Some usr) (u_id usr) w
  = (mkResponse None None,
     mkWorld
       (set_cart_items
          (filter (fun r => negb (owned_by (u_id usr) r)) (cart_items (w_db w)))
          (w_db w))
       (fun k => w_net w (S k)) (w_rand w) (w_log w)).
Proof.
  intros Hnet. unfold supabase.cart_items_delete_user.
  rewrite round_trip_ok by assumption. unfold delete_cart_items, written.
  cbn [fst snd session option_map]. do 3 f_equal.
  apply filter_ext. intros r. now rewrite delete_own_target.
Qed.

Lemma select_own_lines (u : uuid) (db : database) :
  select_cart_items (Some u) (fun r => String.eqb (ci_user_id r) u) db
  = filter (owned_by u) (cart_items db).
Proof.
  unfold select_cart_items. apply filter_ext. intros r. policies.
  unfold owned_by. simpl. rewrite (String.eqb_sym u).
  now destruct (String.eqb (ci_user_id r) u).
Qed.

(** What the dialog holds once it has read the cart. *)
Lemma Checkout_fetch_ok (usr : User) (st : Checkout.State) (w : world) :
  w_net w 0%nat = true ->
  Checkout.fetchCartItems (Some usr) st w
  = (Checkout.setCartItems
       (map Checkout.item_of
          (map (fun r => (r, embed_product (Some (u_id usr)) (w_db w) r))
               (filter (owned_by (u_id usr)) (cart_items (w_db w)))))
       st,
     mkWorld (w_db w) (fun k => w_net w (S k)) (w_rand w) (w_log w)).
Proof.
  intros Hnet. unfold Checkout.fetchCartItems.
  erewrite bind_eq
    by (unfold supabase.cart_items_with_product; now apply round_trip_ok).
  cbn [fst snd data session option_map]. now rewrite select_own_lines.
Qed.

(** The submit handler, run on a dialog whose cart is the cart of the
    database, with every request delivered and fresh identifiers. *)
Lemma handlePlaceOrder_run (usr : User) (st : Checkout.State) (w : world) :
  let db := w_db w in
  let lines := filter (owned_by (u_id usr)) (cart_items db) in
  let oid := w_rand w 0%nat in
  Checkout.cartItems st
  = map Checkout.item_of
        (map (fun r => (r, embed_product (Some (u_id usr)) db r)) lines) ->
  db_constraints db = true ->
  (forall r, In r lines -> ci_product_id r <> None) ->
  w_net w 0%nat = true -> w_net w 1%nat = true -> w_net w 2%nat = true ->
  order_exists db oid = false ->
  distinct (map oi_id (order_items db) ++ next_ids w (List.length lines)) = true ->
  Checkout.handlePlaceOrder (Some usr) st w
  = (Done (Checkout.setOrderPlaced true
             (Checkout.setLoading false (Checkout.setLoading true st))),
     mkWorld
       (mkDb (categories db) (products db)
             (filter (fun r => negb (owned_by (u_id usr) r)) (cart_items db))
             (orders db
              ++ [mkOrder oid (u_id usr) (cart_total db lines) "pending"
                    (Checkout.customerName st) (Checkout.customerEmail st)
                    (Checkout.customerAddress st)])
             (order_items db
              ++ map (order_line db oid)
                     (combine (next_ids w (List.length lines)) lines)))
       (fun k => w_net w (S (S (S k))))
       (fun k => w_rand w (S (List.length lines + k)))
       (w_log w ++ [DispatchEvent "cart-updated"])).
Proof.
  intros db lines oid Hsnap Hwf Hsome H0 H1 H2 Hfo Hfi.
  destruct (db_constraints_cart _ Hwf) as [Hcc [_ [_ Hfk]]].
  destruct (db_constraints_rest _ Hwf) as [Hpc [Hdo _]].
  assert (Hcc' : forallb cart_item_check lines = true) by now apply forallb_filter.
  assert (Hfk' : forallb (fun r => fk_ok (product_exists db) (ci_product_id r)) lines
                 = true) by now apply forallb_filter.
  assert (Hfound : forall r, In r lines ->
            exists p, embed_product (Some (u_id usr)) db r = Some p
                      /\ ci_product_id r = Some (p_id p)).
  { intros r Hr. rewrite forallb_forall in Hfk'.
    destruct (embed_product_found (Some (u_id usr)) db r (Hfk' r Hr) (Hsome r Hr))
      as [p [Hp [_ Hid]]]. eauto. }
  unfold Checkout.handlePlaceOrder.
  rewrite Hsnap, total_is_sum
    by (intros r Hr; destruct (Hfound r Hr) as [p [Hp _]]; eauto).
  erewrite bind_eq.
  2:{ apply orders_insert_single_ok; auto.
      now apply cart_total_nonneg. }
  cbn [error data o_id].
  change (Checkout.cartItems (Checkout.setLoading true st))
    with (Checkout.cartItems st).
  rewrite Hsnap, orderItems_done by assumption.
  erewrite bind_eq.
  2:{ apply (order_items_insert_ok usr oid lines db); auto.
      exists (mkOrder oid (u_id usr) (cart_total db lines) "pending"
                (Checkout.customerName (Checkout.setLoading true st))
                (Checkout.customerEmail (Checkout.setLoading true st))
                (Checkout.customerAddress (Checkout.setLoading true st))).
      split; [|split; reflexivity].
      cbn [w_db orders set_orders]. apply in_or_app. right. now left. }
  erewrite bind_eq by (now apply cart_items_delete_user_ok).
  erewrite bind_eq by reflexivity.
  reflexivity.
Qed.

(** ** Every handler keeps the constraints of the schema *)

Lemma kc_ret {A : Type} (a : A) : keeps_constraints (ret a).
Proof. intros w H. exact H. Qed.

Lemma kc_bind {A B : Type} (m : M A) (k : A -> M B) :
  keeps_constraints m -> (forall a, keeps_constraints (k a)) ->
  keeps_constraints (bind m k).
Proof. intros Hm Hk w H. rewrite bind_run. apply Hk. now apply Hm. Qed.

Lemma kc_perform (e : effect) : keeps_constraints (perform e).
Proof. intros w H. exact H. Qed.

Lemma kc_uuid : keeps_constraints gen_random_uuid.
Proof. intros w H. exact H. Qed.

Lemma kc_uuids (n : nat) : keeps_constraints (gen_random_uuids n).
Proof. intros w H. now rewrite gen_random_uuids_run. Qed.

Lemma kc_round_trip {A : Type} (stmt : database -> response A * database) :
  (forall db, db_constraints db = true -> db_constraints (snd (stmt db)) = true) ->
  keeps_constraints (round_trip stmt).
Proof. intros Hs w H. now apply round_trip_keeps_constraints. Qed.

Ltac kc_step :=
  first
    [ apply kc_ret
    | apply kc_perform
    | apply kc_uuid
    | apply kc_uuids
    | apply kc_bind; [|intro]
    | apply kc_round_trip; intros ? ?; unfold written; cbn [fst snd];
      first [ assumption
            | now apply constraints_insert_cart
            | now apply constraints_update_cart
            | now apply constraints_delete_cart
            | now apply constraints_insert_order_items ] ].

Lemma kc_add_requests (user : option User) (uid pid : uuid) (n : Z) :
  keeps_constraints (add_requests user uid pid n).
Proof. intros w H. now apply add_requests_keeps_constraints. Qed.

Lemma kc_handleAddToCart_detail (user : option User) (p : product)
    (st : ProductDetail.State) :
  keeps_constraints (ProductDetail.handleAddToCart user p st).
Proof.
  unfold ProductDetail.handleAddToCart. destruct user as [u|]; [|kc_step].
  kc_step.
  - unfold supabase.cart_items_maybeSingle. kc_step.
  - kc_step; [|repeat kc_step].
    destruct (data a).
    + unfold supabase.cart_items_update_quantity. kc_step.
    + unfold supabase.cart_items_insert. repeat kc_step.
Qed.

Lemma kc_handleAddToCart_catalog (user : option User) (p : product)
    (st : ProductCatalog.State) :
  keeps_constraints (ProductCatalog.handleAddToCart user p st).
Proof.
  unfold ProductCatalog.handleAddToCart. destruct user as [u|]; [|kc_step].
  kc_step.
  - unfold supabase.cart_items_maybeSingle. kc_step.
  - kc_step; [|repeat kc_step].
    destruct (data a).
    + unfold supabase.cart_items_update_quantity. kc_step.
    + unfold supabase.cart_items_insert. repeat kc_step.
Qed.

Lemma kc_cart_fetch (user : option User) (st : ShoppingCart.State) :
  keeps_constraints (ShoppingCart.fetchCartItems user st).
Proof.
  unfold ShoppingCart.fetchCartItems. destruct user as [u|]; [|kc_step].
  unfold supabase.cart_items_with_product. repeat kc_step.
Qed.

Lemma kc_updateQuantity (user : option User) (id : uuid) (n : Z)
    (st : ShoppingCart.State) :
  keeps_constraints (ShoppingCart.updateQuantity user id n st).
Proof.
  unfold ShoppingCart.updateQuantity. destruct (n <? 1); [kc_step|].
  kc_step; [|apply kc_cart_fetch].
  unfold supabase.cart_items_update_quantity. kc_step.
Qed.

Lemma kc_removeItem (user : option User) (id : uuid) (st : ShoppingCart.State) :
  keeps_constraints (ShoppingCart.removeItem user id st).
Proof.
  unfold ShoppingCart.removeItem.
  kc_step; [unfold supabase.cart_items_delete_id; kc_step|].
  kc_step; [apply kc_cart_fetch | repeat kc_step].
Qed.

Lemma kc_checkout_fetch (user : option User) (st : Checkout.State) :
  keeps_constraints (Checkout.fetchCartItems user st).
Proof.
  unfold Checkout.fetchCartItems. destruct user as [u|]; [|kc_step].
  unfold supabase.cart_items_with_product.
  kc_step; [kc_step|]. destruct (data a); kc_step.
Qed.

Lemma kc_handlePlaceOrder (user : option User) (st : Checkout.State) :
  keeps_constraints (Checkout.handlePlaceOrder user st).
Proof.
  unfold Checkout.handlePlaceOrder. destruct user as [u|]; [|kc_step].
  destruct (Checkout.total _) as [total|]; [|kc_step].
  kc_step.
  - unfold supabase.orders_insert_single. kc_step; [kc_step|].
    apply kc_round_trip. intros db Hdb.
    pose proof (constraints_insert_orders (session (Some u)) true
                  [mkOrder a (u_id u) total "pending"
                     (Checkout.customerName (Checkout.setLoading true st))
                     (Checkout.customerEmail (Checkout.setLoading true st))
                     (Checkout.customerAddress (Checkout.setLoading true st))]
                  db Hdb) as Hc.
    destruct (insert_orders _ _ _ db) as [e db1]. exact Hc.
  - destruct (error a); [repeat kc_step|].
    destruct (data a) as [order|]; [|repeat kc_step].
    destruct (Checkout.orderItems _ _) as [rows|]; [|kc_step].
    kc_step.
    + unfold supabase.order_items_insert. repeat kc_step.
    + kc_step; [unfold supabase.cart_items_delete_user; kc_step|].
      repeat kc_step.
Qed.

Lemma kc_placeOrder (user : option User) (info : Checkout.CustomerInfo)
    (st0 : Checkout.State) :
  keeps_constraints (Checkout.placeOrder user info st0).
Proof.
  unfold Checkout.placeOrder. apply kc_bind.
  - unfold Checkout.onOpen. destruct user as [u|]; [|kc_step].
    kc_step; [apply kc_checkout_fetch | kc_step].
  - intros st. apply kc_handlePlaceOrder.
Qed.

Lemma filter_neg_none {A : Type} (f : A -> bool) (t : list A) :
  filter f (filter (fun r => negb (f r)) t) = [].
Proof.
  induction t as [|r t IH]; simpl; [reflexivity|].
  destruct (f r) eqn:E; simpl; [exact IH|]. now rewrite E.
Qed.

(** The whole flow, with every request delivered and fresh identifiers. *)
Lemma placeOrder_run (usr : User) (info : Checkout.CustomerInfo)
    (st0 : Checkout.State) (w : world) :
  let db := w_db w in
  let lines := filter (owned_by (u_id usr)) (cart_items db) in
  let oid := w_rand w 0%nat in
  let ids := next_ids w (List.length lines) in
  db_constraints db = true ->
  (forall r, In r lines -> ci_product_id r <> None) ->
  (forall k, (k < 4)%nat -> w_net w k = true) ->
  order_exists db oid = false ->
  distinct (map oi_id (order_items db) ++ ids) = true ->
  exists st,
    Checkout.orderPlaced st = true
    /\ Checkout.placeOrder (Some usr) info st0 w
       = (Done st,
          mkWorld
            (mkDb (categories db) (products db)
                  (filter (fun r => negb (owned_by (u_id usr) r)) (cart_items db))
                  (orders db
                   ++ [mkOrder oid (u_id usr) (cart_total db lines) "pending"
                         (Checkout.name info) (Checkout.email info)
                         (Checkout.address info)])
                  (order_items db ++ map (order_line db oid) (combine ids lines)))
            (fun k => w_net w (S (S (S (S k)))))
            (fun k => w_rand w (S (List.length lines + k)))
            (w_log w ++ [DispatchEvent "cart-updated"])).
Proof.
  intros db lines oid ids Hwf Hsome Hnet Hfo Hfi.
  assert (H0 : w_net w 0%nat = true) by (apply Hnet; lia).
  assert (H1 : w_net w 1%nat = true) by (apply Hnet; lia).
  assert (H2 : w_net w 2%nat = true) by (apply Hnet; lia).
  assert (H3 : w_net w 3%nat = true) by (apply Hnet; lia).
  eexists. split; [|unfold Checkout.placeOrder, Checkout.onOpen].
  2:{ erewrite bind_eq.
      2:{ erewrite bind_eq by (now apply Checkout_fetch_ok). reflexivity. }
      rewrite handlePlaceOrder_run by auto. reflexivity. }
  reflexivity.
Qed.



(** ** Checkout of an empty cart, and checkout when the storage fails *)

Lemma insert_order_items_nil (caller : auth) (db : database) :
  order_items (snd (insert_order_items caller [] db)) = order_items db.
Proof.
  unfold insert_order_items. cbn [forallb negb andb].
  destruct (distinct _); simpl; [|reflexivity]. apply app_nil_r.
Qed.

Lemma onOpen_empty_cart (usr : User) (st : Checkout.State) (w : world) :
  filter (owned_by (u_id usr)) (cart_items (w_db w)) = [] ->
  Checkout.cartItems st = [] \/ w_net w 0%nat = true ->
  let r := Checkout.onOpen (Some usr) st w in
  Checkout.cartItems (fst r) = [] /\ w_db (snd r) = w_db w.
Proof.
  intros Hnone Hst. unfold Checkout.onOpen. rewrite bind_run.
  destruct (w_net w 0%nat) eqn:Hnet.
  - rewrite Checkout_fetch_ok by assumption. rewrite Hnone. simpl. auto.
  - destruct Hst as [Hst|Hst]; [|discriminate].
    unfold Checkout.fetchCartItems. rewrite bind_run.
    unfold supabase.cart_items_with_product.
    rewrite round_trip_lost by assumption. simpl. auto.
Qed.

Lemma handlePlaceOrder_empty_keeps (user : option User) (st : Checkout.State) :
  Checkout.cartItems st = [] ->
  keeps order_items (Checkout.handlePlaceOrder user st).
Proof.
  intros Hst. unfold Checkout.handlePlaceOrder.
  destruct user as [u|]; [|frame_step].
  rewrite Hst. cbn [Checkout.total fold_left].
  frame_step.
  - unfold supabase.orders_insert_single. frame_step; [frame_step|].
    frame_step.
    pose proof (insert_orders_frame (session (Some u)) true
                  [mkOrder a (u_id u) (Q2Qc 0) "pending"
                     (Checkout.customerName (Checkout.setLoading true st))
                     (Checkout.customerEmail (Checkout.setLoading true st))
                     (Checkout.customerAddress (Checkout.setLoading true st))] db) as Hf.
    cbv zeta in Hf.
    destruct (insert_orders _ _ _ db) as [e db1]. simpl in *. tauto.
  - destruct (error a); [repeat frame_step|].
    destruct (data a) as [order|]; [|repeat frame_step].
    change (Checkout.cartItems (Checkout.setLoading true st))
      with (Checkout.cartItems st).
    rewrite Hst. cbn [Checkout.orderItems].
    frame_step.
    + unfold supabase.order_items_insert. frame_step; [frame_step|].
      frame_step. unfold written. cbn [snd].
      destruct a0; [apply insert_order_items_nil|].
      cbn [combine map]. apply insert_order_items_nil.
    + frame_step.
      * unfold supabase.cart_items_delete_user. frame_step. reflexivity.
      * repeat frame_step.
Qed.

(** C4, as stated, fails: with an empty cart the checkout is not rejected; it
    reports success, raises no alert, and an order row is created. *)
Lemma placeOrder_empty_cart_not_rejected :
  let db := mkDb [] [mkProduct "p1" "Desk Lamp" "" (Q2Qc (3999 # 100)) "" None 90 false]
              [] [] [] in
  let w := mkWorld db (fun _ => true) (fun _ => "o1") [] in
  let res := Checkout.placeOrder (Some (mkUser "alice" None))
               (Checkout.mkCustomerInfo "A" "a@x.com" "1 Main St")
               Checkout.initial w in
  filter (owned_by "alice") (cart_items (w_db w)) = []
  /\ orders (w_db w) = []
  /\ (exists st, fst res = Done st /\ Checkout.orderPlaced st = true)
  /\ w_log (snd res) = [DispatchEvent "cart-updated"]
  /\ orders (w_db (snd res))
     = [mkOrder "o1" "alice" (Q2Qc 0) "pending" "A" "a@x.com" "1 Main St"].
Proof.
  simpl. repeat split. eexists. split; reflexivity.
Qed.

(** C4, amended. For a user whose cart is empty, [placeOrder] creates no order
    line once the dialog has read that cart (or had shown none before),
    whatever the storage does afterwards; but it is not rejected: with the
    requests delivered and a fresh identifier it appends one pending order
    of total zero, reports success and raises no alert.  Only the cart
    drawer, which offers the checkout for a non-empty cart, stands in the
    way. *)
Theorem placeOrder_empty_cart (usr : User) (info : Checkout.CustomerInfo)
    (st0 : Checkout.State) (w : world) :
  let db := w_db w in
  filter (owned_by (u_id usr)) (cart_items db) = [] ->
  let res := Checkout.placeOrder (Some usr) info st0 w in
  let db' := w_db (snd res) in
  (Checkout.cartItems st0 = [] \/ w_net w 0%nat = true ->
   order_items db' = order_items db)
  /\ (db_constraints db = true ->
      (forall k, (k < 4)%nat -> w_net w k = true) ->
      order_exists db (w_rand w 0%nat) = false ->
      (exists st, fst res = Done st /\ Checkout.orderPlaced st = true)
      /\ orders db'
         = orders db
           ++ [mkOrder (w_rand w 0%nat) (u_id usr) (Q2Qc 0) "pending"
                 (Checkout.name info) (Checkout.email info)
                 (Checkout.address info)]
      /\ w_log (snd res) = w_log w ++ [DispatchEvent "cart-updated"])
  /\ (forall loading,
        ShoppingCart.offersCheckout (ShoppingCart.mkState [] loading) = false).
Proof.
  intros db Hnone res db'. split; [|split; [|reflexivity]].
  - intros Hread. subst res db'. unfold Checkout.placeOrder. rewrite bind_run.
    destruct (onOpen_empty_cart usr st0 w Hnone Hread) as [Hc Hdb].
    rewrite handlePlaceOrder_empty_keeps by exact Hc.
    now rewrite Hdb.
  - intros Hwf Hnet Hfo.
    assert (Hsome : forall r, In r (filter (owned_by (u_id usr)) (cart_items db)) ->
                              ci_product_id r <> None)
      by (rewrite Hnone; contradiction).
    destruct (db_constraints_rest _ Hwf) as [_ [_ Hdi]].
    assert (Hfi : distinct (map oi_id (order_items db)
                            ++ next_ids w (List.length
                                 (filter (owned_by (u_id usr)) (cart_items db))))
                  = true).
    { rewrite Hnone. unfold next_ids. simpl. now rewrite app_nil_r. }
    destruct (placeOrder_run usr info st0 w Hwf Hsome Hnet Hfo Hfi)
      as [st [Hst Hrun]].
    fold db in Hrun. rewrite Hnone in Hrun.
    subst res db'. rewrite Hrun. cbn [fst snd w_db w_log orders].
    split; [eauto|]. split; reflexivity.
Qed.

Lemma placeOrder_empty_cart_witness :
  let db := mkDb [] [mkProduct "p1" "Desk Lamp" "" (Q2Qc (3999 # 100)) "" None 90 false]
              [mkCartItem "c9" "bob" (Some "p1") 1] [] [] in
  let w := mkWorld db (fun _ => true) (fun _ => "o1") [] in
  let res := Checkout.placeOrder (Some (mkUser "alice" None))
               (Checkout.mkCustomerInfo "A" "a@x.com" "1 Main St")
               Checkout.initial w in
  order_items (w_db (snd res)) = []
  /\ orders (w_db (snd res))
     = [mkOrder "o1" "alice" (Q2Qc 0) "pending" "A" "a@x.com" "1 Main St"].
Proof.
  intros db w res.
  destruct (placeOrder_empty_cart (mkUser "alice" None)
              (Checkout.mkCustomerInfo "A" "a@x.com" "1 Main St")
              Checkout.initial w eq_refl)
    as [Hi [Ho _]].
  split; [exact (Hi (or_introl eq_refl))|].
  destruct (Ho eq_refl (fun k _ => eq_refl) eq_refl) as [_ [H _]].
  exact H.
Defined.

(** C5 fails on the code: only a failure of the first request is reported.
    When the insert of the order lines is lost, or when the deletion of the
    cart is lost, the handler still shows "Order Placed Successfully!" and
    raises no alert, leaving an order without lines, or an order together
    with the cart it was made from; when the read of the cart is lost the
    submit orders nothing, at total zero, and empties the cart; only when the
    insert of the order is lost does the handler raise its one alert, and
    then it writes nothing. *)
Theorem placeOrder_failure_reporting :
  let db := mkDb [] [mkProduct "p1" "Desk Lamp" "" (Q2Qc (3999 # 100)) "" None 90 false]
              [mkCartItem "c1" "alice" (Some "p1") 2] [] [] in
  let world_failing_at n :=
    mkWorld db (fun k => negb (Nat.eqb k n))
            (fun k => if Nat.eqb k 0 then "o1" else "i1") [] in
  let run n := Checkout.placeOrder (Some (mkUser "alice" None))
                 (Checkout.mkCustomerInfo "A" "a@x.com" "1 Main St")
                 Checkout.initial (world_failing_at n) in
  (* the insert of the order is lost *)
  ((exists st, fst (run 1%nat) = Done st /\ Checkout.orderPlaced st = false)
   /\ w_log (snd (run 1%nat)) = [Alert "Error placing order. Please try again."]
   /\ w_db (snd (run 1%nat)) = db)
  (* the insert of the order lines is lost *)
  /\ ((exists st, fst (run 2%nat) = Done st /\ Checkout.orderPlaced st = true)
      /\ w_log (snd (run 2%nat)) = [DispatchEvent "cart-updated"]
      /\ List.length (orders (w_db (snd (run 2%nat)))) = 1%nat
      /\ order_items (w_db (snd (run 2%nat))) = []
      /\ cart_items (w_db (snd (run 2%nat))) = [])
  (* the deletion of the cart is lost *)
  /\ ((exists st, fst (run 3%nat) = Done st /\ Checkout.orderPlaced st = true)
      /\ w_log (snd (run 3%nat)) = [DispatchEvent "cart-updated"]
      /\ List.length (orders (w_db (snd (run 3%nat)))) = 1%nat
      /\ List.length (order_items (w_db (snd (run 3%nat)))) = 1%nat
      /\ cart_items (w_db (snd (run 3%nat))) = cart_items db)
  (* the read of the cart, when the dialog opens, is lost *)
  /\ ((exists st, fst (run 0%nat) = Done st /\ Checkout.orderPlaced st = true)
      /\ w_log (snd (run 0%nat)) = [DispatchEvent "cart-updated"]
      /\ map (fun o => this (o_total o)) (orders (w_db (snd (run 0%nat)))) = [0%Q]
      /\ order_items (w_db (snd (run 0%nat))) = []
      /\ cart_items (w_db (snd (run 0%nat))) = []).
Proof.
  simpl. repeat split; eexists; split; reflexivity.
Qed.

(** * Further properties *)

(** ** The database under arbitrary requests *)

Lemma exec_keeps_constraints_witness :
  let db := mkDb [] [mkProduct "p1" "Yoga Mat" "" (Q2Qc (3499 # 100)) "" None 120 false]
              [mkCartItem "c1" "alice" (Some "p1") 2] [] [] in
  let q := UpdateCartItems (fun _ => true) (with_quantity 0) in
  db_constraints db = true
  /\ r_error (fst (exec (Some "alice") q db)) = Some CheckViolation
  /\ db_constraints (snd (exec (Some "alice") q db)) = true.
Proof.
  intros db q. split; [reflexivity|]. split; [reflexivity|].
  apply (exec_keeps_constraints (Some "alice") q db). reflexivity.
Defined.

Lemma set_cart_items_same (db : database) : set_cart_items (cart_items db) db = db.
Proof. now destruct db. Qed.

Lemma set_orders_same (db : database) : set_orders (orders db) db = db.
Proof. now destruct db. Qed.

Lemma set_order_items_same (db : database) :
  set_order_items (order_items db) db = db.
Proof. now destruct db. Qed.

Lemma forallb_none {A : Type} (f : A -> bool) (l : list A) :
  (forall x, f x = false) -> forallb f l = true -> l = [].
Proof.
  intros Hf H. destruct l as [|x l]; [reflexivity|].
  simpl in H. now rewrite (Hf x) in H.
Qed.

Lemma filter_false {A : Type} (f : A -> bool) (l : list A) :
  (forall x, f x = false) -> filter f l = [].
Proof.
  intros Hf. induction l as [|x l IH]; simpl; [reflexivity|]. now rewrite Hf.
Qed.

Lemma map_if_false {A : Type} (t : A -> bool) (g : A -> A) (l : list A) :
  (forall x, t x = false) -> map (fun r => if t r then g r else r) l = l.
Proof.
  intros Ht. induction l as [|x l IH]; simpl; [reflexivity|].
  now rewrite Ht, IH.
Qed.

(** X3. Without a session nothing of the private tables is visible and
    nothing can be written: every request of an anonymous caller returns no
    cart line, no order and no order line, and leaves the database exactly as
    it was. *)
Theorem anonymous_sees_and_changes_nothing (q : request) (db : database) :
  let rep := fst (exec None q db) in
  r_cart_items rep = [] /\ r_orders rep = [] /\ r_order_items rep = []
  /\ snd (exec None q db) = db.
Proof.
  destruct q as [w|rows|w s|w|w|returning rows|w s|w|w|rows|w s|w];
    cbv beta iota zeta delta [exec];
    try (repeat split; reflexivity).
  - repeat split. unfold select_cart_items. now apply filter_false.
  - unfold insert_cart_items.
    destruct (forallb (cart_items_insert_policy None) rows) eqn:E;
      [|repeat split; reflexivity].
    apply forallb_none in E; [|reflexivity]. subst rows.
    cbn [forallb negb]. rewrite app_nil_r.
    destruct (distinct _ && user_product_unique _)%bool; cbn [negb fst snd];
      repeat split; try reflexivity.
    apply set_cart_items_same.
  - unfold update_cart_items.
    rewrite (filter_false (cart_items_update_target None w)) by reflexivity.
    rewrite (map_if_false (cart_items_update_target None w)) by reflexivity.
    cbn [map forallb negb].
    destruct (distinct _ && user_product_unique _)%bool; cbn [negb fst snd];
      repeat split; try reflexivity.
    apply set_cart_items_same.
  - repeat split. unfold delete_cart_items. cbn [fst snd].
    rewrite filter_all by reflexivity. apply set_cart_items_same.
  - repeat split. unfold select_orders. now apply filter_false.
  - unfold insert_orders.
    destruct (forallb (orders_insert_policy None) rows) eqn:E;
      [|repeat split; reflexivity].
    apply forallb_none in E; [|reflexivity]. subst rows.
    cbn [forallb negb]. rewrite andb_false_r, app_nil_r.
    destruct (distinct _); cbn [negb fst snd]; repeat split; try reflexivity;
      try (now destruct returning).
    apply set_orders_same.
  - repeat split. unfold select_order_items. apply filter_false. intros r.
    unfold order_items_select_policy, owns_referenced_order.
    rewrite (filter_false (orders_select_policy None)) by reflexivity.
    reflexivity.
  - unfold insert_order_items.
    destruct (forallb (order_items_insert_policy None db) rows) eqn:E;
      [|repeat split; reflexivity].
    apply forallb_none in E.
    + subst rows. cbn [forallb negb andb]. rewrite app_nil_r.
      destruct (distinct _); cbn [negb fst snd];
        repeat split; try reflexivity.
      apply set_order_items_same.
    + intros r. unfold order_items_insert_policy, owns_referenced_order.
      rewrite (filter_false (orders_select_policy None)) by reflexivity.
      reflexivity.
Qed.









(** ** The handlers *)

Lemma kc_updateCartCount (user : option User) (st : App.State) :
  keeps_constraints (App.updateCartCount user st).
Proof.
  unfold App.updateCartCount. destruct user as [u|]; [|kc_step].
  unfold supabase.cart_items_quantities.
  kc_step; [kc_step|]. destruct (data a); kc_step.
Qed.

(** X2. No handler takes the database out of its constraints: after either
    "add to cart", a change of quantity, a removal, the submit of the
    checkout form or the whole checkout, with requests delivered or lost,
    accepted or rejected, every check, key and reference of the schema still
    holds if it held before. *)
Theorem handlers_keep_constraints (user : option User) :
  (forall p st, keeps_constraints (ProductDetail.handleAddToCart user p st))
  /\ (forall p st, keeps_constraints (ProductCatalog.handleAddToCart user p st))
  /\ (forall id n st, keeps_constraints (ShoppingCart.updateQuantity user id n st))
  /\ (forall id st, keeps_constraints (ShoppingCart.removeItem user id st))
  /\ (forall st, keeps_constraints (Checkout.handlePlaceOrder user st))
  /\ (forall info st0, keeps_constraints (Checkout.placeOrder user info st0))
  /\ (forall st, keeps_constraints (App.updateCartCount user st)).
Proof.
  repeat split; intros.
  - apply kc_handleAddToCart_detail.
  - apply kc_handleAddToCart_catalog.
  - apply kc_updateQuantity.
  - apply kc_removeItem.
  - apply kc_handlePlaceOrder.
  - apply kc_placeOrder.
  - apply kc_updateCartCount.
Qed.

Lemma handlers_keep_constraints_witness :
  let alice := Some (mkUser "alice" None) in
  let db := mkDb [] [mkProduct "p1" "Yoga Mat" "" (Q2Qc (3499 # 100)) "" None 120 false]
              [mkCartItem "c1" "alice" (Some "p1") 2] [] [] in
  let w := mkWorld db (fun k => Nat.even k) (fun _ => "c1") [] in
  db_constraints db = true
  /\ db_constraints
       (w_db (snd (Checkout.placeOrder alice
                     (Checkout.mkCustomerInfo "A" "a@x.com" "1 Main St")
                     Checkout.initial w))) = true.
Proof.
  intros alice db w. split; [reflexivity|].
  destruct (handlers_keep_constraints alice) as [_ [_ [_ [_ [_ [H _]]]]]].
  apply H. reflexivity.
Defined.

Lemma filter_false_in {A : Type} (f : A -> bool) (l : list A) :
  (forall x, In x l -> f x = false) -> filter f l = [].
Proof.
  intros Hf. induction l as [|x l IH]; simpl; [reflexivity|].
  rewrite (Hf x (or_introl eq_refl)). apply IH. intros y Hy. apply Hf. now right.
Qed.








Lemma round_trip_db_same {A : Type} (stmt : database -> response A * database)
    (w : world) :
  snd (stmt (w_db w)) = w_db w -> w_db (snd (round_trip stmt w)) = w_db w.
Proof.
  intros H. unfold round_trip. destruct (w_net w 0%nat); [|reflexivity].
  destruct (stmt (w_db w)). exact H.
Qed.



(** ** The quantity field of the product dialog *)

Lemma operate_bounds (product : product) (c : ProductDetail.control) (st : ProductDetail.State) :
  0 < p_stock product -> 1 <= ProductDetail.quantity st ->
  let st' := ProductDetail.operate product st c in
  1 <= ProductDetail.quantity st'
  /\ (ProductDetail.quantity st <= p_stock product ->
      ProductDetail.quantity st' <= p_stock product)
  /\ ProductDetail.showAuthModal st' = ProductDetail.showAuthModal st.
Proof.
  intros Hs Hq. destruct c as [| |parsed]; simpl.
  - repeat split; lia.
  - repeat split; lia.
  - destruct parsed as [v|]; [destruct (v =? 0)|]; repeat split; lia.
Qed.

(** X9. The quantity of the product dialog stays a quantity.  Whatever the
    customer does with the minus button, the plus button and the number
    field, on whatever products in stock the dialog is opened for, a quantity
    of at least 1 stays at least 1; and as long as the dialog stays on one
    product, a quantity within the stock stays within the stock. *)
Theorem quantity_controls_stay_in_range :
  (forall (steps : list (product * ProductDetail.control)) (st : ProductDetail.State),
      (forall pc, In pc steps -> 0 < p_stock (fst pc)) ->
      1 <= ProductDetail.quantity st ->
      1 <= ProductDetail.quantity
             (fold_left (fun s pc => ProductDetail.operate (fst pc) s (snd pc))
                        steps st))
  /\ (forall (product : product) (cs : list ProductDetail.control) (st : ProductDetail.State),
      0 < p_stock product ->
      1 <= ProductDetail.quantity st <= p_stock product ->
      1 <= ProductDetail.quantity
             (fold_left (ProductDetail.operate product) cs st)
        <= p_stock product).
Proof.
  split.
  - induction steps as [|[p c] steps IH]; intros st Hs Hq; [exact Hq|].
    cbn [fold_left fst snd]. apply IH.
    + intros pc Hpc. apply Hs. now right.
    + apply (operate_bounds p c st); [|exact Hq].
      apply (Hs (p, c)). now left.
  - intros product cs. induction cs as [|c cs IH]; intros st Hs Hq; [exact Hq|].
    cbn [fold_left]. apply IH; [exact Hs|].
    destruct (operate_bounds product c st Hs (proj1 Hq)) as [H1 [H2 _]].
    split; [exact H1 | apply H2; apply Hq].
Qed.

Lemma quantity_controls_stay_in_range_witness :
  let p := mkProduct "p1" "Yoga Mat" "" (Q2Qc (3499 # 100)) "" None 3 false in
  let st := ProductDetail.mkState 1 false in
  let cs := [ProductDetail.Plus; ProductDetail.Plus; ProductDetail.Plus;
             ProductDetail.Plus; ProductDetail.Typed (Some 0);
             ProductDetail.Minus; ProductDetail.Typed (Some 99);
             ProductDetail.Typed None; ProductDetail.Typed (Some (-5))] in
  1 <= ProductDetail.quantity (fold_left (ProductDetail.operate p) cs st) <= 3.
Proof.
  intros p st cs.
  destruct quantity_controls_stay_in_range as [_ H].
  apply (H p cs st); simpl; lia.
Defined.

(** ** The cart badge *)

Lemma fold_left_sum (rows : list Z) (acc : Z) :
  fold_left (fun sum q => sum + q) rows acc = acc + fold_right Z.add 0 rows.
Proof.
  revert acc. induction rows as [|q rows IH]; intros acc; simpl; [lia|].
  rewrite IH. lia.
Qed.

Lemma updateCartCount_ok (u : User) (st : App.State) (w : world) :
  w_net w 0%nat = true ->
  App.updateCartCount (Some u) st w
  = (App.setCartItemCount (units_in_cart (u_id u) (w_db w)) st,
     mkWorld (w_db w) (fun k => w_net w (S k)) (w_rand w) (w_log w)).
Proof.
  intros Hnet. unfold App.updateCartCount.
  erewrite bind_eq
    by (unfold supabase.cart_items_quantities; now apply round_trip_ok).
  cbn [fst snd data session option_map]. rewrite select_own_lines, fold_left_sum.
  reflexivity.
Qed.

Lemma units_at_least_lines (t : list cart_item) :
  forallb cart_item_check t = true ->
  Z.of_nat (List.length t) <= fold_right Z.add 0 (map ci_quantity t).
Proof.
  induction t as [|r t IH]; simpl; intros H; [lia|].
  apply andb_true_iff in H. destruct H as [Hr Ht].
  unfold cart_item_check in Hr. apply Z.ltb_lt in Hr.
  specialize (IH Ht). lia.
Qed.

(** X10. The badge on the cart icon.  After a delivered refresh the count is
    the number of units in the user's cart, the sum of the quantities of its
    lines; in a database within its constraints it is at least the number of
    lines, so the badge is shown exactly when the cart is not empty.  When
    the request is lost the count shown stays what it was. *)
Theorem badge_counts_units (u : User) (st : App.State) (w : world) :
  let st' := fst (App.updateCartCount (Some u) st w) in
  let lines := filter (owned_by (u_id u)) (cart_items (w_db w)) in
  (w_net w 0%nat = true ->
   App.cartItemCount st' = units_in_cart (u_id u) (w_db w)
   /\ (db_constraints (w_db w) = true ->
       Z.of_nat (List.length lines) <= App.cartItemCount st'
       /\ (Header.showsBadge (Some u) (App.cartItemCount st') = true
           <-> lines <> [])))
  /\ (w_net w 0%nat = false -> st' = st).
Proof.
  intros st' lines. split.
  - intros Hnet. subst st'. rewrite updateCartCount_ok by assumption.
    cbn [fst App.cartItemCount App.setCartItemCount].
    split; [reflexivity|]. intros Hwf.
    destruct (db_constraints_cart _ Hwf) as [Hchk _].
    assert (Hl : forallb cart_item_check lines = true)
      by now apply forallb_filter.
    pose proof (units_at_least_lines lines Hl) as Hge.
    fold lines in Hge. unfold units_in_cart. fold lines.
    split; [exact Hge|]. unfold Header.showsBadge. rewrite Z.ltb_lt.
    destruct lines as [|r l]; simpl in *.
    + split; [lia | congruence].
    + split; [discriminate | lia].
  - intros Hnet. subst st'. unfold App.updateCartCount. rewrite bind_run.
    unfold supabase.cart_items_quantities.
    rewrite round_trip_lost by assumption. reflexivity.
Qed.

Lemma badge_counts_units_witness :
  let u := mkUser "alice" None in
  let db := mkDb [] [mkProduct "p1" "Yoga Mat" "" (Q2Qc (3499 # 100)) "" None 120 false]
              [mkCartItem "c1" "alice" (Some "p1") 2;
               mkCartItem "c2" "bob" (Some "p1") 7;
               mkCartItem "c3" "alice" None 4] [] [] in
  let w := mkWorld db (fun _ => true) (fun _ => "id") [] in
  App.cartItemCount
    (fst (App.updateCartCount (Some u) (App.mkState None false false false 0) w))
  = 6.
Proof.
  intros u db w.
  destruct (badge_counts_units u (App.mkState None false false false 0) w)
    as [H _].
  destruct (H eq_refl) as [Hc _]. exact Hc.
Defined.




(** ** What the checkout reports *)

Lemma silent_ret {A : Type} (a : A) : silent (ret a).
Proof. intros w. reflexivity. Qed.

Lemma silent_bind {A B : Type} (m : M A) (k : A -> M B) :
  silent m -> (forall a, silent (k a)) -> silent (bind m k).
Proof. intros Hm Hk w. rewrite bind_run, Hk. apply Hm. Qed.

Lemma silent_round_trip {A : Type} (stmt : database -> response A * database) :
  silent (round_trip stmt).
Proof.
  intros w. unfold round_trip. destruct (w_net w 0%nat); [|reflexivity].
  now destruct (stmt (w_db w)).
Qed.

Lemma silent_uuids (n : nat) : silent (gen_random_uuids n).
Proof. intros w. now rewrite gen_random_uuids_run. Qed.

Lemma silent_order_items_insert (user : option User)
    (rows : list (string * string * Z * Qc)) :
  silent (supabase.order_items_insert user rows).
Proof.
  unfold supabase.order_items_insert. apply silent_bind; [apply silent_uuids|].
  intros ids. apply silent_round_trip.
Qed.

Lemma insert_orders_cases (caller : auth) (returning : bool) (rows : list order)
    (db : database) :
  insert_orders caller returning rows db
  = (None, set_orders (orders db ++ rows) db)
  \/ exists e, insert_orders caller returning rows db = (Some e, db).
Proof.
  unfold insert_orders.
  repeat match goal with
         | |- context [if ?c then _ else _] => destruct c; eauto
         end.
Qed.

Lemma keeps_orders_after_insert (u : User) (rows : list (string * string * Z * Qc))
    (k : M (outcome Checkout.State)) :
  keeps orders k ->
  keeps orders (bind (supabase.order_items_insert (Some u) rows)
                  (fun _ => bind (supabase.cart_items_delete_user (Some u) (u_id u))
                              (fun _ => k))).
Proof.
  intros Hk. frame_step.
  - unfold supabase.order_items_insert. frame_step; [frame_step|].
    frame_step. unfold written. cbn [snd].
    match goal with
    | |- orders (snd (insert_order_items ?c ?r ?d)) = _ =>
        destruct (insert_order_items_frame c r d) as [_ [H _]]; exact H
    end.
  - frame_step; [|exact Hk].
    unfold supabase.cart_items_delete_user. frame_step. reflexivity.
Qed.

Lemma orders_insert_single_cases (u : User) (T : Qc) (status nm em ad : string)
    (w : world) :
  let row := mkOrder (w_rand w 0%nat) (u_id u) T status nm em ad in
  supabase.orders_insert_single (Some u) (u_id u) T status nm em ad w
  = (mkResponse (Some row) None,
     mkWorld (set_orders (orders (w_db w) ++ [row]) (w_db w))
             (fun k => w_net w (S k)) (fun k => w_rand w (S k)) (w_log w))
  \/ exists e,
       supabase.orders_insert_single (Some u) (u_id u) T status nm em ad w
       = (mkResponse None (Some e),
          mkWorld (w_db w) (fun k => w_net w (S k)) (fun k => w_rand w (S k))
                  (w_log w)).
Proof.
  intros row. unfold supabase.orders_insert_single.
  rewrite bind_run. cbn [gen_random_uuid fst snd]. fold row.
  destruct (w_net w 0%nat) eqn:Hnet.
  - rewrite round_trip_ok by (simpl; exact Hnet).
    cbn [w_db w_net w_rand w_log session option_map].
    destruct (insert_orders_cases (Some (u_id u)) true [row] (w_db w))
      as [Hok|[e Herr]].
    + left. rewrite Hok. reflexivity.
    + right. exists e. rewrite Herr. reflexivity.
  - right. exists NetworkError. rewrite round_trip_lost by (simpl; exact Hnet).
    reflexivity.
Qed.

(** The two ways the submit handler can go once the dialog shows a total:
    the insert of the order fails, or it succeeds. *)
Lemma handlePlaceOrder_cases (u : User) (st : Checkout.State) (T : Qc)
    (w : world) :
  Checkout.total (Checkout.cartItems st) = Done T ->
  let res := Checkout.handlePlaceOrder (Some u) st w in
  let row := mkOrder (w_rand w 0%nat) (u_id u) T "pending"
               (Checkout.customerName st) (Checkout.customerEmail st)
               (Checkout.customerAddress st) in
  (fst res = Done (Checkout.setLoading false (Checkout.setLoading true st))
   /\ w_db (snd res) = w_db w
   /\ w_log (snd res) = w_log w ++ [Alert "Error placing order. Please try again."])
  \/ (orders (w_db (snd res)) = orders (w_db w) ++ [row]
      /\ ((fst res = TypeError /\ w_log (snd res) = w_log w)
          \/ (fst res = Done (Checkout.setOrderPlaced true
                                (Checkout.setLoading false
                                   (Checkout.setLoading true st)))
              /\ w_log (snd res) = w_log w ++ [DispatchEvent "cart-updated"]))).
Proof.
  intros HT res row. subst res. unfold Checkout.handlePlaceOrder. rewrite HT.
  change (Checkout.customerName (Checkout.setLoading true st))
    with (Checkout.customerName st).
  change (Checkout.customerEmail (Checkout.setLoading true st))
    with (Checkout.customerEmail st).
  change (Checkout.customerAddress (Checkout.setLoading true st))
    with (Checkout.customerAddress st).
  change (Checkout.cartItems (Checkout.setLoading true st))
    with (Checkout.cartItems st).
  destruct (orders_insert_single_cases u T "pending" (Checkout.customerName st)
              (Checkout.customerEmail st) (Checkout.customerAddress st) w)
    as [Hok|[e Herr]].
  - right. erewrite bind_eq by exact Hok. cbn [error data o_id].
    destruct (Checkout.orderItems (w_rand w 0%nat) (Checkout.cartItems st))
      as [rows|].
    + split.
      * rewrite keeps_orders_after_insert by (repeat frame_step). reflexivity.
      * right. rewrite !bind_run. cbn [ret dispatchEvent perform fst snd w_log].
        split; [reflexivity|].
        unfold supabase.cart_items_delete_user.
        rewrite silent_round_trip, silent_order_items_insert. reflexivity.
    + split; [reflexivity|]. left. split; reflexivity.
  - left. erewrite bind_eq by exact Herr. cbn [error data].
    repeat split.
Qed.




(** X14. A reported success means one new order.  Whenever the submit makes
    the dialog show "order placed" that it did not show before, exactly one
    row was appended to [orders]: it belongs to the user, is pending, carries
    the name, e-mail and address of the form and the total the dialog showed;
    this holds even when the requests that follow the insert of the order are
    lost. *)
Theorem success_means_one_order (u : User) (st st' : Checkout.State)
    (w : world) :
  let res := Checkout.handlePlaceOrder (Some u) st w in
  Checkout.orderPlaced st = false ->
  fst res = Done st' -> Checkout.orderPlaced st' = true ->
  exists T,
    Checkout.total (Checkout.cartItems st) = Done T
    /\ orders (w_db (snd res))
       = orders (w_db w)
         ++ [mkOrder (w_rand w 0%nat) (u_id u) T "pending"
               (Checkout.customerName st) (Checkout.customerEmail st)
               (Checkout.customerAddress st)]
    /\ w_log (snd res) = w_log w ++ [DispatchEvent "cart-updated"].
Proof.
  intros res Hst Hres Hplaced. subst res.
  destruct (Checkout.total (Checkout.cartItems st)) as [T|] eqn:HT.
  - exists T. split; [reflexivity|].
    destruct (handlePlaceOrder_cases u st T w HT)
      as [[Hr _]|[Ho [[Hr _]|[_ Hl]]]].
    + rewrite Hr in Hres. injection Hres as <-. simpl in Hplaced. congruence.
    + rewrite Hr in Hres. discriminate.
    + split; assumption.
  - unfold Checkout.handlePlaceOrder in Hres. rewrite HT in Hres. discriminate.
Qed.

Lemma success_means_one_order_witness :
  let db := mkDb [] [mkProduct "p1" "Desk Lamp" "" (Q2Qc (3999 # 100)) "" None 90 false]
              [mkCartItem "c1" "alice" (Some "p1") 2] [] [] in
  let w := mkWorld db (fun k => Nat.eqb k 0) (fun _ => "o1") [] in
  let u := mkUser "alice" None in
  let st := Checkout.mkState
              [Checkout.mkCartItem "c1" 2
                 (Some (Checkout.mkCartProduct "p1" "Desk Lamp" (Q2Qc (3999 # 100))))]
              "A" "a@x.com" "1 Main St" false false in
  map (fun o => (o_id o, o_user_id o, this (o_total o)))
      (orders (w_db (snd (Checkout.handlePlaceOrder (Some u) st w))))
  = [("o1", "alice", 3999 # 50)]
  /\ order_items (w_db (snd (Checkout.handlePlaceOrder (Some u) st w))) = [].
Proof.
  intros db w u st.
  destruct (success_means_one_order u st
              (Checkout.setOrderPlaced true
                 (Checkout.setLoading false (Checkout.setLoading true st)))
              w eq_refl eq_refl eq_refl) as [T [HT [Ho _]]].
  split; [|reflexivity].
  rewrite Ho. injection HT as <-. reflexivity.
Defined.

Lemma no_lines_left (uid : uuid) (t : list cart_item) :
  filter (owned_by uid) (filter (fun r => negb (owned_by uid r)) t) = [].
Proof. apply filter_neg_none. Qed.

(** X12. After the checkout the cart is empty wherever it is shown.  After a
    successful [placeOrder] (as in C1: a database within its constraints,
    cart lines with products, requests delivered, fresh identifiers) the next
    refresh of the badge counts zero and hides the badge, and the next
    refresh of the cart drawer shows no line and offers no checkout. *)
Theorem checkout_empties_the_views (usr : User) (info : Checkout.CustomerInfo)
    (st0 : Checkout.State) (app : App.State) (cart : ShoppingCart.State)
    (w : world) :
  let db := w_db w in
  let lines := filter (owned_by (u_id usr)) (cart_items db) in
  db_constraints db = true ->
  (forall r, In r lines -> ci_product_id r <> None) ->
  (forall k, (k < 5)%nat -> w_net w k = true) ->
  order_exists db (w_rand w 0%nat) = false ->
  distinct (map oi_id (order_items db) ++ next_ids w (List.length lines)) = true ->
  let w' := snd (Checkout.placeOrder (Some usr) info st0 w) in
  let app' := fst (App.handleCartUpdate (Some usr) app w') in
  let cart' := fst (ShoppingCart.fetchCartItems (Some usr) cart w') in
  App.cartItemCount app' = 0
  /\ Header.showsBadge (Some usr) (App.cartItemCount app') = false
  /\ ShoppingCart.cartItems cart' = []
  /\ ShoppingCart.offersCheckout cart' = false.
Proof.
  intros db lines Hwf Hsome Hnet Hfo Hfi w' app' cart'.
  assert (Hnet4 : forall k, (k < 4)%nat -> w_net w k = true)
    by (intros k Hk; apply Hnet; lia).
  destruct (placeOrder_run usr info st0 w Hwf Hsome Hnet4 Hfo Hfi)
    as [st [_ Hrun]].
  assert (Hw' : w' = snd (Checkout.placeOrder (Some usr) info st0 w)) by reflexivity.
  rewrite Hrun in Hw'. cbn [snd] in Hw'.
  assert (Hn : w_net w' 0%nat = true).
  { rewrite Hw'. cbn [w_net]. apply Hnet. lia. }
  assert (Hcart : filter (owned_by (u_id usr)) (cart_items (w_db w')) = []).
  { rewrite Hw'. cbn [w_db cart_items]. apply no_lines_left. }
  subst app' cart'. unfold App.handleCartUpdate.
  rewrite updateCartCount_ok, ShoppingCart_fetch_ok by assumption.
  cbn [fst App.cartItemCount App.setCartItemCount ShoppingCart.cartItems].
  unfold units_in_cart. rewrite select_own_lines, Hcart. repeat split.
Qed.

Lemma checkout_empties_the_views_witness :
  let usr := mkUser "u" None in
  let db := mkDb [] [mkProduct "p1" "Desk Lamp" "" (Q2Qc (3999 # 100)) "" None 90 false]
              [mkCartItem "c1" "u" (Some "p1") 2] [] [] in
  let w := mkWorld db (fun _ => true)
             (fun k => if Nat.eqb k 0 then "o1" else "i1") [] in
  let w' := snd (Checkout.placeOrder (Some usr)
                   (Checkout.mkCustomerInfo "A" "a@x.com" "1 Main St")
                   Checkout.initial w) in
  App.cartItemCount
    (fst (App.handleCartUpdate (Some usr) (App.mkState None false false false 2) w'))
  = 0.
Proof.
  intros usr db w w'.
  assert (Hsome : forall r, In r (filter (owned_by "u") (cart_items db)) ->
                            ci_product_id r <> None).
  { intros r [<-|[]]. discriminate. }
  destruct (checkout_empties_the_views usr
              (Checkout.mkCustomerInfo "A" "a@x.com" "1 Main St")
              Checkout.initial (App.mkState None false false false 2)
              (ShoppingCart.mkState [] false) w
              eq_refl Hsome (fun k _ => eq_refl) eq_refl eq_refl) as [H _].
  exact H.
Defined.

(** ** The order history *)

Lemma embed_order_product_caller (c1 c2 : auth) (db : database) (r : order_item) :
  supabase.embed_order_product c1 db r = supabase.embed_order_product c2 db r.
Proof. unfold supabase.embed_order_product. now rewrite !select_products_all. Qed.

Lemma select_lines_of_own_order (u : uuid) (o : order) (db : database) :
  In o (orders db) -> o_user_id o = u ->
  select_order_items (Some u) (fun r => opt_is (oi_order_id r) (o_id o)) db
  = lines_of_order db o.
Proof.
  intros Hin Hu. unfold select_order_items, lines_of_order.
  apply filter_ext. intros r.
  destruct (opt_is (oi_order_id r) (o_id o)) eqn:E; [|apply andb_false_r].
  rewrite andb_true_r.
  unfold order_items_select_policy, owns_referenced_order.
  apply existsb_exists. exists o. split.
  - apply filter_In. split; [assumption|]. policies. simpl.
    rewrite Hu. apply String.eqb_refl.
  - rewrite E. simpl. rewrite Hu. apply String.eqb_refl.
Qed.

Lemma caller_orders (u : uuid) (db : database) :
  select_orders (Some u) (fun o => String.eqb (o_user_id o) u) db
  = filter (order_owned_by u) (orders db).
Proof.
  unfold select_orders. apply filter_ext. intros o. policies.
  unfold order_owned_by. simpl. rewrite (String.eqb_sym u).
  now destruct (String.eqb (o_user_id o) u).
Qed.

Lemma withItems_ok (u : User) (o : order) (w : world) :
  w_net w 0%nat = true -> In o (orders (w_db w)) -> o_user_id o = u_id u ->
  Orders.withItems (Some u) o w
  = (shown_order (w_db w) o,
     mkWorld (w_db w) (fun k => w_net w (S k)) (w_rand w) (w_log w)).
Proof.
  intros Hnet Hin Hu. unfold Orders.withItems.
  erewrite bind_eq
    by (unfold supabase.order_items_with_product; now apply round_trip_ok).
  cbn [fst snd data session option_map ret].
  rewrite select_lines_of_own_order by assumption.
  rewrite (map_ext _ (fun r => (r, supabase.embed_order_product None (w_db w) r)))
    by (intros r; now rewrite (embed_order_product_caller None (Some (u_id u)))).
  reflexivity.
Qed.

Lemma all_ok (u : User) (l : list order) (w : world) :
  (forall k, w_net w k = true) ->
  (forall o, In o l -> In o (orders (w_db w)) /\ o_user_id o = u_id u) ->
  fst (Orders.all (Some u) l w) = map (shown_order (w_db w)) l
  /\ w_db (snd (Orders.all (Some u) l w)) = w_db w.
Proof.
  revert w. induction l as [|o l IH]; intros w Hnet Hl; [split; reflexivity|].
  cbn [Orders.all]. destruct (Hl o (or_introl eq_refl)) as [Hin Hu].
  erewrite bind_eq by (apply withItems_ok; auto).
  rewrite bind_run.
  set (w1 := mkWorld (w_db w) (fun k => w_net w (S k)) (w_rand w) (w_log w)).
  destruct (IH w1) as [Hf Hs].
  - intros k. apply Hnet.
  - intros o' Ho'. apply Hl. now right.
  - cbn [ret fst snd]. rewrite Hf, Hs. split; reflexivity.
Qed.

Lemma fetchOrders_ok (newest_first : list order -> list order)
    (u : User) (st : Orders.State) (w : world) :
  (forall l, Permutation (newest_first l) l) ->
  (forall k, w_net w k = true) ->
  let res := Orders.fetchOrders newest_first (Some u) st w in
  let own := filter (order_owned_by (u_id u)) (orders (w_db w)) in
  Orders.orders (fst res) = map (shown_order (w_db w)) (newest_first own)
  /\ Orders.loading (fst res) = false
  /\ w_db (snd res) = w_db w.
Proof.
  intros Hperm Hnet res own.
  assert (Hown : forall o, In o (newest_first own) ->
            In o (orders (w_db w)) /\ o_user_id o = u_id u).
  { intros o Ho. apply (Permutation_in _ (Hperm own)) in Ho.
    unfold own in Ho. apply filter_In in Ho. destruct Ho as [Hin Hu].
    split; [assumption|]. unfold order_owned_by in Hu. now apply String.eqb_eq. }
  subst res. unfold Orders.fetchOrders.
  erewrite bind_eq
    by (unfold supabase.orders_of; apply round_trip_ok; apply Hnet).
  cbn [fst snd data session option_map].
  rewrite caller_orders. fold own. rewrite bind_run.
  set (w1 := mkWorld (w_db w) (fun k => w_net w (S k)) (w_rand w) (w_log w)).
  destruct (all_ok u (newest_first own) w1) as [Hf Hs].
  - intros k. apply Hnet.
  - exact Hown.
  - cbn [ret fst snd]. rewrite Hf, Hs. repeat split.
Qed.

(** X16. The order history shows the user's orders, all of them and no
    others, each with its lines.  With every request delivered, and whatever
    order the sort on [created_at] puts the rows in, the orders shown are the
    orders of the database that the user owns, each as often as in the
    table; under each are the order lines that reference it, all of them and
    only those, and the database is not changed.  Without a user nothing is
    requested and the history stays as it is. *)
Theorem fetchOrders_shows_own_orders (newest_first : list order -> list order)
    (u : User) (st : Orders.State) (w : world) :
  (forall l, Permutation (newest_first l) l) ->
  (forall k, w_net w k = true) ->
  let res := Orders.fetchOrders newest_first (Some u) st w in
  let own := filter (order_owned_by (u_id u)) (orders (w_db w)) in
  Permutation (map Orders.row (Orders.orders (fst res))) own
  /\ (forall x, In x (Orders.orders (fst res)) ->
        In (Orders.row x) (orders (w_db w))
        /\ o_user_id (Orders.row x) = u_id u
        /\ map (fun i => (Orders.id i, Orders.quantity i, Orders.price i))
               (Orders.items x)
           = map (fun r => (oi_id r, oi_quantity r, oi_price r))
                 (lines_of_order (w_db w) (Orders.row x)))
  /\ Orders.loading (fst res) = false
  /\ w_db (snd res) = w_db w
  /\ Orders.fetchOrders newest_first None st w = (st, w).
Proof.
  intros Hperm Hnet res own.
  destruct (fetchOrders_ok newest_first u st w Hperm Hnet) as [Ho [Hl Hd]].
  fold res own in Ho, Hl, Hd.
  split; [|split; [|split; [exact Hl|split; [exact Hd|reflexivity]]]].
  - rewrite Ho, map_map. cbn [shown_order Orders.row]. rewrite map_id.
    apply Hperm.
  - intros x Hx. rewrite Ho in Hx. apply in_map_iff in Hx.
    destruct Hx as [o [<- Hin]].
    apply (Permutation_in _ (Hperm own)) in Hin.
    unfold own in Hin. apply filter_In in Hin. destruct Hin as [Hin Hu].
    unfold order_owned_by in Hu. apply String.eqb_eq in Hu.
    split; [exact Hin|]. split; [exact Hu|].
    cbn [shown_order Orders.row Orders.items].
    rewrite !map_map. reflexivity.
Qed.

Lemma fetchOrders_shows_own_orders_witness :
  let db := mkDb [] []
              []
              [mkOrder "o1" "alice" (Q2Qc 5) "pending" "A" "a@x.com" "1 Main St";
               mkOrder "o2" "bob" (Q2Qc 7) "pending" "B" "b@x.com" "2 Side St";
               mkOrder "o3" "alice" (Q2Qc 9) "pending" "A" "a@x.com" "1 Main St"]
              [mkOrderItem "i1" (Some "o1") None 1 (Q2Qc 5);
               mkOrderItem "i2" (Some "o2") None 1 (Q2Qc 7);
               mkOrderItem "i3" (Some "o3") None 3 (Q2Qc 3)] in
  let w := mkWorld db (fun _ => true) (fun _ => "id") [] in
  let res := Orders.fetchOrders (@rev order) (Some (mkUser "alice" None))
               (Orders.mkState [] false None) w in
  map (fun x => (o_id (Orders.row x), map Orders.id (Orders.items x)))
      (Orders.orders (fst res))
  = [("o3", ["i3"]); ("o1", ["i1"])]
  /\ w_db (snd res) = db.
Proof.
  intros db w res. split; [reflexivity|].
  destruct (fetchOrders_shows_own_orders (@rev order) (mkUser "alice" None)
              (Orders.mkState [] false None) w
              (fun l => Permutation_sym (Permutation_rev l))
              (fun _ => eq_refl)) as [_ [_ [_ [H _]]]].
  exact H.
Defined.





(** ** The checkout orders what the dialog shows *)

Lemma total_of_orderable (db : database) (items : list Checkout.CartItem) (acc : Qc) :
  (forall item, In item items -> orderable db item) ->
  Qc_nonneg acc = true ->
  exists T,
    fold_left
      (fun sum item =>
         match sum, Checkout.product item with
         | Done s, Some p =>
             Done (s + Checkout.cp_price p * Z2Qc (Checkout.quantity item))%Qc
         | _, _ => TypeError
         end)
      items (Done acc) = Done T
    /\ Qc_nonneg T = true.
Proof.
  revert acc. induction items as [|item items IH]; intros acc H Hacc.
  - exists acc. split; [reflexivity | exact Hacc].
  - destruct (H item (or_introl eq_refl)) as [cp [Hp [_ [Hpr Hq]]]].
    cbn [fold_left]. rewrite Hp. apply IH.
    + intros i Hi. apply H. now right.
    + apply Qc_nonneg_plus; [exact Hacc|].
      apply Qc_nonneg_mult; [exact Hpr|]. apply Qc_nonneg_Z2Qc. lia.
Qed.

Lemma orderItems_of_orderable (db : database) (oid : uuid)
    (items : list Checkout.CartItem) :
  (forall item, In item items -> orderable db item) ->
  exists rows,
    Checkout.orderItems oid items = Done rows
    /\ List.length rows = List.length items
    /\ forall row, In row rows ->
         exists pid q pr, row = (oid, pid, q, pr)
                          /\ product_exists db pid = true
                          /\ 0 < q /\ Qc_nonneg pr = true.
Proof.
  induction items as [|item items IH]; intros H.
  - exists []. split; [reflexivity|]. split; [reflexivity|]. contradiction.
  - destruct (H item (or_introl eq_refl)) as [cp [Hp [Hex [Hpr Hq]]]].
    destruct IH as [rows [Hrows [Hlen Hall]]]; [intros i Hi; apply H; now right|].
    cbn [Checkout.orderItems]. rewrite Hp, Hrows.
    eexists. split; [reflexivity|]. split; [simpl; now rewrite Hlen|].
    intros row [<-|Hrow]; [|now apply Hall].
    exists (Checkout.cp_id cp), (Checkout.quantity item), (Checkout.cp_price cp).
    auto.
Qed.

Lemma insert_rows_statement (u oid : uuid) (ids : list uuid)
    (rows : list (uuid * uuid * Z * Qc)) (db0 db : database) :
  products db = products db0 ->
  (exists o, In o (orders db) /\ o_id o = oid /\ o_user_id o = u) ->
  (forall row, In row rows ->
     exists pid q pr, row = (oid, pid, q, pr)
                      /\ product_exists db0 pid = true
                      /\ 0 < q /\ Qc_nonneg pr = true) ->
  List.length ids = List.length rows ->
  distinct (map oi_id (order_items db) ++ ids) = true ->
  insert_order_items (Some u) (map order_item_of (combine ids rows)) db
  = (None,
     set_order_items (order_items db ++ map order_item_of (combine ids rows)) db).
Proof.
  intros Hprod [o [Ho [Hoid Hou]]] Hrows Hlen Hd.
  unfold insert_order_items.
  set (new := map order_item_of (combine ids rows)).
  assert (Hnew : forall x, In x new ->
            exists id pid q pr,
              x = mkOrderItem id (Some oid) (Some pid) q pr
              /\ product_exists db0 pid = true /\ 0 < q /\ Qc_nonneg pr = true).
  { intros x Hx. unfold new in Hx. apply in_map_iff in Hx.
    destruct Hx as [[id row] [<- Hir]]. apply in_combine_r in Hir.
    destruct (Hrows row Hir) as [pid [q [pr [-> [H1 [H2 H3]]]]]].
    exists id, pid, q, pr. auto. }
  assert (Hown : order_exists db oid = true).
  { unfold order_exists. apply existsb_exists. exists o. split; [assumption|].
    now apply String.eqb_eq. }
  assert (E1 : forallb (order_items_insert_policy (Some u) db) new = true).
  { apply forallb_forall. intros x Hx.
    destruct (Hnew x Hx) as [id [pid [q [pr [-> _]]]]].
    policies. unfold owns_referenced_order. apply existsb_exists. exists o.
    split.
    - apply filter_In. split; [assumption|]. policies. simpl.
      rewrite Hou. apply String.eqb_refl.
    - simpl. rewrite Hoid, Hou, !String.eqb_refl. reflexivity. }
  assert (E2 : forallb order_item_check new = true).
  { apply forallb_forall. intros x Hx.
    destruct (Hnew x Hx) as [id [pid [q [pr [-> [_ [Hq Hpr]]]]]]].
    unfold order_item_check. simpl. rewrite Hpr.
    assert ((0 <? q) = true) as -> by now apply Z.ltb_lt. reflexivity. }
  assert (E3 : distinct (map oi_id (order_items db ++ new)) = true).
  { rewrite map_app. unfold new. rewrite map_map.
    replace (map (fun x => oi_id (order_item_of x)) (combine ids rows))
      with (map fst (combine ids rows))
      by (apply map_ext; now intros [i [[[a b] c] d]]).
    now rewrite map_fst_combine. }
  assert (E4 : forallb (fun r => fk_ok (order_exists db) (oi_order_id r)) new = true).
  { apply forallb_forall. intros x Hx.
    destruct (Hnew x Hx) as [id [pid [q [pr [-> _]]]]]. simpl. exact Hown. }
  assert (E5 : forallb (fun r => fk_ok (product_exists db) (oi_product_id r)) new = true).
  { apply forallb_forall. intros x Hx.
    destruct (Hnew x Hx) as [id [pid [q [pr [-> [Hex _]]]]]]. simpl.
    unfold product_exists in *. now rewrite Hprod. }
  rewrite E1, E2, E3, E4, E5. reflexivity.
Qed.

(** X15. The checkout orders what the dialog shows, and empties the cart that
    is in the database.  Whatever the dialog holds (its items may be older
    than the cart), if each item shown can be ordered, the three requests are
    delivered and the identifiers are fresh, the submit appends one pending
    order whose total is the total of the items shown, appends one order line
    per item shown with the product, quantity and price shown, and deletes
    every cart line the user has in the database, shown or not. *)
Theorem handlePlaceOrder_orders_what_is_shown (usr : User) (st : Checkout.State)
    (w : world) :
  let db := w_db w in
  let items := Checkout.cartItems st in
  let oid := w_rand w 0%nat in
  let ids := next_ids w (List.length items) in
  db_constraints db = true ->
  (forall item, In item items -> orderable db item) ->
  w_net w 0%nat = true -> w_net w 1%nat = true -> w_net w 2%nat = true ->
  order_exists db oid = false ->
  distinct (map oi_id (order_items db) ++ ids) = true ->
  let res := Checkout.handlePlaceOrder (Some usr) st w in
  let db' := w_db (snd res) in
  exists T rows,
    Checkout.total items = Done T
    /\ Checkout.orderItems oid items = Done rows
    /\ List.length rows = List.length items
    /\ orders db'
       = orders db
         ++ [mkOrder oid (u_id usr) T "pending" (Checkout.customerName st)
               (Checkout.customerEmail st) (Checkout.customerAddress st)]
    /\ order_items db' = order_items db ++ map order_item_of (combine ids rows)
    /\ cart_items db'
       = filter (fun r => negb (owned_by (u_id usr) r)) (cart_items db)
    /\ fst res = Done (Checkout.setOrderPlaced true
                         (Checkout.setLoading false (Checkout.setLoading true st))).
Proof.
  intros db items oid ids Hwf Hitems H0 H1 H2 Hfo Hfi res db'.
  destruct (db_constraints_rest _ Hwf) as [_ [Hdo _]].
  destruct (total_of_orderable db items (Q2Qc 0) Hitems Qc_nonneg_zero)
    as [T [HT HTn]].
  destruct (orderItems_of_orderable db oid items Hitems) as [rows [Hrows [Hlen Hall]]].
  exists T, rows. split; [exact HT|]. split; [exact Hrows|]. split; [exact Hlen|].
  subst res db'. unfold Checkout.handlePlaceOrder.
  fold items. unfold Checkout.total in HT. unfold Checkout.total. rewrite HT.
  erewrite bind_eq by (apply orders_insert_single_ok; auto).
  cbn [error data o_id].
  change (Checkout.cartItems (Checkout.setLoading true st)) with items.
  fold oid. rewrite Hrows.
  assert (Hins : supabase.order_items_insert (Some usr) rows
                   (mkWorld
                      (set_orders
                         (orders db
                          ++ [mkOrder oid (u_id usr) T "pending"
                                (Checkout.customerName (Checkout.setLoading true st))
                                (Checkout.customerEmail (Checkout.setLoading true st))
                                (Checkout.customerAddress (Checkout.setLoading true st))])
                         db)
                      (fun k => w_net w (S k)) (fun k => w_rand w (S k)) (w_log w))
                 = (mkResponse None None,
                    mkWorld
                      (set_order_items
                         (order_items db ++ map order_item_of (combine ids rows))
                         (set_orders
                            (orders db
                             ++ [mkOrder oid (u_id usr) T "pending"
                                   (Checkout.customerName (Checkout.setLoading true st))
                                   (Checkout.customerEmail (Checkout.setLoading true st))
                                   (Checkout.customerAddress (Checkout.setLoading true st))])
                            db))
                      (fun k => w_net w (S (S k)))
                      (fun k => w_rand w (S (List.length rows + k)))
                      (w_log w))).
  { unfold supabase.order_items_insert.
    erewrite bind_eq by apply gen_random_uuids_run.
    rewrite round_trip_ok by (simpl; assumption).
    cbn [w_db w_net w_rand w_log session option_map].
    fold order_item_of.
    change (fun ir : string * (string * string * Z * Qc) =>
              let (id, y) := ir in
              let (y0, price) := y in
              let (y1, quantity) := y0 in
              let (order_id, product_id) := y1 in
              mkOrderItem id (Some order_id) (Some product_id) quantity price)
      with order_item_of.
    assert (Hids : map (fun k => w_rand w (S k)) (seq 0 (List.length rows)) = ids).
    { unfold ids, next_ids. now rewrite Hlen. }
    rewrite Hids.
    rewrite (insert_rows_statement (u_id usr) oid ids rows db).
    - reflexivity.
    - reflexivity.
    - eexists. split; [|split].
      + cbn [orders set_orders]. apply in_or_app. right. left. reflexivity.
      + reflexivity.
      + reflexivity.
    - exact Hall.
    - unfold ids, next_ids. now rewrite length_map, length_seq.
    - exact Hfi. }
  erewrite bind_eq by exact Hins.
  erewrite bind_eq by (now apply cart_items_delete_user_ok).
  erewrite bind_eq by reflexivity.
  cbn [ret fst snd w_db].
  repeat split.
Qed.

Lemma handlePlaceOrder_orders_what_is_shown_witness :
  let usr := mkUser "u" None in
  let lamp := mkProduct "p1" "Desk Lamp" "" (Q2Qc (4999 # 100)) "" None 90 false in
  let db := mkDb [] [lamp]
              [mkCartItem "c1" "u" (Some "p1") 2;
               mkCartItem "c2" "u" None 1] [] [] in
  let w := mkWorld db (fun _ => true)
             (fun k => if Nat.eqb k 0 then "o1" else "i1") [] in
  let st := Checkout.mkState
              [Checkout.mkCartItem "c1" 1
                 (Some (Checkout.mkCartProduct "p1" "Desk Lamp" (Q2Qc (3999 # 100))))]
              "A" "a@x.com" "1 Main St" false false in
  let db' := w_db (snd (Checkout.handlePlaceOrder (Some usr) st w)) in
  map (fun o => this (o_total o)) (orders db') = [3999 # 100]
  /\ cart_items db' = [].
Proof.
  intros usr lamp db w st db'.
  assert (Hitems : forall item, In item (Checkout.cartItems st) -> orderable db item).
  { intros item [<-|[]]. eexists. split; [reflexivity|].
    repeat split; reflexivity. }
  destruct (handlePlaceOrder_orders_what_is_shown usr st w eq_refl Hitems
              eq_refl eq_refl eq_refl eq_refl eq_refl)
    as [T [rows [HT [_ [_ [Ho [_ [Hc _]]]]]]]].
  fold db' in Ho, Hc. split; [|exact Hc].
  rewrite Ho. injection HT as <-. reflexivity.
Defined.

(** ** The cart drawer *)

Lemma update_without_target (caller : auth) (where_ : cart_item -> bool)
    (set_ : cart_item -> cart_item) (db : database) :
  db_constraints db = true ->
  (forall r, In r (cart_items db) ->
             cart_items_update_target caller where_ r = false) ->
  update_cart_items caller where_ set_ db = (None, db).
Proof.
  intros Hwf Hno.
  destruct (db_constraints_cart db Hwf) as [_ [Hpk [Huniq _]]].
  unfold update_cart_items.
  rewrite (filter_false_in _ _ Hno).
  assert (Hid : map (fun r => if cart_items_update_target caller where_ r
                              then set_ r else r) (cart_items db)
                = cart_items db).
  { rewrite <- (map_id (cart_items db)) at 2. apply map_ext_in. intros r Hr.
    now rewrite (Hno r Hr). }
  rewrite Hid, Hpk, Huniq. cbn [map forallb negb andb].
  now rewrite set_cart_items_same.
Qed.

Lemma delete_without_target (caller : auth) (where_ : cart_item -> bool)
    (db : database) :
  (forall r, In r (cart_items db) ->
             cart_items_delete_target caller where_ r = false) ->
  delete_cart_items caller where_ db = (None, db).
Proof.
  intros H. unfold delete_cart_items. rewrite filter_all.
  - now rewrite set_cart_items_same.
  - intros r Hr. now rewrite (H r Hr).
Qed.

Lemma foreign_line_no_target (caller : auth) (id : uuid) (line : cart_item)
    (db : database) :
  db_constraints db = true -> In line (cart_items db) -> ci_id line = id ->
  caller <> Some (ci_user_id line) ->
  forall r, In r (cart_items db) ->
    cart_items_select_policy caller r && String.eqb (ci_id r) id = false.
Proof.
  intros Hwf Hin Hid Hother r Hr.
  destruct (db_constraints_cart db Hwf) as [_ [Hpk _]].
  destruct (String.eqb (ci_id r) id) eqn:E; [|apply andb_false_r].
  apply String.eqb_eq in E.
  assert (r = line) as -> by (apply (distinct_in_eq ci_id (cart_items db)); congruence).
  rewrite andb_true_r. policies. destruct caller as [c|]; [|reflexivity].
  simpl. apply String.eqb_neq. congruence.
Qed.

(** X18. The cart drawer cannot reach into another cart.  In a database
    within its constraints, [updateQuantity] and [removeItem] called with the
    identifier of a line that belongs to somebody else (or called without a
    session) leave the whole database as it was, whatever the quantity and
    whether or not the requests are delivered. *)
Theorem cart_drawer_spares_foreign_lines (user : option User) (itemId : uuid)
    (n : Z) (line : cart_item) (st : ShoppingCart.State) (w : world) :
  db_constraints (w_db w) = true ->
  In line (cart_items (w_db w)) -> ci_id line = itemId ->
  session user <> Some (ci_user_id line) ->
  w_db (snd (ShoppingCart.updateQuantity user itemId n st w)) = w_db w
  /\ w_db (snd (ShoppingCart.removeItem user itemId st w)) = w_db w.
Proof.
  intros Hwf Hin Hid Hother.
  pose proof (foreign_line_no_target (session user) itemId line (w_db w)
                Hwf Hin Hid Hother) as Hno.
  split.
  - unfold ShoppingCart.updateQuantity. destruct (n <? 1); [reflexivity|].
    rewrite bind_run.
    destruct (ShoppingCart_fetch_db user st
                (snd (supabase.cart_items_update_quantity user itemId n w)))
      as [Hdb _].
    rewrite Hdb. unfold supabase.cart_items_update_quantity.
    apply round_trip_db_same. unfold written. cbn [snd].
    rewrite update_without_target; [reflexivity | exact Hwf |].
    intros r Hr. unfold cart_items_update_target.
    specialize (Hno r Hr).
    destruct (cart_items_select_policy (session user) r); [|reflexivity].
    simpl in Hno. rewrite Hno. apply andb_false_r.
  - unfold ShoppingCart.removeItem. rewrite !bind_run.
    cbn [dispatchEvent perform ret fst snd w_db].
    match goal with
    | |- w_db (snd (ShoppingCart.fetchCartItems ?u ?s ?x)) = _ =>
        destruct (ShoppingCart_fetch_db u s x) as [Hdb _]; rewrite Hdb
    end.
    unfold supabase.cart_items_delete_id.
    apply round_trip_db_same. unfold written. cbn [snd].
    rewrite delete_without_target.
    + reflexivity.
    + intros r Hr. unfold cart_items_delete_target.
      specialize (Hno r Hr).
      destruct (cart_items_select_policy (session user) r); [|reflexivity].
      simpl in Hno. rewrite Hno. apply andb_false_r.
Qed.

Lemma cart_drawer_spares_foreign_lines_witness :
  let bob := Some (mkUser "bob" None) in
  let db := mkDb [] [mkProduct "p1" "Yoga Mat" "" (Q2Qc (3499 # 100)) "" None 120 false]
              [mkCartItem "c1" "alice" (Some "p1") 2] [] [] in
  let w := mkWorld db (fun _ => true) (fun _ => "id") [] in
  let st := ShoppingCart.mkState [] false in
  w_db (snd (ShoppingCart.updateQuantity bob "c1" 7 st w)) = db
  /\ w_db (snd (ShoppingCart.removeItem bob "c1" st w)) = db.
Proof.
  intros bob db w st.
  apply (cart_drawer_spares_foreign_lines bob "c1" 7
           (mkCartItem "c1" "alice" (Some "p1") 2) st w).
  - reflexivity.
  - now left.
  - reflexivity.
  - discriminate.
Defined.

Lemma remove_by_key {A : Type} (key : A -> uuid) (t : list A) (a : A) :
  distinct (map key t) = true -> In a t ->
  S (List.length (filter (fun r => negb (String.eqb (key r) (key a))) t))
  = List.length t.
Proof.
  induction t as [|x t IH]; [contradiction|].
  intros Hd Hin. cbn [map distinct] in Hd.
  apply andb_true_iff in Hd. destruct Hd as [Hx Hd].
  apply negb_true_iff in Hx.
  cbn [filter]. destruct (String.eqb (key x) (key a)) eqn:E.
  - cbn [negb List.length]. f_equal.
    rewrite filter_all; [reflexivity|].
    intros r Hr. apply negb_false_iff, negb_true_iff. rewrite negb_involutive.
    destruct (String.eqb (key r) (key a)) eqn:E2; [|reflexivity].
    apply String.eqb_eq in E, E2.
    assert (existsb (String.eqb (key x)) (map key t) = true) as Hex.
    { apply existsb_exists. exists (key r). split; [now apply in_map|].
      apply String.eqb_eq. congruence. }
    congruence.
  - cbn [negb List.length]. f_equal. apply IH; [exact Hd|].
    destruct Hin as [->|Hin]; [|exact Hin].
    now rewrite String.eqb_refl in E.
Qed.

(** X19. Removing a line of one's own cart removes exactly that line.  In a
    database within its constraints, with both requests delivered,
    [removeItem] called by the owner of a line deletes that line and no
    other: the cart table is the old one without the rows of that
    identifier, it has one row less, the other tables are as they were, and
    the drawer no longer shows an item of that identifier. *)
Theorem removeItem_removes_the_line (u : User) (itemId : uuid)
    (line : cart_item) (st : ShoppingCart.State) (w : world) :
  db_constraints (w_db w) = true ->
  In line (cart_items (w_db w)) -> ci_id line = itemId ->
  ci_user_id line = u_id u ->
  w_net w 0%nat = true -> w_net w 1%nat = true ->
  let res := ShoppingCart.removeItem (Some u) itemId st w in
  let db' := w_db (snd res) in
  db' = set_cart_items
          (filter (fun r => negb (String.eqb (ci_id r) itemId))
                  (cart_items (w_db w)))
          (w_db w)
  /\ ~ In line (cart_items db')
  /\ S (List.length (cart_items db')) = List.length (cart_items (w_db w))
  /\ (forall r, In r (cart_items (w_db w)) -> ci_id r <> itemId ->
                In r (cart_items db'))
  /\ (forall item, In item (ShoppingCart.cartItems (fst res)) ->
                   ShoppingCart.id item <> itemId).
Proof.
  intros Hwf Hin Hid Hown H0 H1 res db'.
  destruct (db_constraints_cart _ Hwf) as [_ [Hpk _]].
  assert (Hdel : snd (delete_cart_items (Some (u_id u))
                        (fun r => String.eqb (ci_id r) itemId) (w_db w))
                 = set_cart_items
                     (filter (fun r => negb (String.eqb (ci_id r) itemId))
                             (cart_items (w_db w)))
                     (w_db w)).
  { unfold delete_cart_items. cbn [snd]. f_equal.
    apply filter_ext_in. intros r Hr. f_equal.
    unfold cart_items_delete_target.
    destruct (String.eqb (ci_id r) itemId) eqn:E; [|apply andb_false_r].
    apply String.eqb_eq in E.
    assert (r = line) as -> by (apply (distinct_in_eq ci_id (cart_items (w_db w))); congruence).
    policies. simpl. now rewrite Hown, String.eqb_refl. }
  pose proof (removeItem_run (Some u) itemId st w H0 H1) as Hrun.
  cbv zeta in Hrun. cbn [session option_map] in Hrun. rewrite Hdel in Hrun.
  subst db' res. rewrite Hrun. cbn [fst snd w_db ShoppingCart.cartItems].
  split; [reflexivity|].
  assert (Hcart : forall db t, cart_items (set_cart_items t db) = t)
    by (intros; reflexivity).
  rewrite Hcart.
  split; [|split; [|split]].
  - intros Hc. apply filter_In in Hc. destruct Hc as [_ Hc].
    rewrite Hid, String.eqb_refl in Hc. discriminate.
  - rewrite <- Hid. now apply (remove_by_key ci_id).
  - intros r Hr Hne. apply filter_In. split; [exact Hr|].
    apply negb_true_iff. now apply String.eqb_neq.
  - intros item Hitem. apply in_map_iff in Hitem.
    destruct Hitem as [[r p] [<- Hrp]]. apply in_map_iff in Hrp.
    destruct Hrp as [r' [Heq Hr']]. injection Heq as -> _.
    unfold select_cart_items in Hr'. apply filter_In in Hr'.
    destruct Hr' as [Hr' _]. rewrite Hcart in Hr'.
    apply filter_In in Hr'. destruct Hr' as [_ Hr'].
    apply negb_true_iff in Hr'. cbn [ShoppingCart.item_of ShoppingCart.id fst].
    now apply String.eqb_neq.
Qed.

Lemma removeItem_removes_the_line_witness :
  let alice := mkUser "alice" None in
  let db := mkDb [] [mkProduct "p1" "Yoga Mat" "" (Q2Qc (3499 # 100)) "" None 120 false;
                     mkProduct "p2" "Desk Lamp" "" (Q2Qc (3999 # 100)) "" None 90 false]
              [mkCartItem "c1" "alice" (Some "p1") 2;
               mkCartItem "c2" "alice" (Some "p2") 1;
               mkCartItem "c3" "bob" (Some "p1") 4] [] [] in
  let w := mkWorld db (fun _ => true) (fun _ => "id") [] in
  let st := ShoppingCart.mkState [] false in
  cart_items (w_db (snd (ShoppingCart.removeItem (Some alice) "c1" st w)))
  = [mkCartItem "c2" "alice" (Some "p2") 1; mkCartItem "c3" "bob" (Some "p1") 4].
Proof.
  intros alice db w st.
  destruct (removeItem_removes_the_line alice "c1"
              (mkCartItem "c1" "alice" (Some "p1") 2) st w
              eq_refl (or_introl eq_refl) eq_refl eq_refl eq_refl eq_refl)
    as [Hdb _].
  rewrite Hdb. reflexivity.
Defined.





(** ** The total the customer sees *)






(** ** The catalogue *)

Lemma select_categories_all (caller : auth) (db : database) :
  select_categories caller (fun _ => true) db = categories db.
Proof. unfold select_categories. now apply filter_all. Qed.

Lemma includes_empty (s : string) : includes s "" = true.
Proof. destruct s; reflexivity. Qed.

(** X22. The catalogue is public and shows everything at first.  For any
    visitor, signed in or not, the first render with both requests
    delivered leaves the component holding every product and every category
    of the database (in the order of the sort), shows all of them, ends the
    spinner and writes nothing.  If the products request is lost, the
    component holds no product, the spinner ends, and the "No products
    found" message is shown in place of an error. *)
Theorem catalog_first_render (by_name : list category -> list category)
    (newest_first : list product -> list product)
    (user : option User) (w : world) :
  (forall l, Permutation (by_name l) l) ->
  (forall l, Permutation (newest_first l) l) ->
  w_net w 0%nat = true ->
  let res := ProductCatalog.onMount by_name newest_first user
               ProductCatalog.initial w in
  let st := fst res in
  w_db (snd res) = w_db w
  /\ Permutation (ProductCatalog.categories st) (categories (w_db w))
  /\ ProductCatalog.loading st = false
  /\ (w_net w 1%nat = true ->
      Permutation (ProductCatalog.products st) (products (w_db w))
      /\ ProductCatalog.filteredProducts st = ProductCatalog.products st)
  /\ (w_net w 1%nat = false ->
      ProductCatalog.products st = []
      /\ ProductCatalog.showsNoProducts st = true).
Proof.
  intros Hcat Hprod H0 res st.
  assert (Hfirst : ProductCatalog.fetchCategories by_name user
                     ProductCatalog.initial w
                   = (ProductCatalog.setCategories
                        (by_name (categories (w_db w))) ProductCatalog.initial,
                      mkWorld (w_db w) (fun k => w_net w (S k)) (w_rand w) (w_log w))).
  { unfold ProductCatalog.fetchCategories.
    erewrite bind_eq
      by (unfold supabase.categories_all; now apply round_trip_ok).
    cbn [fst snd data ret]. now rewrite select_categories_all. }
  subst st res. unfold ProductCatalog.onMount.
  erewrite bind_eq by exact Hfirst.
  unfold ProductCatalog.fetchProducts, supabase.products_all.
  destruct (w_net w 1%nat) eqn:H1.
  - erewrite bind_eq by (apply round_trip_ok; exact H1).
    cbn [fst snd data ret w_db]. rewrite select_products_all.
    split; [reflexivity|]. split; [apply Hcat|]. split; [reflexivity|].
    split; [|discriminate]. intros _. split; [apply Hprod|].
    unfold ProductCatalog.filteredProducts.
    apply filter_all. intros p _.
    unfold ProductCatalog.matchesCategory, ProductCatalog.matchesSearch.
    cbn [ProductCatalog.selectedCategory ProductCatalog.searchQuery
         ProductCatalog.setProducts ProductCatalog.setLoading
         ProductCatalog.setCategories ProductCatalog.initial].
    cbn [toLowerCase]. now rewrite includes_empty.
  - erewrite bind_eq by (apply round_trip_lost; exact H1).
    cbn [fst snd data ret w_db].
    split; [reflexivity|]. split; [apply Hcat|]. split; [reflexivity|].
    split; [discriminate|]. intros _. split; reflexivity.
Qed.

Lemma catalog_first_render_witness :
  let db := mkDb [mkCategory "k1" "Sports" "sports" ""]
              [mkProduct "p1" "Yoga Mat" "" (Q2Qc (3499 # 100)) "" (Some "k1") 120 false;
               mkProduct "p2" "Desk Lamp" "" (Q2Qc (3999 # 100)) "" None 90 false]
              [] [] [] in
  let w := mkWorld db (fun _ => true) (fun _ => "id") [] in
  let st := fst (ProductCatalog.onMount (@rev category) (@rev product) None
                   ProductCatalog.initial w) in
  Permutation (ProductCatalog.products st) (products db)
  /\ ProductCatalog.filteredProducts st = ProductCatalog.products st.
Proof.
  intros db w st.
  destruct (catalog_first_render (@rev category) (@rev product) None w
              (fun l => Permutation_sym (Permutation_rev l))
              (fun l => Permutation_sym (Permutation_rev l)) eq_refl)
    as [_ [_ [_ [H _]]]].
  exact (H eq_refl).
Defined.





